(** * Cairo Traffic Dashboard: the ingestion-and-aggregation core of [new.py]

    A shallow embedding of the simulator ([generate_realistic_traffic_data]),
    the anomaly rules ([detect_anomaly]), the bounded in-memory store
    ([append_event]), the per-run control flow of the script and the
    windowed queries of the Overview and Analytics tabs.

    Conventions of the embedding:
    - a Python [float] is a primitive binary64 [float]; arithmetic and
      comparisons are the IEEE operations, so concrete runs evaluate to the
      very bits CPython produces;
    - a Python [int] is a [Z];
    - the pandas DataFrame held in the session is the list of its rows, oldest
      first; a row is the [Event] record (the dict built by the generator);
    - a timezone-aware [datetime] is the number of microseconds since the
      epoch;
    - a call into [random] is a function of an explicit draw. *)

From Stdlib Require Import ZArith List String Ascii Bool Lia Floats.
From Stdlib Require Import Permutation Sorted.
Import ListNotations.

Set Warnings "-inexact-float,-abstract-large-number".

Local Open Scope string_scope.
Local Open Scope list_scope.
Local Open Scope Z_scope.

(** ** Python numbers *)

Module Py.

(** [float(n)] for an int below 2^63 in magnitude (exact below 2^53). *)
Definition float_of_int (n : Z) : float :=
  if n <? 0 then (- of_uint63 (Uint63.of_Z (- n)))%float
  else of_uint63 (Uint63.of_Z n).

(** The mathematical value of a finite float is [sign * mant * 2^expo]. *)
Definition finite (x : float) : bool :=
  match Prim2SF x with
  | S754_zero _ | S754_finite _ _ _ => true
  | _ => false
  end.

(** [int(x)]: truncation toward zero; [None] on an infinity or a NaN,
    where CPython raises. *)
Definition int_of_float (x : float) : option Z :=
  match Prim2SF x with
  | S754_zero _ => Some 0
  | S754_finite s m e =>
      let a := Z.shiftl (Zpos m) e in
      Some (if s then - a else a)
  | _ => None
  end.

(** Round-half-even of the rational [num / 2^k] to an integer. *)
Definition round_half_even_shift (num : Z) (k : Z) : Z :=
  let d := 2 ^ k in
  let q := num / d in
  let r := num mod d in
  match (2 * r) ?= d with
  | Lt => q
  | Gt => q + 1
  | Eq => if Z.even q then q else q + 1
  end.

(** The integer nearest to [|x| * 10^ndigits] (ties to even), for a finite
    non-zero [x = mant * 2^expo]. *)
Definition scaled_nearest (m : positive) (e : Z) (ndigits : Z) : Z :=
  if 0 <=? e then Zpos m * 2 ^ e * 10 ^ ndigits
  else round_half_even_shift (Zpos m * 10 ^ ndigits) (- e).

(** The double nearest to [n / 10^ndigits], with the sign [s]. The
    quotient of two integers by [SFdiv] is rounded once, to nearest even. *)
Definition nearest_decimal (s : bool) (n : Z) (ndigits : Z) : float :=
  match n with
  | Zpos p =>
      SF2Prim (SFdiv prec emax (S754_finite s p 0)
                     (S754_finite false (Z.to_pos (10 ^ ndigits)) 0))
  | _ => SF2Prim (S754_zero s)
  end.

(** [round(x, ndigits)] on a float, for [0 <= ndigits]: infinities and NaN
    round to themselves; a finite value is rounded correctly (half to even,
    on its exact binary value) to [ndigits] decimals, and the decimal is
    read back as the nearest double. *)
Definition round_float (x : float) (ndigits : Z) : float :=
  match Prim2SF x with
  | S754_finite s m e => nearest_decimal s (scaled_nearest m e ndigits) ndigits
  | _ => x
  end.

(** The program's [speed] variable holds an int or a float, depending on
    which operand [max]/[min] returned. *)
Inductive num : Type :=
| Int (n : Z)
| Float (x : float).

Definition to_float (v : num) : float :=
  match v with
  | Int n => float_of_int n
  | Float x => x
  end.

(** [a < b] on mixed operands (exact for the ints of the program, which
    are all below 2^53). *)
Definition lt (a b : num) : bool :=
  match a, b with
  | Int m, Int n => m <? n
  | _, _ => (to_float a <? to_float b)%float
  end.

(** [min(a, b)] returns [a] unless [b < a]; [max(a, b)] returns [a] unless
    [b > a]. *)
Definition min (a b : num) : num := if lt b a then b else a.
Definition max (a b : num) : num := if lt a b then b else a.

(** [round(v, ndigits)]: an int is returned unchanged for [0 <= ndigits]. *)
Definition round (v : num) (ndigits : Z) : num :=
  match v with
  | Int n => Int n
  | Float x => Float (round_float x ndigits)
  end.

(** [sep.join(parts)] *)
Fixpoint join (sep : string) (parts : list string) : string :=
  match parts with
  | [] => ""
  | [p] => p
  | p :: rest => (p ++ sep ++ join sep rest)%string
  end.

End Py.

(** ** Settings / Constants *)

Definition SIM_DEFAULT_INTERVAL : Z := 5.
Definition MAX_EVENTS_KEEP : nat := 5000.

Record Location : Type := mkLocation {
  loc_id : string;
  loc_name : string;
  loc_lat : float;
  loc_lon : float;
  loc_cap : Z
}.

Definition LOCATIONS : list Location := [
  mkLocation "LOC001" "Tahrir Square" 30.0444 31.2357 120;
  mkLocation "LOC002" "Ramses Square" 30.0626 31.2497 150;
  mkLocation "LOC003" "6th October Bridge" 30.0626 31.2444 100;
  mkLocation "LOC004" "Nasr City - Abbas El Akkad" 30.0515 31.3381 80;
  mkLocation "LOC005" "Heliopolis - Uruba Street" 30.0808 31.3239 90;
  mkLocation "LOC006" "Maadi Corniche" 29.9594 31.2584 60;
  mkLocation "LOC007" "Ahmed Orabi Square" 30.0618 31.2001 110
].

Definition VEHICLE_TYPES : list string :=
  ["Car"; "Taxi"; "Bus"; "Microbus"; "Truck"; "Motorcycle"; "Delivery Van"].
Definition WEATHER_CONDITIONS : list string :=
  ["Clear"; "Cloudy"; "Light Rain"; "Heavy Rain"; "Foggy"; "Sandstorm"].
Definition TRAFFIC_INCIDENTS : list string :=
  ["None"; "Minor Accident"; "Major Accident"; "Vehicle Breakdown";
   "Road Construction"; "Police Checkpoint"].

(** ** The event dict *)

Record Event : Type := mkEvent {
  Timestamp : string;
  ts : Z;
  LocationID : string;
  LocationName : string;
  Latitude : float;
  Longitude : float;
  VehicleCount : Z;
  AverageSpeedKMH : float;
  DominantVehicleType : string;
  WeatherCondition : string;
  TrafficIncident : string;
  CongestionPercentage : float;
  IsRushHour : bool;
  RushFactor : float
}.

(** ** Anomaly detection *)

Definition detect_anomaly (event : Event) : list string :=
  let alerts := [] in
  let alerts :=
    if (AverageSpeedKMH event <? 10)%float
    then alerts ++ ["Low speed"] else alerts in
  let alerts :=
    if (100 <? AverageSpeedKMH event)%float
    then alerts ++ ["High speed"] else alerts in
  let alerts :=
    if (120 <? CongestionPercentage event)%float
    then alerts ++ ["Over capacity"]
    else if (85 <? CongestionPercentage event)%float
         then alerts ++ ["High congestion"] else alerts in
  let alerts :=
    if negb (String.eqb (TrafficIncident event) "None")
    then alerts ++ [("Incident: " ++ TrafficIncident event)%string] else alerts in
  alerts.

(** ** Exceptions *)

Inductive exn : Type :=
| IndexError
| ValueError
| ZeroDivisionError
| OverflowError.

Inductive result (A : Type) : Type :=
| Ok (a : A)
| Raise (e : exn).

Arguments Ok {A} a.
Arguments Raise {A} e.

Definition bind {A B : Type} (c : result A) (k : A -> result B) : result B :=
  match c with
  | Ok a => k a
  | Raise e => Raise e
  end.

Notation "x <- c ;; k" := (bind c (fun x => k))
  (at level 61, c at next level, right associativity).

Definition of_option {A : Type} (e : exn) (o : option A) : result A :=
  match o with
  | Some a => Ok a
  | None => Raise e
  end.

(** [int(v)] and [a / b] on ints, with the exceptions they raise: a
    ValueError on a NaN, an OverflowError on an infinity, a
    ZeroDivisionError on a zero divisor. *)
Definition py_int (v : Py.num) : result Z :=
  match v with
  | Py.Int n => Ok n
  | Py.Float x =>
      if is_nan x then Raise ValueError
      else of_option OverflowError (Py.int_of_float x)
  end.

Definition py_truediv (a b : Z) : result float :=
  if b =? 0 then Raise ZeroDivisionError
  else Ok (Py.float_of_int a / Py.float_of_int b)%float.

(** ** The [random] module, as functions of the underlying draw *)

Module Random.

(** [random.choice(seq)] is [seq[randbelow(len(seq))]]. *)
Definition choice {A : Type} (seq : list A) (k : nat) : result A :=
  of_option IndexError (nth_error seq (k mod List.length seq)%nat).

(** [random.randint(a, b)] is [a + randbelow(b - a + 1)], and a ValueError
    on an empty range. *)
Definition randint (a b : Z) (k : Z) : result Z :=
  if a <=? b then Ok (a + k mod (b - a + 1)) else Raise ValueError.

(** [random.random()], as CPython computes it from two 32-bit outputs of the
    generator: [a = w1 >> 5], [b = w2 >> 6] and
    [(a * 67108864.0 + b) * (1.0 / 9007199254740992.0)]. *)
Definition random (w1 w2 : Z) : float :=
  let a := Z.shiftr (w1 mod 2 ^ 32) 5 in
  let b := Z.shiftr (w2 mod 2 ^ 32) 6 in
  ((Py.float_of_int a * 67108864.0 + Py.float_of_int b)
   * (1.0 / 9007199254740992.0))%float.

(** [random.uniform(a, b)] is [a + (b - a) * random()]; [r] is the value
    [random()] returned. *)
Definition uniform (a b : Z) (r : float) : float :=
  (Py.float_of_int a + Py.float_of_int (b - a) * r)%float.

End Random.

(** One draw per call into [random] made by the generator. *)
Record Draws : Type := mkDraws {
  draw_location : nat;
  draw_vehicles : Z;
  draw_spike : float;
  draw_vehicle_type : nat;
  draw_speed_anomaly : float;
  draw_speed_band : float;
  draw_speed : float;
  draw_incident : float;
  draw_incident_choice : nat;
  draw_weather : nat
}.

(** ** Helpers: traffic generation *)

(** [dt_hour] is [dt.hour]; every caller passes [dt]. *)
Definition calculate_rush_hour_factor (dt_hour : Z) : float :=
  if (7 <=? dt_hour) && (dt_hour <=? 10) then 1.5%float
  else if (18 <=? dt_hour) && (dt_hour <=? 21) then 1.4%float
  else if (dt_hour <=? 6) || (22 <=? dt_hour) then 0.4%float
  else 1.0%float.

Section Generator.

(** [now.isoformat(timespec='seconds')] and [now.astimezone().hour]: the
    rendering and the host's time zone stay abstract. [now] is the instant
    passed in, or the clock's when the caller passes none. *)
Variable isoformat_seconds : Z -> string.
Variable astimezone_hour : Z -> Z.

Definition generate_realistic_traffic_data (d : Draws) (now : Z)
  : result Event :=
  location <- Random.choice LOCATIONS (draw_location d) ;;
  let rush_factor := calculate_rush_hour_factor (astimezone_hour now) in
  let cap := loc_cap location in
  lo <- py_int (Py.Float (Py.float_of_int cap * 0.3 * rush_factor)) ;;
  let min_vehicles := Z.max 5 lo in
  hi <- py_int (Py.Float (Py.float_of_int cap * 1.2 * rush_factor)) ;;
  let max_vehicles := Z.min cap hi in
  vehicle_count <- Random.randint min_vehicles max_vehicles (draw_vehicles d) ;;
  (* occasional congestion spike *)
  vehicle_count <-
    (if (draw_spike d <? 0.05)%float
     then py_int (Py.min (Py.Float (Py.float_of_int cap * 1.5))
                         (Py.Float (Py.float_of_int vehicle_count * 1.8)))
     else Ok vehicle_count) ;;
  vehicle_type <- Random.choice VEHICLE_TYPES (draw_vehicle_type d) ;;
  (* speed with rare anomalies *)
  let speed :=
    if (draw_speed_anomaly d <? 0.05)%float then
      if (draw_speed_band d <? 0.5)%float
      then Py.Float (Random.uniform 5 15 (draw_speed d))
      else Py.Float (Random.uniform 85 110 (draw_speed d))
    else
      let base_speed := Random.uniform 20 80 (draw_speed d) in
      let adjusted_speed :=
        (base_speed * (if (1.0 <? rush_factor) then 0.8 else 1.2))%float in
      Py.max (Py.Int 5)
             (Py.min (Py.Int 110) (Py.round (Py.Float adjusted_speed) 1)) in
  ratio <- py_truediv vehicle_count cap ;;
  let congestion_pct := Py.round_float (ratio * Py.float_of_int 100) 2 in
  incident <-
    (if (draw_incident d <? 0.1)%float
     then Random.choice TRAFFIC_INCIDENTS (draw_incident_choice d)
     else Ok "None") ;;
  weather <- Random.choice WEATHER_CONDITIONS (draw_weather d) ;;
  Ok {| Timestamp := isoformat_seconds now;
        ts := now;
        LocationID := loc_id location;
        LocationName := loc_name location;
        Latitude := loc_lat location;
        Longitude := loc_lon location;
        VehicleCount := vehicle_count;
        AverageSpeedKMH := Py.to_float (Py.round speed 2);
        DominantVehicleType := vehicle_type;
        WeatherCondition := weather;
        TrafficIncident := incident;
        CongestionPercentage := congestion_pct;
        IsRushHour := (1.0 <? rush_factor)%float;
        RushFactor := Py.round_float rush_factor 2 |}.

End Generator.

(** The documented contract of [random.uniform(a, b)]: a value [N] with
    [a <= N <= b]. *)
Definition uniform_in_range (a b : Z) (r : float) : Prop :=
  (Py.float_of_int a <=? Random.uniform a b r)%float = true /\
  (Random.uniform a b r <=? Py.float_of_int b)%float = true.

(** The contract, for the call the generator makes on its anomaly path (the
    base path needs none: its result is clamped). *)
Definition uniform_contract (d : Draws) : Prop :=
  if (draw_speed_anomaly d <? 0.05)%float then
    if (draw_speed_band d <? 0.5)%float
    then uniform_in_range 5 15 (draw_speed d)
    else uniform_in_range 85 110 (draw_speed d)
  else True.

(** The draws [d], with [r] for the value [random()] returns inside
    [random.uniform]. *)
Definition with_draw_speed (d : Draws) (r : float) : Draws :=
  {| draw_location := draw_location d;
     draw_vehicles := draw_vehicles d;
     draw_spike := draw_spike d;
     draw_vehicle_type := draw_vehicle_type d;
     draw_speed_anomaly := draw_speed_anomaly d;
     draw_speed_band := draw_speed_band d;
     draw_speed := r;
     draw_incident := draw_incident d;
     draw_incident_choice := draw_incident_choice d;
     draw_weather := draw_weather d |}.

(** ** The session state and the event store *)

Definition DataFrame : Type := list Event.

Definition df_empty (df : DataFrame) : bool :=
  match df with
  | [] => true
  | _ :: _ => false
  end.

(** [df.iloc[-n:]]: the last [n] rows (all of them for [n = 0], as [-0] is
    [0]). *)
Definition iloc_last (n : nat) (df : DataFrame) : DataFrame :=
  match n with
  | O => df
  | _ => skipn (List.length df - n) df
  end.

Definition append_event (e : Event) (df : DataFrame) : DataFrame :=
  let row := [e] in
  let df := if df_empty df then row else df ++ row in
  (* trim *)
  if (MAX_EVENTS_KEEP <? List.length df)%nat
  then iloc_last MAX_EVENTS_KEEP df
  else df.

Record Alert : Type := mkAlert {
  alert_timestamp : string;
  alert_location : string;
  alert_event : string;
  alert_raw : Event
}.

Record Session : Type := mkSession {
  session_df : DataFrame;
  session_running : bool;
  session_alerts : list Alert
}.

(** The sidebar widgets read by the control flow of one script run. *)
Record Sidebar : Type := mkSidebar {
  mode : string;
  run_sim : bool;
  stop_sim : bool;
  reset_data : bool
}.

Definition initial_session : Session := mkSession [] false [].

(** Control actions. *)
Definition control_actions (ui : Sidebar) (s : Session) : Session :=
  let s := if reset_data ui
           then mkSession [] (session_running s) [] else s in
  let s := if run_sim ui
           then mkSession (session_df s) true (session_alerts s) else s in
  let s := if stop_sim ui
           then mkSession (session_df s) false (session_alerts s) else s in
  s.

(** The body of the simulator branch: append the generated event, then
    record an alert when the detector reports anything. *)
Definition tick (ev : Event) (s : Session) : Session :=
  let df := append_event ev (session_df s) in
  let detected := detect_anomaly ev in
  let alerts :=
    match detected with
    | [] => session_alerts s
    | _ :: _ =>
        session_alerts s ++
        [ {| alert_timestamp := Timestamp ev;
             alert_location := LocationName ev;
             alert_event := Py.join ", " detected;
             alert_raw := ev |} ]
    end in
  mkSession df (session_running s) alerts.

(** One run of the script up to the rerun: [ev] is the event the generator
    returns when it is called. *)
Definition script_run (ui : Sidebar) (ev : Event) (s : Session) : Session :=
  let s := control_actions ui s in
  if String.eqb (mode ui) "Local Simulator (built-in)" && session_running s
  then tick ev s
  else s.

(** ** Overview and Analytics tabs *)

(** [df[pd.to_datetime(df["ts"]) >= cutoff]] *)
Definition rows_since (cutoff : Z) (df : DataFrame) : DataFrame :=
  filter (fun e => cutoff <=? ts e) df.

(** [df.iloc[-1]] *)
Definition iloc_neg1 (df : DataFrame) : result Event :=
  of_option IndexError (nth_error df (List.length df - 1)).

(** [timedelta(...)] in microseconds. *)
Definition minutes (n : Z) : Z := n * 60 * 1000000.
Definition hours (n : Z) : Z := n * 3600 * 1000000.

Inductive Overview : Type :=
| OverviewInfo (msg : string)
| OverviewMetrics (total recent : nat) (avg_speed avg_congestion : float).

(** The two counts shown by the Overview tab, when it shows any. *)
Definition overview_counts (o : Overview) : option (nat * nat) :=
  match o with
  | OverviewInfo _ => None
  | OverviewMetrics total recent _ _ => Some (total, recent)
  end.

Inductive TimeWindow : Type :=
| Last5Minutes
| Last1Hour
| Last24Hours
| AllEvents.

(** [df["ts"].min()] of a frame with at least one row. *)
Definition ts_min (first : Event) (rest : DataFrame) : Z :=
  fold_left (fun m e => Z.min m (ts e)) rest (ts first).

(** Unique keys in ascending order, as [groupby] lists its groups. *)
Fixpoint insert_key (k : string) (keys : list string) : list string :=
  match keys with
  | [] => [k]
  | k' :: rest =>
      match String.compare k k' with
      | Eq => keys
      | Lt => k :: keys
      | Gt => k' :: insert_key k rest
      end
  end.

Definition group_keys (df : DataFrame) : list string :=
  fold_left (fun keys e => insert_key (LocationName e) keys) df [].

(** The [CongestionPercentage] column of the group [name], in row order. *)
Definition group_congestion (df : DataFrame) (name : string) : list float :=
  map CongestionPercentage
      (filter (fun e => String.eqb (LocationName e) name) df).

(** [Series.sort_values(ascending=False)] with the default [kind]
    (quicksort, which pandas documents as not stable): the rows, reordered so
    that values descend and NaN comes last. The order of rows with equal
    values is left to the library. *)
Definition descends (a b : string * float) : Prop :=
  is_nan (snd b) = true \/ (snd b <=? snd a)%float = true.

Definition sort_values_descending (rows out : list (string * float)) : Prop :=
  Permutation rows out /\ StronglySorted descends out.

Section Tabs.

(** [Series.mean()] of pandas and [round(x, 2)] on its numpy scalar. *)
Variable Series_mean : list float -> float.
Variable round_scalar : float -> Z -> float.

Definition show_overview (df : DataFrame) (now : Z) : result Overview :=
  if df_empty df
  then Ok (OverviewInfo
    "No data yet. Click **Start / Resume** to run the local simulator.")
  else
    latest <- iloc_neg1 df ;;
    let total := List.length df in
    (* aggregate last 5 minutes stats *)
    let cutoff := now - minutes 5 in
    let recent := rows_since cutoff df in
    Ok (OverviewMetrics total (List.length recent)
          (round_scalar
             (if negb (df_empty recent)
              then Series_mean (map AverageSpeedKMH recent)
              else AverageSpeedKMH latest) 2)
          (round_scalar
             (if negb (df_empty recent)
              then Series_mean (map CongestionPercentage recent)
              else CongestionPercentage latest) 2)).

(** [filtered.groupby("LocationName")["CongestionPercentage"].mean()] *)
Definition group_means (filtered : DataFrame) : list (string * float) :=
  map (fun name => (name, Series_mean (group_congestion filtered name)))
      (group_keys filtered).

(** [toploc.head(10)], the table the Analytics tab shows. *)
Definition toploc_head (filtered : DataFrame)
           (shown : list (string * float)) : Prop :=
  exists toploc,
    sort_values_descending (group_means filtered) toploc /\
    shown = firstn 10 toploc.

Inductive Analytics : Type :=
| AnalyticsInfo (msg : string)
| AnalyticsCharts (filtered : DataFrame) (shown : list (string * float)).

Definition window_cutoff (window : TimeWindow) (now : Z)
           (first : Event) (rest : DataFrame) : Z :=
  match window with
  | Last5Minutes => now - minutes 5
  | Last1Hour => now - hours 1
  | Last24Hours => now - hours 24
  | AllEvents => ts_min first rest
  end.

(** What the Analytics tab may show for a store, a window and an instant. *)
Definition show_analytics (df : DataFrame) (window : TimeWindow) (now : Z)
           (out : Analytics) : Prop :=
  match df with
  | [] => out = AnalyticsInfo "No data yet for analytics."
  | first :: rest =>
      let filtered := rows_since (window_cutoff window now first rest) df in
      exists shown,
        toploc_head filtered shown /\ out = AnalyticsCharts filtered shown
  end.

(** Following the spec's words for [topCongestedLocations(readings, topN)]:
    group by location name, compute mean congestion, sort descending,
    tie-break by location name ascending, return top N. *)
Definition spec_order (a b : string * float) : Prop :=
  (snd b <? snd a)%float = true \/
  ((snd a =? snd b)%float = true /\ String.leb (fst a) (fst b) = true).

Definition topCongestedLocations_spec (readings : DataFrame) (topN : nat)
           (out : list (string * float)) : Prop :=
  exists sorted,
    Permutation (group_means readings) sorted /\
    StronglySorted spec_order sorted /\
    out = firstn topN sorted.

(** No two groups have equal (or unordered) means. *)
Definition no_ties (rows : list (string * float)) : Prop :=
  ForallOrdPairs
    (fun a b => (snd a <? snd b)%float = true \/ (snd b <? snd a)%float = true)
    rows.

End Tabs.

(** The Alerts tab: a placeholder on an empty log, else the log, latest
    first. (The order of equal timestamps is the library's.) *)
Definition alerts_placeholder (alerts : list Alert) : option string :=
  match alerts with
  | [] => Some "No alerts detected yet."
  | _ :: _ => None
  end.

(** ** Runs *)

(** A sequence of appends, oldest first. *)
Definition append_all (es : list Event) (df : DataFrame) : DataFrame :=
  fold_left (fun d e => append_event e d) es df.

(** A sequence of script runs, each with its widget values and the event the
    generator would return. *)
Definition run_all (runs : list (Sidebar * Event)) (s : Session) : Session :=
  fold_left (fun s r => script_run (fst r) (snd r) s) runs s.

(** Every run of the sequence, started from session [s], takes the simulator
    branch (simulator mode, running once the buttons are applied) without
    Reset, and its reading raises an alert. *)
Fixpoint alerting_ticks (runs : list (Sidebar * Event)) (s : Session) : bool :=
  match runs with
  | [] => true
  | r :: rest =>
      String.eqb (mode (fst r)) "Local Simulator (built-in)"
      && session_running (control_actions (fst r) s)
      && negb (reset_data (fst r))
      && match detect_anomaly (snd r) with [] => false | _ :: _ => true end
      && alerting_ticks rest (script_run (fst r) (snd r) s)
  end.

(** ** Sample data *)

Definition sample_event (n : Z) : Event :=
  {| Timestamp := "2024-01-01T12:00:00+00:00";
     ts := n;
     LocationID := "LOC001";
     LocationName := "Tahrir Square";
     Latitude := 30.0444;
     Longitude := 31.2357;
     VehicleCount := n;
     AverageSpeedKMH := 50;
     DominantVehicleType := "Car";
     WeatherCondition := "Clear";
     TrafficIncident := "None";
     CongestionPercentage := 50;
     IsRushHour := false;
     RushFactor := 1 |}.

(** [n] readings, numbered from 0 in append order. *)
Definition sample_events (n : nat) : list Event :=
  map (fun i => sample_event (Z.of_nat i)) (seq 0 n).

(** [l1] is [l2] with some rows left out, the others in the same order. *)
Inductive Subsequence {A : Type} : list A -> list A -> Prop :=
| sub_nil : Subsequence [] []
| sub_keep (x : A) (l1 l2 : list A) :
    Subsequence l1 l2 -> Subsequence (x :: l1) (x :: l2)
| sub_drop (x : A) (l1 l2 : list A) :
    Subsequence l1 l2 -> Subsequence l1 (x :: l2).

(** An arithmetic mean and a rounding, to run the tabs on sample data. *)
Definition sample_mean (xs : list float) : float :=
  (fold_left PrimFloat.add xs 0 / Py.float_of_int (Z.of_nat (List.length xs)))%float.

(** What an alert recorded for [a]'s reading must look like. *)
Definition alert_well_formed (a : Alert) : Prop :=
  detect_anomaly (alert_raw a) <> [] /\
  alert_event a = Py.join ", " (detect_anomaly (alert_raw a)) /\
  alert_event a <> "" /\
  alert_timestamp a = Timestamp (alert_raw a) /\
  alert_location a = LocationName (alert_raw a).

(** The reading of Scenario C, with an unremarkable congestion. *)
Definition scenario_C : Event :=
  {| Timestamp := "2024-01-01T12:00:00+00:00";
     ts := 1704110400000000;
     LocationID := "LOC003";
     LocationName := "6th October Bridge";
     Latitude := 30.0626;
     Longitude := 31.2444;
     VehicleCount := 50;
     AverageSpeedKMH := 8.0;
     DominantVehicleType := "Bus";
     WeatherCondition := "Clear";
     TrafficIncident := "Minor Accident";
     CongestionPercentage := 50.0;
     IsRushHour := false;
     RushFactor := 1.0 |}.

(** One rule of the detector: its label when it fires. *)
Definition rule (fires : bool) (label : string) : list string :=
  if fires then [label] else [].

(** ** The order of floats *)

(** The place of a float among the extended reals, scaled by 2^1074 so that
    every finite double lands on an integer; the infinities sit beyond the
    largest finite magnitude, and a NaN has no place. *)
Definition SFkey (x : spec_float) : option Z :=
  match x with
  | S754_nan => None
  | S754_zero _ => Some 0
  | S754_infinity s => Some (if s then - 2 ^ 2098 else 2 ^ 2098)
  | S754_finite s m e =>
      Some (if s then - (Zpos m * 2 ^ (e + 1074)) else Zpos m * 2 ^ (e + 1074))
  end.

Definition float_key (x : float) : option Z := SFkey (Prim2SF x).

(** [K] is the key of a double obtained by rounding the exact value
    [exact / 2^2148]: no double lies strictly between the two. *)
Definition rounds_to (exact K : Z) : Prop :=
  forall (b : spec_float) (kb : Z),
    valid_binary b = true -> SFkey b = Some kb ->
    (exact <= kb * 2 ^ 1074 -> K <= kb) /\
    (kb < 2 ^ 2098 -> kb * 2 ^ 1074 <= exact -> kb <= K).

(** The record reached after [k] halvings of [m0], started from an exact
    location. *)
Definition shifted (m0 k : Z) (mrs : shr_record) : Prop :=
  shr_m mrs = m0 / 2 ^ k /\
  (m0 mod 2 ^ k = 0 -> shr_r mrs = false /\ shr_s mrs = false).

(** ** The generator, stage by stage *)

(** The values [calculate_rush_hour_factor] can return. *)
Definition RUSH_FACTORS : list float := [1.5; 1.4; 0.4; 1.0]%float.

(** [(min_vehicles, max_vehicles)] for a capacity and a rush factor. *)
Definition vehicle_range (cap : Z) (rush_factor : float) : result (Z * Z) :=
  lo <- py_int (Py.Float (Py.float_of_int cap * 0.3 * rush_factor)) ;;
  hi <- py_int (Py.Float (Py.float_of_int cap * 1.2 * rush_factor)) ;;
  Ok (Z.max 5 lo, Z.min cap hi).

(** The congestion spike, taken when [random.random() < 0.05]. *)
Definition spike (cap vehicle_count : Z) (taken : bool) : result Z :=
  if taken
  then py_int (Py.min (Py.Float (Py.float_of_int cap * 1.5))
                      (Py.Float (Py.float_of_int vehicle_count * 1.8)))
  else Ok vehicle_count.

(** The [speed] variable after the anomaly branch. *)
Definition speed_of (d : Draws) (rush_factor : float) : Py.num :=
  if (draw_speed_anomaly d <? 0.05)%float then
    if (draw_speed_band d <? 0.5)%float
    then Py.Float (Random.uniform 5 15 (draw_speed d))
    else Py.Float (Random.uniform 85 110 (draw_speed d))
  else
    let base_speed := Random.uniform 20 80 (draw_speed d) in
    let adjusted_speed :=
      (base_speed * (if (1.0 <? rush_factor) then 0.8 else 1.2))%float in
    Py.max (Py.Int 5)
           (Py.min (Py.Int 110) (Py.round (Py.Float adjusted_speed) 1)).

(** [round(vehicle_count / cap * 100, 2)] *)
Definition congestion_of (cap vehicle_count : Z) : result float :=
  ratio <- py_truediv vehicle_count cap ;;
  Ok (Py.round_float (ratio * Py.float_of_int 100) 2).

(** ** Exhaustive checks *)

(** The integers [lo, lo + 1, ..., hi]. *)
Definition Zrange (lo hi : Z) : list Z :=
  map (fun i => lo + Z.of_nat i) (seq 0 (Z.to_nat (hi - lo + 1))).

(** The two-decimal value [n / 100] reads back as a double between 5 and
    110. *)
Definition speed_decimal_ok (n : Z) : bool :=
  (5 <=? Py.nearest_decimal false n 2)%float &&
  (Py.nearest_decimal false n 2 <=? 110)%float.

(** The bounds on the vehicle count and the congestion percentage, for one
    capacity, one rush factor, one drawn count and one spike decision. *)
Definition count_in_bounds (cap vehicle_count : Z) (taken : bool) : bool :=
  match spike cap vehicle_count taken with
  | Ok vc =>
      (5 <=? vc) && (2 * vc <=? 3 * cap) &&
      match congestion_of cap vc with
      | Ok pct => (0 <? pct)%float && (pct <=? 150)%float
      | Raise _ => false
      end
  | Raise _ => false
  end.

Definition range_in_bounds (cap : Z) (rush_factor : float) : bool :=
  match vehicle_range cap rush_factor with
  | Ok (lo, hi) =>
      (lo <=? hi) &&
      forallb (fun vc => count_in_bounds cap vc true &&
                         count_in_bounds cap vc false)
              (Zrange lo hi)
  | Raise _ => false
  end.

Definition location_in_bounds (loc : Location) : bool :=
  forallb (range_in_bounds (loc_cap loc)) RUSH_FACTORS.

(** Draws for a sample run: the bridge at a quiet hour, no spike, no speed
    anomaly, no incident. *)
Definition sample_draws : Draws :=
  {| draw_location := 2;
     draw_vehicles := 17;
     draw_spike := 0.5;
     draw_vehicle_type := 3;
     draw_speed_anomaly := 0.5;
     draw_speed_band := 0.5;
     draw_speed := 0.25;
     draw_incident := 0.5;
     draw_incident_choice := 1;
     draw_weather := 0 |}.

(** A rendering and a host clock for sample runs (noon, local time). *)
Definition sample_isoformat (now : Z) : string := "2024-01-01T12:00:00+00:00".
Definition sample_hour (now : Z) : Z := 12.

(** Draws that take the spike, the high-speed anomaly band and an incident. *)
Definition anomaly_draws : Draws :=
  {| draw_location := 5;
     draw_vehicles := 3;
     draw_spike := 0.01;
     draw_vehicle_type := 0;
     draw_speed_anomaly := 0.01;
     draw_speed_band := 0.75;
     draw_speed := 0.5;
     draw_incident := 0.05;
     draw_incident_choice := 2;
     draw_weather := 4 |}.

(** The reading the generator returns on [anomaly_draws]. *)
Definition anomaly_event : Event :=
  Eval vm_compute in
    match generate_realistic_traffic_data sample_isoformat sample_hour
                                          anomaly_draws 1704110400000000 with
    | Ok ev => ev
    | Raise _ => sample_event 0
    end.

(** The order of group keys. *)
Definition string_lt (a b : string) : Prop := String.compare a b = Lt.

(** A reading of the sample location [name] with a given congestion. *)
Definition reading_at (name : string) (congestion : float) : Event :=
  {| Timestamp := "2024-01-01T12:00:00+00:00";
     ts := 1704110400000000;
     LocationID := "LOC";
     LocationName := name;
     Latitude := 30;
     Longitude := 31;
     VehicleCount := 50;
     AverageSpeedKMH := 50;
     DominantVehicleType := "Car";
     WeatherCondition := "Clear";
     TrafficIncident := "None";
     CongestionPercentage := congestion;
     IsRushHour := false;
     RushFactor := 1 |}.

(** Two locations with the same mean congestion. *)
Definition tie_readings : DataFrame :=
  [reading_at "Tahrir Square" 50; reading_at "Maadi Corniche" 50].

(** Two locations with different means (60 and 80). *)
Definition rank_readings : DataFrame :=
  [reading_at "Tahrir Square" 50; reading_at "Maadi Corniche" 80;
   reading_at "Tahrir Square" 70].

(** ** Tabs layout *)

(** The four "Display Tabs" checkboxes of the sidebar. *)
Record TabChoice : Type := mkTabChoice {
  tab_overview : bool;
  tab_map : bool;
  tab_analytics : bool;
  tab_alerts : bool
}.

(** The [tabs] list, built by successive appends. *)
Definition tabs (c : TabChoice) : list string :=
  let tabs := [] in
  let tabs := if tab_overview c then tabs ++ ["Overview"] else tabs in
  let tabs := if tab_map c then tabs ++ ["Map"] else tabs in
  let tabs := if tab_analytics c then tabs ++ ["Analytics"] else tabs in
  let tabs := if tab_alerts c then tabs ++ ["Alerts"] else tabs in
  tabs.

(** [l.index(x)]: the first position of [x], or a ValueError. *)
Fixpoint list_index (x : string) (l : list string) : result nat :=
  match l with
  | [] => Raise ValueError
  | y :: rest =>
      if String.eqb y x then Ok 0%nat
      else i <- list_index x rest ;; Ok (S i)
  end.

(** [tab_objs]: [st.tabs(tabs)] returns one container per label, in order
    (a container is named here by its label); no tab, no container. *)
Definition tab_objs (c : TabChoice) : list string :=
  match tabs c with
  | [] => []
  | _ :: _ => tabs c
  end.

(** [tab_objs[tabs.index(name)]] *)
Definition tab_for (name : string) (c : TabChoice) : result string :=
  i <- list_index name (tabs c) ;;
  of_option IndexError (nth_error (tab_objs c) i).

(** ** Alerts tab *)

(** [s.split(",")[0]]: the text before the first comma. *)
Fixpoint first_phrase (s : string) : string :=
  match s with
  | EmptyString => EmptyString
  | String ch rest =>
      if Ascii.eqb ch "," then EmptyString else String ch (first_phrase rest)
  end.

Fixpoint has_comma (s : string) : bool :=
  match s with
  | EmptyString => false
  | String ch rest => Ascii.eqb ch "," || has_comma rest
  end.

(** ** More exhaustive checks *)

(** A count within the capacity gives a congestion of at most 100. *)
Definition within_capacity_ok (cap vehicle_count : Z) : bool :=
  match congestion_of cap vehicle_count with
  | Ok pct => (pct <=? 100)%float
  | Raise _ => false
  end.

Definition location_within_capacity (loc : Location) : bool :=
  forallb (within_capacity_ok (loc_cap loc)) (Zrange 5 (loc_cap loc)).

(** ** Sidebar choices *)

(** The two options of the Mode select box. *)
Definition LOCAL_SIMULATOR : string := "Local Simulator (built-in)".
Definition EVENT_HUB : string := "Event Hub (placeholder)".

(** Start / Resume pressed in simulator mode, nothing else. *)
Definition start_pressed : Sidebar :=
  {| mode := LOCAL_SIMULATOR; run_sim := true; stop_sim := false;
     reset_data := false |}.

(** 5001 runs with Start pressed, the readings over capacity at 121 %, 122 %,
    and so on. *)
Definition over_capacity_runs : list (Sidebar * Event) :=
  map (fun n => (start_pressed,
                 reading_at "Ring Road" (Py.float_of_int n)))
      (Zrange 121 5121).

(** ** Value counts *)

(** [Series.value_counts()]: one row per distinct value, with the number of
    its occurrences, the counts descending; the order of rows with equal
    counts is the library's. *)
Definition value_counts (xs : list string) (out : list (string * nat)) : Prop :=
  Permutation
    (map (fun k => (k, count_occ string_dec xs k)) (nodup string_dec xs)) out /\
  StronglySorted (fun a b => (snd b <= snd a)%nat) out.

(** [filtered["DominantVehicleType"].value_counts()] *)
Definition vdist (filtered : DataFrame) (out : list (string * nat)) : Prop :=
  value_counts (map DominantVehicleType filtered) out.

(** [alerts_df["type_simple"].value_counts()], the bar chart of the Alerts
    tab. *)
Definition alert_type_counts (alerts : list Alert)
           (out : list (string * nat)) : Prop :=
  value_counts (map (fun a => first_phrase (alert_event a)) alerts) out.

(** The alert the script records for the reading of the anomaly run. *)
Definition anomaly_alert : Alert :=
  {| alert_timestamp := Timestamp anomaly_event;
     alert_location := LocationName anomaly_event;
     alert_event := "Incident: Major Accident";
     alert_raw := anomaly_event |}.

(** ** Map tab *)

(** [df.sort_values("ts")] with the default [kind]: the rows by ascending
    timestamp; the order of rows with equal timestamps is the library's. *)
Definition sort_values_ts (df out : DataFrame) : Prop :=
  Permutation df out /\ StronglySorted (fun a b => ts a <= ts b) out.

(** The distinct keys of a column, ascending. *)
Definition sorted_keys (xs : list string) : list string :=
  fold_left (fun keys x => insert_key x keys) xs [].

(** The last entry of a float column that is not null (NaN), NaN if there is
    none. *)
Definition last_valid (xs : list float) : float :=
  fold_left (fun acc x => if is_nan x then acc else x) xs nan.

(** [GroupBy.last()] on the rows of one group: column by column, the last
    entry that is not null; in an event only a float can be null. *)
Definition group_last (rows : DataFrame) : option Event :=
  match rev rows with
  | [] => None
  | r :: _ =>
      Some {| Timestamp := Timestamp r;
              ts := ts r;
              LocationID := LocationID r;
              LocationName := LocationName r;
              Latitude := last_valid (map Latitude rows);
              Longitude := last_valid (map Longitude rows);
              VehicleCount := VehicleCount r;
              AverageSpeedKMH := last_valid (map AverageSpeedKMH rows);
              DominantVehicleType := DominantVehicleType r;
              WeatherCondition := WeatherCondition r;
              TrafficIncident := TrafficIncident r;
              CongestionPercentage :=
                last_valid (map CongestionPercentage rows);
              IsRushHour := IsRushHour r;
              RushFactor := last_valid (map RushFactor rows) |}
  end.

(** [df.sort_values("ts").groupby("LocationID").last().reset_index()] *)
Definition latest_per_loc (df out : DataFrame) : Prop :=
  exists sorted,
    sort_values_ts df sorted /\
    Forall2 (fun id marker =>
               group_last
                 (filter (fun e => String.eqb (LocationID e) id) sorted)
               = Some marker)
            (sorted_keys (map LocationID df)) out.

(** No float field of the event is NaN. *)
Definition no_nan (e : Event) : Prop :=
  is_nan (Latitude e) = false /\
  is_nan (Longitude e) = false /\
  is_nan (AverageSpeedKMH e) = false /\
  is_nan (CongestionPercentage e) = false /\
  is_nan (RushFactor e) = false.

(** Three readings of two locations, the second location read twice. *)
Definition map_readings : DataFrame :=
  [sample_event 3;
   reading_at "Maadi Corniche" 80;
   sample_event 7].

(** Every label the detector can return for an incident of the list. *)
Definition ALERT_LABELS : list string :=
  ["Low speed"; "High speed"; "Over capacity"; "High congestion";
   "Incident: Minor Accident"; "Incident: Major Accident";
   "Incident: Vehicle Breakdown"; "Incident: Road Construction";
   "Incident: Police Checkpoint"].

(** At the night factor 0.4: a congestion of at most 120 whatever the spike
    decision, and of at most 85 when the spike is not taken. *)
Definition night_count_ok (cap vehicle_count : Z) (taken : bool) : bool :=
  match spike cap vehicle_count taken with
  | Ok vc =>
      match congestion_of cap vc with
      | Ok pct => (pct <=? 120)%float && (taken || (pct <=? 85)%float)
      | Raise _ => false
      end
  | Raise _ => false
  end.

Definition night_location_ok (loc : Location) : bool :=
  match vehicle_range (loc_cap loc) 0.4 with
  | Ok (lo, hi) =>
      forallb (fun vc => night_count_ok (loc_cap loc) vc true &&
                         night_count_ok (loc_cap loc) vc false)
              (Zrange lo hi)
  | Raise _ => false
  end.

(** * Properties *)

(** ** The event store *)

Lemma length_iloc_last (n : nat) (df : DataFrame) :
  (0 < n)%nat -> List.length (iloc_last n df) = Nat.min n (List.length df).
Proof.
  intros Hn. destruct n as [|n]; [lia|].
  unfold iloc_last. rewrite length_skipn. lia.
Qed.

(** The rows of the frame after the concatenation step. *)
Lemma append_event_rows (e : Event) (df : DataFrame) :
  append_event e df =
  skipn (List.length (df ++ [e]) - MAX_EVENTS_KEEP) (df ++ [e]).
Proof.
  unfold append_event.
  assert (Hrow : (if df_empty df then [e] else df ++ [e]) = df ++ [e])
    by (destruct df; reflexivity).
  rewrite Hrow.
  destruct (Nat.ltb_spec MAX_EVENTS_KEEP (List.length (df ++ [e]))) as [Hlt|Hge].
  - reflexivity.
  - replace (List.length (df ++ [e]) - MAX_EVENTS_KEEP)%nat with 0%nat by lia.
    reflexivity.
Qed.

Lemma length_append_event (e : Event) (df : DataFrame) :
  List.length (append_event e df) =
  Nat.min MAX_EVENTS_KEEP (S (List.length df)).
Proof.
  rewrite append_event_rows, length_skipn, length_app.
  change (List.length [e]) with 1%nat.
  generalize MAX_EVENTS_KEEP. intros cap. lia.
Qed.

Lemma skipn_skipn_app {A : Type} (l es : list A) (i j : nat) :
  (i <= List.length l)%nat ->
  skipn j (skipn i l ++ es) = skipn (i + j) (l ++ es).
Proof.
  intros Hi.
  replace (skipn (i + j) (l ++ es)) with (skipn j (skipn i (l ++ es))).
  - rewrite (skipn_app i l es).
    replace (i - List.length l)%nat with 0%nat by lia. reflexivity.
  - rewrite skipn_skipn. f_equal. lia.
Qed.

(** Any non-empty sequence of appends keeps the most recent rows, in order. *)
Lemma append_all_rows (e : Event) (es : list Event) (df : DataFrame) :
  append_all (e :: es) df =
  skipn (List.length (df ++ e :: es) - MAX_EVENTS_KEEP) (df ++ e :: es).
Proof.
  revert e df. induction es as [|e' es IH]; intros e df.
  - apply append_event_rows.
  - change (append_all (e :: e' :: es) df)
      with (append_all (e' :: es) (append_event e df)).
    rewrite IH, append_event_rows.
    rewrite skipn_skipn_app by lia.
    replace (df ++ e :: e' :: es) with ((df ++ [e]) ++ e' :: es)
      by (rewrite <- app_assoc; reflexivity).
    f_equal. rewrite !length_app, length_skipn, !length_app.
    generalize MAX_EVENTS_KEEP. intros cap. cbn [List.length]. lia.
Qed.

Lemma length_append_all (e : Event) (es : list Event) (df : DataFrame) :
  List.length (append_all (e :: es) df) =
  Nat.min MAX_EVENTS_KEEP (List.length (df ++ e :: es)).
Proof.
  rewrite append_all_rows, length_skipn.
  generalize MAX_EVENTS_KEEP. intros cap. lia.
Qed.

Lemma length_script_run (ui : Sidebar) (ev : Event) (s : Session) :
  (List.length (session_df s) <= MAX_EVENTS_KEEP)%nat ->
  (List.length (session_df (script_run ui ev s)) <= MAX_EVENTS_KEEP)%nat.
Proof.
  intros Hs. unfold script_run.
  assert (Hc : (List.length (session_df (control_actions ui s))
                <= MAX_EVENTS_KEEP)%nat).
  { unfold control_actions.
    destruct (reset_data ui), (run_sim ui), (stop_sim ui); cbn;
      first [exact Hs | apply Nat.le_0_l]. }
  destruct (_ && _); [|exact Hc].
  cbn [tick session_df]. rewrite length_append_event. apply Nat.le_min_l.
Qed.

(** C1: after every append, and so after any sequence of appends and in
    every session the script can reach, the store holds at most
    MAX_EVENTS_KEEP = 5000 rows. *)
Theorem store_capacity_invariant :
  MAX_EVENTS_KEEP = 5000%nat /\
  (forall (df : DataFrame) (e : Event) (es : list Event),
      (List.length (append_all (e :: es) df) <= MAX_EVENTS_KEEP)%nat) /\
  (forall runs : list (Sidebar * Event),
      (List.length (session_df (run_all runs initial_session))
       <= MAX_EVENTS_KEEP)%nat).
Proof.
  split; [reflexivity|split].
  - intros df e es. rewrite length_append_all. apply Nat.le_min_l.
  - intros runs. unfold run_all.
    assert (H0 : (List.length (session_df initial_session)
                  <= MAX_EVENTS_KEEP)%nat) by apply Nat.le_0_l.
    revert H0. generalize initial_session.
    induction runs as [|r runs IH]; intros s Hs; [exact Hs|].
    cbn [fold_left]. apply IH, length_script_run, Hs.
Qed.

(** C2: appending MAX_EVENTS_KEEP + k readings (k >= 1) to an empty store
    leaves exactly the last MAX_EVENTS_KEEP of them, in append order; the
    first survivor is the reading appended at position k + 1 (the 6th of
    5005 for the capacity 5000). *)
Theorem eviction_keeps_last (k : nat) (es : list Event) :
  (1 <= k)%nat ->
  List.length es = (MAX_EVENTS_KEEP + k)%nat ->
  append_all es [] = skipn k es /\
  es = firstn k es ++ append_all es [] /\
  List.length (append_all es []) = MAX_EVENTS_KEEP /\
  nth_error (append_all es []) 0 = nth_error es k.
Proof.
  intros Hk Hlen.
  assert (Hrows : append_all es [] = skipn k es).
  { destruct es as [|e es]; [cbn in Hlen; lia|].
    rewrite append_all_rows. cbn [app]. rewrite Hlen. f_equal. lia. }
  rewrite Hrows. repeat split.
  - symmetry. apply firstn_skipn.
  - rewrite length_skipn, Hlen. lia.
  - rewrite nth_error_skipn. f_equal. lia.
Qed.

(** Scenario E: 5005 readings appended to the empty store. *)
Lemma eviction_keeps_last_witness :
  append_all (sample_events 5005) [] = skipn 5 (sample_events 5005) /\
  sample_events 5005 =
    firstn 5 (sample_events 5005) ++ append_all (sample_events 5005) [] /\
  List.length (append_all (sample_events 5005) []) = 5000%nat /\
  nth_error (append_all (sample_events 5005) []) 0 = Some (sample_event 5).
Proof.
  apply (eviction_keeps_last 5 (sample_events 5005)).
  - lia.
  - vm_compute. reflexivity.
Defined.

(** ** Time windows *)

Lemma Subsequence_filter {A : Type} (p : A -> bool) (l : list A) :
  Subsequence (filter p l) l.
Proof.
  induction l as [|x l IH]; cbn.
  - constructor.
  - destruct (p x); constructor; exact IH.
Qed.

Lemma rows_since_twice (T1 T2 : Z) (df : DataFrame) :
  T1 <= T2 -> rows_since T2 (rows_since T1 df) = rows_since T2 df.
Proof.
  intros Hle. unfold rows_since.
  induction df as [|e df IH]; [reflexivity|].
  cbn [filter].
  destruct (Z.leb_spec T1 (ts e)) as [H1|H1];
    destruct (Z.leb_spec T2 (ts e)) as [H2|H2]; cbn [filter].
  - destruct (Z.leb_spec T2 (ts e)); [f_equal; exact IH|lia].
  - destruct (Z.leb_spec T2 (ts e)); [lia|exact IH].
  - lia.
  - exact IH.
Qed.

(** C8: a window opened earlier contains every reading of a window opened
    later; each window keeps the store's order and holds exactly the readings
    whose timestamp is at or after its start. *)
Theorem window_monotone (df : DataFrame) (T1 T2 : Z) :
  T1 <= T2 ->
  incl (rows_since T2 df) (rows_since T1 df) /\
  Subsequence (rows_since T2 df) (rows_since T1 df) /\
  (forall since : Z, Subsequence (rows_since since df) df) /\
  (forall (since : Z) (e : Event),
      In e (rows_since since df) <-> In e df /\ since <= ts e).
Proof.
  intros Hle.
  assert (Hin : forall since e,
             In e (rows_since since df) <-> In e df /\ since <= ts e).
  { intros since e. unfold rows_since.
    rewrite filter_In, Z.leb_le. reflexivity. }
  split; [|split; [|split]].
  - intros e He. apply Hin in He. apply Hin. split; [tauto|lia].
  - rewrite <- (rows_since_twice T1 T2 df Hle). apply Subsequence_filter.
  - intros since. apply Subsequence_filter.
  - exact Hin.
Qed.

(** Ten readings stamped 0 to 9, windows opened at 3 and at 7. *)
Lemma window_monotone_witness :
  incl (rows_since 7 (sample_events 10)) (rows_since 3 (sample_events 10)) /\
  Subsequence (rows_since 7 (sample_events 10))
              (rows_since 3 (sample_events 10)) /\
  (forall since : Z, Subsequence (rows_since since (sample_events 10))
                                 (sample_events 10)) /\
  (forall (since : Z) (e : Event),
      In e (rows_since since (sample_events 10)) <->
      In e (sample_events 10) /\ since <= ts e).
Proof.
  apply (window_monotone (sample_events 10) 3 7). lia.
Defined.

(** ** Anomaly detection *)

(** The detector is the concatenation of its rules, in source order. *)
Lemma detect_anomaly_by_rule (e : Event) :
  detect_anomaly e =
    rule (AverageSpeedKMH e <? 10)%float "Low speed" ++
    rule (100 <? AverageSpeedKMH e)%float "High speed" ++
    (if (120 <? CongestionPercentage e)%float then ["Over capacity"]
     else rule (85 <? CongestionPercentage e)%float "High congestion") ++
    rule (negb (String.eqb (TrafficIncident e) "None"))
         ("Incident: " ++ TrafficIncident e)%string.
Proof.
  unfold detect_anomaly, rule.
  destruct (AverageSpeedKMH e <? 10)%float,
           (100 <? AverageSpeedKMH e)%float,
           (120 <? CongestionPercentage e)%float,
           (85 <? CongestionPercentage e)%float,
           (negb (String.eqb (TrafficIncident e) "None")); reflexivity.
Qed.

Ltac label_cases :=
  cbn [In app rule String.append negb];
  intuition (try discriminate; try congruence).

(** C3: the detector returns exactly the labels of the rules that match, in
    rule order: low speed, high speed, over capacity or else high congestion,
    incident; Scenario C yields Low speed and Incident: Minor Accident. *)
Theorem detect_anomaly_rules (e : Event) :
  detect_anomaly e =
    rule (AverageSpeedKMH e <? 10)%float "Low speed" ++
    rule (100 <? AverageSpeedKMH e)%float "High speed" ++
    (if (120 <? CongestionPercentage e)%float then ["Over capacity"]
     else rule (85 <? CongestionPercentage e)%float "High congestion") ++
    rule (negb (String.eqb (TrafficIncident e) "None"))
         ("Incident: " ++ TrafficIncident e)%string /\
  (In "Low speed" (detect_anomaly e) <->
   (AverageSpeedKMH e <? 10)%float = true) /\
  (In "High speed" (detect_anomaly e) <->
   (100 <? AverageSpeedKMH e)%float = true) /\
  (In "Over capacity" (detect_anomaly e) <->
   (120 <? CongestionPercentage e)%float = true) /\
  (In "High congestion" (detect_anomaly e) <->
   (120 <? CongestionPercentage e)%float = false /\
   (85 <? CongestionPercentage e)%float = true) /\
  (In ("Incident: " ++ TrafficIncident e)%string (detect_anomaly e) <->
   TrafficIncident e <> "None") /\
  ~ (In "Over capacity" (detect_anomaly e) /\
     In "High congestion" (detect_anomaly e)) /\
  detect_anomaly scenario_C = ["Low speed"; "Incident: Minor Accident"].
Proof.
  split; [apply detect_anomaly_by_rule|].
  rewrite detect_anomaly_by_rule.
  destruct (AverageSpeedKMH e <? 10)%float,
           (100 <? AverageSpeedKMH e)%float,
           (120 <? CongestionPercentage e)%float,
           (85 <? CongestionPercentage e)%float;
    destruct (String.eqb_spec (TrafficIncident e) "None") as [Hi|Hi];
    try rewrite Hi;
    repeat (split; [solve [label_cases]|]);
    reflexivity.
Qed.

(** ** The alert log *)

Lemma detect_anomaly_labels_nonempty (e : Event) :
  Forall (fun label => label <> "") (detect_anomaly e).
Proof.
  rewrite detect_anomaly_by_rule. unfold rule.
  destruct (AverageSpeedKMH e <? 10)%float,
           (100 <? AverageSpeedKMH e)%float,
           (120 <? CongestionPercentage e)%float,
           (85 <? CongestionPercentage e)%float,
           (negb (String.eqb (TrafficIncident e) "None"));
    cbn [app String.append]; repeat constructor; discriminate.
Qed.

Lemma join_nonempty (sep : string) (parts : list string) :
  parts <> [] -> Forall (fun p => p <> "") parts -> Py.join sep parts <> "".
Proof.
  intros Hne Hall. destruct parts as [|p rest]; [congruence|].
  inversion Hall as [|? ? Hp _]; subst.
  destruct p as [|c p]; [congruence|].
  destruct rest; cbn; discriminate.
Qed.

Lemma alert_well_formed_new (ev : Event) :
  detect_anomaly ev <> [] ->
  alert_well_formed
    {| alert_timestamp := Timestamp ev;
       alert_location := LocationName ev;
       alert_event := Py.join ", " (detect_anomaly ev);
       alert_raw := ev |}.
Proof.
  intros Hne. unfold alert_well_formed. cbn.
  repeat split; try assumption.
  apply join_nonempty; [assumption|apply detect_anomaly_labels_nonempty].
Qed.

Lemma tick_alerts (ev : Event) (s : Session) :
  session_alerts (tick ev s) =
  session_alerts s ++
  match detect_anomaly ev with
  | [] => []
  | _ :: _ => [ {| alert_timestamp := Timestamp ev;
                   alert_location := LocationName ev;
                   alert_event := Py.join ", " (detect_anomaly ev);
                   alert_raw := ev |} ]
  end.
Proof.
  unfold tick. cbn [session_alerts].
  destruct (detect_anomaly ev); [rewrite app_nil_r|]; reflexivity.
Qed.

Lemma script_run_alerts_well_formed (ui : Sidebar) (ev : Event) (s : Session) :
  Forall alert_well_formed (session_alerts s) ->
  Forall alert_well_formed (session_alerts (script_run ui ev s)).
Proof.
  intros Hs. unfold script_run.
  assert (Hc : Forall alert_well_formed
                      (session_alerts (control_actions ui s))).
  { unfold control_actions.
    destruct (reset_data ui), (run_sim ui), (stop_sim ui); cbn;
      first [exact Hs | constructor]. }
  destruct (_ && _); [|exact Hc].
  rewrite tick_alerts. apply Forall_app. split; [exact Hc|].
  destruct (detect_anomaly ev) eqn:Hd; constructor; [|constructor].
  rewrite <- Hd. apply alert_well_formed_new. congruence.
Qed.

(** C10: a tick appends one alert record exactly when the detector reports
    at least one category for the new reading, and nothing otherwise; so every
    record of the alert log carries the joined, non-empty categories of its
    reading, the reading's timestamp and location name, and the reading. *)
Theorem alert_iff_detected :
  (forall (ev : Event) (s : Session),
      session_alerts (tick ev s) =
      session_alerts s ++
      match detect_anomaly ev with
      | [] => []
      | _ :: _ => [ {| alert_timestamp := Timestamp ev;
                       alert_location := LocationName ev;
                       alert_event := Py.join ", " (detect_anomaly ev);
                       alert_raw := ev |} ]
      end) /\
  (forall (ev : Event) (s : Session),
      List.length (session_alerts (tick ev s)) =
      S (List.length (session_alerts s)) <-> detect_anomaly ev <> []) /\
  (forall (ev : Event) (s : Session),
      session_alerts (tick ev s) = session_alerts s <-> detect_anomaly ev = []) /\
  (forall runs : list (Sidebar * Event),
      Forall alert_well_formed
             (session_alerts (run_all runs initial_session))).
Proof.
  split; [exact tick_alerts|split; [|split]].
  - intros ev s. rewrite tick_alerts, length_app.
    destruct (detect_anomaly ev); cbn [List.length]; split; intros H;
      try congruence; lia.
  - intros ev s. rewrite tick_alerts.
    destruct (detect_anomaly ev); split; intros H; try congruence.
    + apply app_nil_r.
    + apply (f_equal (@List.length Alert)) in H.
      rewrite length_app in H. cbn [List.length] in H. lia.
  - intros runs. unfold run_all.
    assert (H0 : Forall alert_well_formed (session_alerts initial_session))
      by constructor.
    revert H0. generalize initial_session.
    induction runs as [|r runs IH]; intros s Hs; [exact Hs|].
    cbn [fold_left]. apply IH, script_run_alerts_well_formed, Hs.
Qed.

(** ** Views of an empty store *)

Lemma iloc_neg1_nonempty (e : Event) (df : DataFrame) :
  exists latest, iloc_neg1 (e :: df) = Ok latest.
Proof.
  unfold iloc_neg1.
  destruct (nth_error (e :: df) (List.length (e :: df) - 1)) as [x|] eqn:Hn.
  - exists x. reflexivity.
  - apply nth_error_None in Hn. cbn [List.length] in Hn. lia.
Qed.

(** C7, as the code has it: on an empty store the Overview shows its
    placeholder and computes no count; no view raises, whatever the store;
    on a store with rows the Overview shows the number of rows and the number
    of rows of the last five minutes; the Analytics tab on an empty store and
    the Alerts tab on an empty log show their placeholders. *)
Theorem empty_store_views
        (Series_mean : list float -> float)
        (round_scalar : float -> Z -> float) :
  (forall now : Z,
      show_overview Series_mean round_scalar [] now =
      Ok (OverviewInfo
        "No data yet. Click **Start / Resume** to run the local simulator.")) /\
  (forall (df : DataFrame) (now : Z),
      exists o, show_overview Series_mean round_scalar df now = Ok o) /\
  (forall (e : Event) (df : DataFrame) (now : Z),
      exists o,
        show_overview Series_mean round_scalar (e :: df) now = Ok o /\
        overview_counts o =
        Some (S (List.length df),
              List.length (rows_since (now - minutes 5) (e :: df)))) /\
  (forall (window : TimeWindow) (now : Z) (out : Analytics),
      show_analytics Series_mean [] window now out <->
      out = AnalyticsInfo "No data yet for analytics.") /\
  alerts_placeholder [] = Some "No alerts detected yet.".
Proof.
  assert (Hrows : forall e df now, exists o,
             show_overview Series_mean round_scalar (e :: df) now = Ok o /\
             overview_counts o =
             Some (S (List.length df),
                   List.length (rows_since (now - minutes 5) (e :: df)))).
  { intros e df now. unfold show_overview. cbn [df_empty].
    destruct (iloc_neg1_nonempty e df) as [latest ->]. cbn [bind].
    eexists. split; reflexivity. }
  split; [reflexivity|split; [|split; [exact Hrows|split]]].
  - intros [|e df] now.
    + eexists. reflexivity.
    + destruct (Hrows e df now) as [o [Ho _]]. exists o. exact Ho.
  - intros window now out. cbn [show_analytics]. reflexivity.
  - reflexivity.
Qed.

(** On the empty store the Overview does not return the counts 0 and 0. *)
Lemma empty_store_shows_no_counts :
  ~ exists avg_speed avg_congestion,
      show_overview sample_mean Py.round_float [] 0 =
      Ok (OverviewMetrics 0 0 avg_speed avg_congestion).
Proof.
  intros [s [c H]]. cbn in H. discriminate H.
Qed.

(** ** Comparisons of doubles are comparisons of their exact values *)

Lemma digits2_pos_bounds (m : positive) :
  2 ^ (Zpos (digits2_pos m) - 1) <= Zpos m < 2 ^ Zpos (digits2_pos m).
Proof.
  induction m as [m IH|m IH|]; cbn [digits2_pos].
  - rewrite Pos2Z.inj_succ.
    replace (Z.succ (Zpos (digits2_pos m)) - 1) with (Zpos (digits2_pos m)) by lia.
    rewrite Z.pow_succ_r by lia.
    replace (2 ^ Zpos (digits2_pos m))
      with (2 * 2 ^ (Zpos (digits2_pos m) - 1)) in *
      by (rewrite <- Z.pow_succ_r by lia; f_equal; lia).
    rewrite (Pos2Z.inj_xI m). lia.
  - rewrite Pos2Z.inj_succ.
    replace (Z.succ (Zpos (digits2_pos m)) - 1) with (Zpos (digits2_pos m)) by lia.
    rewrite Z.pow_succ_r by lia.
    replace (2 ^ Zpos (digits2_pos m))
      with (2 * 2 ^ (Zpos (digits2_pos m) - 1)) in *
      by (rewrite <- Z.pow_succ_r by lia; f_equal; lia).
    rewrite (Pos2Z.inj_xO m). lia.
  - change (1 <= 1 < 2). lia.
Qed.

(** A valid binary64 mantissa has at most 53 bits, and exactly 53 unless the
    exponent is the least one. *)
Lemma valid_finite_bounds (s : bool) (m : positive) (e : Z) :
  valid_binary (S754_finite s m e) = true ->
  Zpos m < 2 ^ 53 /\ -1074 <= e <= 971 /\ (2 ^ 52 <= Zpos m \/ e = -1074).
Proof.
  cbn [SpecFloat.valid_binary]. unfold bounded, canonical_mantissa, fexp.
  change (SpecFloat.emin prec emax) with (-1074).
  change (emax - prec) with 971. change prec with 53.
  rewrite andb_true_iff, Z.eqb_eq, Z.leb_le. intros [Hc He].
  pose proof (digits2_pos_bounds m) as [Hlo Hhi].
  set (d := Zpos (digits2_pos m)) in *.
  assert (Hd : 0 < d) by (unfold d; lia).
  destruct (Z.max_spec (d + e - 53) (-1074)) as [[Hlt Hmax]|[Hge Hmax]];
    rewrite Hmax in Hc.
  - split; [|split; [lia|right; lia]].
    apply Z.lt_le_trans with (1 := Hhi).
    apply Z.pow_le_mono_r; lia.
  - assert (d = 53) by lia. subst d.
    replace (Zpos (digits2_pos m)) with 53 in * by lia.
    change (53 - 1) with 52 in Hlo.
    split; [exact Hhi|split; [lia|left; exact Hlo]].
Qed.

Lemma pow2_pos (k : Z) : 0 <= k -> 0 < 2 ^ k.
Proof. intros Hk. apply Z.pow_pos_nonneg; lia. Qed.

Lemma magnitude_bounds (s : bool) (m : positive) (e : Z) :
  valid_binary (S754_finite s m e) = true ->
  0 < Zpos m * 2 ^ (e + 1074) < 2 ^ 2098.
Proof.
  intros Hv. apply valid_finite_bounds in Hv. destruct Hv as [Hm [He _]].
  pose proof (pow2_pos (e + 1074) ltac:(lia)) as Hp.
  assert (Hle : 2 ^ (e + 1074) <= 2 ^ 2045) by (apply Z.pow_le_mono_r; lia).
  replace (2 ^ 2098) with (2 ^ 53 * 2 ^ 2045)
    by (rewrite <- Z.pow_add_r by lia; f_equal).
  pose proof (pow2_pos 2045 ltac:(lia)) as Hq.
  generalize dependent (2 ^ 2045). generalize dependent (2 ^ (e + 1074)).
  generalize dependent (2 ^ 53). intros. nia.
Qed.

Lemma magnitude_lt_of_exponent (s1 s2 : bool) (m1 m2 : positive) (e1 e2 : Z) :
  valid_binary (S754_finite s1 m1 e1) = true ->
  valid_binary (S754_finite s2 m2 e2) = true ->
  e1 < e2 ->
  Zpos m1 * 2 ^ (e1 + 1074) < Zpos m2 * 2 ^ (e2 + 1074).
Proof.
  intros H1 H2 Hlt.
  apply valid_finite_bounds in H1. destruct H1 as [Hm1 [He1 _]].
  apply valid_finite_bounds in H2. destruct H2 as [_ [He2 Hn2]].
  destruct Hn2 as [Hn2|Hn2]; [|lia].
  pose proof (pow2_pos (e1 + 1074) ltac:(lia)) as Hp.
  assert (Hle : 2 * 2 ^ (e1 + 1074) <= 2 ^ (e2 + 1074)).
  { rewrite <- Z.pow_succ_r by lia. apply Z.pow_le_mono_r; lia. }
  replace (2 ^ 53) with (2 * 2 ^ 52) in Hm1 by reflexivity.
  generalize dependent (2 ^ (e2 + 1074)). generalize dependent (2 ^ (e1 + 1074)).
  generalize dependent (2 ^ 52). intros. nia.
Qed.

Lemma magnitude_compare (s1 s2 : bool) (m1 m2 : positive) (e1 e2 : Z) :
  valid_binary (S754_finite s1 m1 e1) = true ->
  valid_binary (S754_finite s2 m2 e2) = true ->
  match e1 ?= e2 with
  | Eq => Pos.compare_cont Eq m1 m2
  | Lt => Lt
  | Gt => Gt
  end = (Zpos m1 * 2 ^ (e1 + 1074) ?= Zpos m2 * 2 ^ (e2 + 1074)).
Proof.
  intros H1 H2. destruct (Z.compare_spec e1 e2) as [Heq|Hlt|Hgt].
  - subst e2. pose proof (valid_finite_bounds _ _ _ H1) as [_ [He _]].
    clear H1 H2.
    pose proof (pow2_pos (e1 + 1074) ltac:(lia)) as Hp.
    change (Pos.compare_cont Eq m1 m2) with (Zpos m1 ?= Zpos m2).
    generalize dependent (2 ^ (e1 + 1074)). intros.
    destruct (Z.compare_spec (Zpos m1) (Zpos m2)); symmetry;
      [apply Z.compare_eq_iff|apply Z.compare_lt_iff|apply Z.compare_gt_iff];
      nia.
  - symmetry. apply Z.compare_lt_iff.
    apply (magnitude_lt_of_exponent s1 s2); assumption.
  - symmetry. apply Z.compare_gt_iff.
    apply (magnitude_lt_of_exponent s2 s1); assumption.
Qed.

(** [SFcompare] on valid floats is the comparison of their keys. *)
Lemma SFcompare_key (x y : spec_float) :
  valid_binary x = true -> valid_binary y = true ->
  SFcompare x y =
  match SFkey x, SFkey y with
  | Some a, Some b => Some (a ?= b)
  | _, _ => None
  end.
Proof.
  intros Vx Vy.
  pose proof (pow2_pos 2098 ltac:(lia)) as HP.
  destruct x as [sx|sx| |sx mx ex], y as [sy|sy| |sy my ey];
    unfold SFcompare, SFkey; try reflexivity;
    try pose proof (magnitude_bounds _ _ _ Vx) as Bx;
    try pose proof (magnitude_bounds _ _ _ Vy) as By.
  all: try (destruct sx, sy; f_equal; symmetry;
            first [apply Z.compare_eq_iff | apply Z.compare_lt_iff
                  | apply Z.compare_gt_iff]; lia).
  all: try (destruct sx; f_equal; symmetry;
            first [apply Z.compare_eq_iff | apply Z.compare_lt_iff
                  | apply Z.compare_gt_iff]; lia).
  all: try (destruct sy; f_equal; symmetry;
            first [apply Z.compare_eq_iff | apply Z.compare_lt_iff
                  | apply Z.compare_gt_iff]; lia).
  pose proof (magnitude_compare sx sy mx my ex ey Vx Vy) as Hc.
  f_equal. destruct sx, sy.
  - rewrite Z.compare_opp.
    rewrite (Z.compare_antisym (Zpos mx * 2 ^ (ex + 1074))), <- Hc.
    destruct (ex ?= ey); reflexivity.
  - symmetry. apply Z.compare_lt_iff. lia.
  - symmetry. apply Z.compare_gt_iff. lia.
  - exact Hc.
Qed.

(** The primitive comparisons, read on keys. *)
Lemma float_compare_key (x y : float) :
  SFcompare (Prim2SF x) (Prim2SF y) =
  match float_key x, float_key y with
  | Some a, Some b => Some (a ?= b)
  | _, _ => None
  end.
Proof. apply SFcompare_key; apply Prim2SF_valid. Qed.

Lemma ltb_key (x y : float) :
  (x <? y)%float =
  match float_key x, float_key y with
  | Some a, Some b => a <? b
  | _, _ => false
  end.
Proof.
  rewrite ltb_spec. unfold SFltb. rewrite float_compare_key.
  destruct (float_key x) as [a|], (float_key y) as [b|]; reflexivity.
Qed.

Lemma leb_key (x y : float) :
  (x <=? y)%float =
  match float_key x, float_key y with
  | Some a, Some b => a <=? b
  | _, _ => false
  end.
Proof.
  rewrite leb_spec. unfold SFleb. rewrite float_compare_key.
  destruct (float_key x) as [a|], (float_key y) as [b|]; reflexivity.
Qed.

Lemma eqb_key (x y : float) :
  (x =? y)%float =
  match float_key x, float_key y with
  | Some a, Some b => a =? b
  | _, _ => false
  end.
Proof.
  rewrite eqb_spec. unfold SFeqb. rewrite float_compare_key.
  destruct (float_key x) as [a|], (float_key y) as [b|]; try reflexivity.
  destruct (Z.eqb_spec a b), (Z.compare_spec a b); try reflexivity; lia.
Qed.

(** ** The generator *)

(** Every two-decimal value between 5.00 and 110.00 reads back as a double
    between 5 and 110. *)
Lemma decimals_in_speed_range :
  forallb speed_decimal_ok (Zrange 500 11000) = true.
Proof. vm_compute. reflexivity. Qed.

(** For every location of the catalog, every rush factor, every count the
    draw can return and both spike decisions, the bounds hold. *)
Lemma catalog_in_bounds : forallb location_in_bounds LOCATIONS = true.
Proof. vm_compute. reflexivity. Qed.

Lemma In_Zrange (lo hi z : Z) :
  lo <= z <= hi -> In z (Zrange lo hi).
Proof.
  intros Hz. unfold Zrange. apply in_map_iff.
  exists (Z.to_nat (z - lo)). split; [lia|].
  apply in_seq. lia.
Qed.

Lemma round_half_even_shift_bounds (num k lo hi : Z) :
  0 <= k ->
  lo * 2 ^ k <= num <= hi * 2 ^ k ->
  lo <= Py.round_half_even_shift num k <= hi.
Proof.
  intros Hk [Hlo Hhi]. unfold Py.round_half_even_shift.
  pose proof (pow2_pos k Hk) as Hd.
  generalize dependent (2 ^ k). intros d Hlo Hhi Hd.
  pose proof (Z.div_mod num d ltac:(lia)) as Hdm.
  pose proof (Z.mod_pos_bound num d Hd) as Hr.
  generalize dependent (num mod d). generalize dependent (num / d).
  intros q r Hdm Hr.
  assert (Hq : lo <= q <= hi) by nia.
  destruct (Z.compare_spec (2 * r) d) as [He|Hl|Hg].
  - destruct (Z.even q); [lia|nia].
  - lia.
  - nia.
Qed.

Lemma scaled_nearest_bounds (m : positive) (e ndigits lo hi : Z) :
  -1074 <= e ->
  0 <= ndigits ->
  lo * 2 ^ 1074 <= Zpos m * 2 ^ (e + 1074) <= hi * 2 ^ 1074 ->
  lo * 10 ^ ndigits <= Py.scaled_nearest m e ndigits <= hi * 10 ^ ndigits.
Proof.
  intros He Hn Hb. unfold Py.scaled_nearest.
  assert (HT : 0 < 10 ^ ndigits) by (apply Z.pow_pos_nonneg; lia).
  destruct (Z.leb_spec 0 e) as [Hpos|Hneg].
  - rewrite Z.pow_add_r in Hb by lia.
    pose proof (pow2_pos e Hpos) as HA.
    pose proof (pow2_pos 1074 ltac:(lia)) as HP.
    generalize dependent (2 ^ 1074). generalize dependent (2 ^ e).
    generalize dependent (10 ^ ndigits). intros T HT A HA P Hb HP.
    assert (lo <= Zpos m * A <= hi) by nia. nia.
  - apply round_half_even_shift_bounds; [lia|].
    replace (2 ^ 1074) with (2 ^ (e + 1074) * 2 ^ (- e)) in Hb
      by (rewrite <- Z.pow_add_r by lia; f_equal; lia).
    pose proof (pow2_pos (e + 1074) ltac:(lia)) as HB.
    pose proof (pow2_pos (- e) ltac:(lia)) as HD.
    generalize dependent (2 ^ (e + 1074)). generalize dependent (2 ^ (- e)).
    generalize dependent (10 ^ ndigits). intros T HT D HD B Hb HB.
    assert (lo * D <= Zpos m <= hi * D) by nia. nia.
Qed.

Lemma leb_trans (x y z : float) :
  (x <=? y)%float = true -> (y <=? z)%float = true -> (x <=? z)%float = true.
Proof.
  rewrite !leb_key.
  destruct (float_key x), (float_key y), (float_key z);
    try discriminate; rewrite !Z.leb_le; lia.
Qed.

Lemma ltb_leb (x y : float) :
  (x <? y)%float = true -> (x <=? y)%float = true.
Proof.
  rewrite ltb_key, leb_key.
  destruct (float_key x), (float_key y);
    try discriminate; rewrite Z.ltb_lt, Z.leb_le; lia.
Qed.

Lemma float_key_5 : float_key 5 = Some (5 * 2 ^ 1074).
Proof. vm_compute. reflexivity. Qed.

Lemma float_key_110 : float_key 110 = Some (110 * 2 ^ 1074).
Proof. vm_compute. reflexivity. Qed.

Lemma float_key_10 : float_key 10 = Some (10 * 2 ^ 1074).
Proof. vm_compute. reflexivity. Qed.

Lemma float_key_85 : float_key 85 = Some (85 * 2 ^ 1074).
Proof. vm_compute. reflexivity. Qed.

(** Rounding to two decimals keeps a speed between 5 and 110. *)
Lemma round_float_speed_range (x : float) :
  (5 <=? x)%float = true -> (x <=? 110)%float = true ->
  (5 <=? Py.round_float x 2)%float = true /\
  (Py.round_float x 2 <=? 110)%float = true.
Proof.
  rewrite (leb_key 5 x), (leb_key x 110), float_key_5, float_key_110.
  unfold float_key, Py.round_float.
  pose proof (Prim2SF_valid x) as Hv.
  pose proof (pow2_pos 1074 ltac:(lia)) as HP.
  assert (Hbig : 110 * 2 ^ 1074 < 2 ^ 2098).
  { replace (2 ^ 2098) with (2 ^ 1024 * 2 ^ 1074)
      by (rewrite <- Z.pow_add_r by lia; f_equal).
    pose proof (Z.pow_gt_lin_r 2 1024 ltac:(lia) ltac:(lia)).
    generalize dependent (2 ^ 1074). generalize dependent (2 ^ 1024).
    intros. nia. }
  destruct (Prim2SF x) as [s|s| |s m e]; cbn [SFkey]; try discriminate.
  - destruct s; rewrite !Z.leb_le; lia.
  - pose proof (magnitude_bounds _ _ _ Hv) as Hmag.
    pose proof (valid_finite_bounds _ _ _ Hv) as [_ [He _]].
    destruct s; rewrite !Z.leb_le; [lia|]. intros Hlo Hhi.
    pose proof (scaled_nearest_bounds m e 2 5 110 ltac:(lia) ltac:(lia)
                  (conj Hlo Hhi)) as Hn.
    change (5 * 10 ^ 2) with 500 in Hn. change (110 * 10 ^ 2) with 11000 in Hn.
    pose proof decimals_in_speed_range as Hall.
    rewrite forallb_forall in Hall.
    specialize (Hall (Py.scaled_nearest m e 2) (In_Zrange 500 11000 _ Hn)).
    unfold speed_decimal_ok in Hall.
    apply andb_true_iff in Hall. exact Hall.
Qed.

Lemma speed_of_rounded_range (d : Draws) (rush_factor : float) :
  uniform_contract d ->
  (5 <=? Py.to_float (Py.round (speed_of d rush_factor) 2))%float = true /\
  (Py.to_float (Py.round (speed_of d rush_factor) 2) <=? 110)%float = true.
Proof.
  unfold uniform_contract, uniform_in_range, speed_of.
  change (Py.float_of_int 5) with 5%float.
  change (Py.float_of_int 15) with 15%float.
  change (Py.float_of_int 85) with 85%float.
  change (Py.float_of_int 110) with 110%float.
  destruct (draw_speed_anomaly d <? 0.05)%float.
  - destruct (draw_speed_band d <? 0.5)%float; intros [H1 H2];
      cbn [Py.round Py.to_float];
      apply round_float_speed_range; try assumption.
    + apply leb_trans with (1 := H2). reflexivity.
    + apply leb_trans with (2 := H1). reflexivity.
  - intros _. cbv zeta. cbn [Py.round].
    set (r1 := Py.round_float _ 1).
    unfold Py.min, Py.max.
    cbn [Py.lt Py.to_float].
    change (Py.float_of_int 5) with 5%float.
    change (Py.float_of_int 110) with 110%float.
    destruct (r1 <? 110)%float eqn:Hhi.
    + cbn [Py.lt Py.to_float]. change (Py.float_of_int 5) with 5%float.
      destruct (5 <? r1)%float eqn:Hlo.
      * cbn [Py.round Py.to_float].
        apply round_float_speed_range; apply ltb_leb; assumption.
      * split; reflexivity.
    + split; reflexivity.
Qed.

Lemma choice_nonempty {A : Type} (seq : list A) (k : nat) :
  seq <> [] -> exists a, Random.choice seq k = Ok a /\ In a seq.
Proof.
  intros Hne. unfold Random.choice.
  destruct (nth_error seq (k mod List.length seq)%nat) as [a|] eqn:Hn.
  - exists a. split; [reflexivity|]. apply nth_error_In with (1 := Hn).
  - apply nth_error_None in Hn.
    assert (List.length seq <> 0%nat) by (destruct seq; cbn; congruence).
    pose proof (Nat.mod_upper_bound k (List.length seq) ltac:(assumption)).
    lia.
Qed.

Lemma randint_in_range (a b k : Z) :
  a <= b -> exists n, Random.randint a b k = Ok n /\ a <= n <= b.
Proof.
  intros Hab. unfold Random.randint.
  destruct (Z.leb_spec a b); [|lia].
  eexists. split; [reflexivity|].
  pose proof (Z.mod_pos_bound k (b - a + 1) ltac:(lia)). lia.
Qed.

Lemma rush_factor_cases (h : Z) :
  In (calculate_rush_hour_factor h) RUSH_FACTORS.
Proof.
  unfold calculate_rush_hour_factor, RUSH_FACTORS.
  destruct (_ && _); [cbn; tauto|].
  destruct (_ && _); [cbn; tauto|].
  destruct (_ || _); cbn; tauto.
Qed.

(** The generator is the sequence of its stages. *)
Lemma generate_stages (iso : Z -> string) (hr : Z -> Z) (d : Draws) (now : Z) :
  generate_realistic_traffic_data iso hr d now =
  (location <- Random.choice LOCATIONS (draw_location d) ;;
   range <- vehicle_range (loc_cap location)
                          (calculate_rush_hour_factor (hr now)) ;;
   drawn <- Random.randint (fst range) (snd range) (draw_vehicles d) ;;
   vehicle_count <- spike (loc_cap location) drawn
                          (draw_spike d <? 0.05)%float ;;
   vehicle_type <- Random.choice VEHICLE_TYPES (draw_vehicle_type d) ;;
   congestion_pct <- congestion_of (loc_cap location) vehicle_count ;;
   incident <-
     (if (draw_incident d <? 0.1)%float
      then Random.choice TRAFFIC_INCIDENTS (draw_incident_choice d)
      else Ok "None") ;;
   weather <- Random.choice WEATHER_CONDITIONS (draw_weather d) ;;
   Ok {| Timestamp := iso now;
         ts := now;
         LocationID := loc_id location;
         LocationName := loc_name location;
         Latitude := loc_lat location;
         Longitude := loc_lon location;
         VehicleCount := vehicle_count;
         AverageSpeedKMH :=
           Py.to_float
             (Py.round (speed_of d (calculate_rush_hour_factor (hr now))) 2);
         DominantVehicleType := vehicle_type;
         WeatherCondition := weather;
         TrafficIncident := incident;
         CongestionPercentage := congestion_pct;
         IsRushHour := (1.0 <? calculate_rush_hour_factor (hr now))%float;
         RushFactor :=
           Py.round_float (calculate_rush_hour_factor (hr now)) 2 |}).
Proof.
  unfold generate_realistic_traffic_data, vehicle_range, spike, congestion_of,
    speed_of.
  destruct (Random.choice LOCATIONS _) as [location|]; [|reflexivity].
  cbn [bind].
  destruct (py_int (Py.Float (_ * 0.3 * _))) as [lo|]; [|reflexivity].
  cbn [bind].
  destruct (py_int (Py.Float (_ * 1.2 * _))) as [hi|]; [|reflexivity].
  cbn [bind fst snd].
  destruct (Random.randint _ _ _) as [drawn|]; [|reflexivity].
  cbn [bind].
  destruct (if (draw_spike d <? 0.05)%float then _ else _) as [vc|];
    [|reflexivity].
  cbn [bind].
  destruct (Random.choice VEHICLE_TYPES _) as [vt|]; [|reflexivity].
  cbn [bind].
  destruct (py_truediv vc (loc_cap location)) as [ratio|]; reflexivity.
Qed.

(** Every run of the generator returns an event, built from a location of
    the catalog and a count within the bounds. *)
Lemma generate_ok (iso : Z -> string) (hr : Z -> Z) (d : Draws) (now : Z) :
  exists loc vc pct vt incident weather,
    In loc LOCATIONS /\
    5 <= vc /\ 2 * vc <= 3 * loc_cap loc /\
    (0 <? pct)%float = true /\ (pct <=? 150)%float = true /\
    generate_realistic_traffic_data iso hr d now =
    Ok {| Timestamp := iso now;
          ts := now;
          LocationID := loc_id loc;
          LocationName := loc_name loc;
          Latitude := loc_lat loc;
          Longitude := loc_lon loc;
          VehicleCount := vc;
          AverageSpeedKMH :=
            Py.to_float
              (Py.round (speed_of d (calculate_rush_hour_factor (hr now))) 2);
          DominantVehicleType := vt;
          WeatherCondition := weather;
          TrafficIncident := incident;
          CongestionPercentage := pct;
          IsRushHour := (1.0 <? calculate_rush_hour_factor (hr now))%float;
          RushFactor :=
            Py.round_float (calculate_rush_hour_factor (hr now)) 2 |}.
Proof.
  rewrite generate_stages.
  destruct (choice_nonempty LOCATIONS (draw_location d) ltac:(discriminate))
    as [loc [-> Hloc]].
  cbn [bind].
  pose proof catalog_in_bounds as Hall.
  rewrite forallb_forall in Hall. specialize (Hall loc Hloc).
  unfold location_in_bounds in Hall. rewrite forallb_forall in Hall.
  specialize (Hall _ (rush_factor_cases (hr now))).
  unfold range_in_bounds in Hall.
  destruct (vehicle_range _ _) as [[lo hi]|]; [|discriminate].
  apply andb_true_iff in Hall. destruct Hall as [Hle Hall].
  apply Z.leb_le in Hle. rewrite forallb_forall in Hall.
  cbn [bind fst snd].
  destruct (randint_in_range lo hi (draw_vehicles d) Hle) as [drawn [-> Hd]].
  cbn [bind].
  specialize (Hall drawn (In_Zrange lo hi drawn Hd)).
  apply andb_true_iff in Hall. destruct Hall as [Ht Hf].
  assert (Hc : count_in_bounds (loc_cap loc) drawn
                               (draw_spike d <? 0.05)%float = true)
    by (destruct (draw_spike d <? 0.05)%float; assumption).
  unfold count_in_bounds in Hc.
  destruct (spike _ _ _) as [vc|]; [|discriminate].
  cbn [bind].
  destruct (congestion_of _ _) as [pct|];
    [|rewrite andb_false_r in Hc; discriminate].
  rewrite !andb_true_iff, Z.leb_le, Z.leb_le in Hc.
  destruct Hc as [[Hvc1 Hvc2] [Hp1 Hp2]].
  destruct (choice_nonempty VEHICLE_TYPES (draw_vehicle_type d)
              ltac:(discriminate)) as [vt [-> _]].
  destruct (choice_nonempty WEATHER_CONDITIONS (draw_weather d)
              ltac:(discriminate)) as [weather [-> _]].
  assert (Hinc : exists incident,
             (if (draw_incident d <? 0.1)%float
              then Random.choice TRAFFIC_INCIDENTS (draw_incident_choice d)
              else Ok "None") = Ok incident).
  { destruct (draw_incident d <? 0.1)%float; [|eexists; reflexivity].
    destruct (choice_nonempty TRAFFIC_INCIDENTS (draw_incident_choice d)
                ltac:(discriminate)) as [i [-> _]].
    eexists. reflexivity. }
  destruct Hinc as [incident ->].
  cbn [bind].
  exists loc, vc, pct, vt, incident, weather.
  repeat (split; [assumption|]). reflexivity.
Qed.

Lemma finite_between (lo x hi : float) :
  Py.finite lo = true -> Py.finite hi = true ->
  (lo <=? x)%float = true -> (x <=? hi)%float = true ->
  Py.finite x = true.
Proof.
  rewrite (leb_key lo x), (leb_key x hi). unfold float_key, Py.finite.
  pose proof (Prim2SF_valid lo) as Vlo. pose proof (Prim2SF_valid hi) as Vhi.
  pose proof (pow2_pos 2098 ltac:(lia)) as HP.
  destruct (Prim2SF lo) as [?|?| |sl ml el]; try discriminate;
    destruct (Prim2SF hi) as [?|?| |sh mh eh]; try discriminate;
    destruct (Prim2SF x) as [?|sx| |? ? ?]; try discriminate;
    try reflexivity; intros _ _; cbn [SFkey];
    try pose proof (magnitude_bounds _ _ _ Vlo);
    try pose proof (magnitude_bounds _ _ _ Vhi);
    rewrite !Z.leb_le;
    repeat match goal with s : bool |- _ => destruct s end; lia.
Qed.

Lemma round_rush_factor (rf : float) :
  In rf RUSH_FACTORS -> Py.round_float rf 2 = rf /\ Py.finite rf = true.
Proof.
  unfold RUSH_FACTORS. cbn [In].
  intros [<-|[<-|[<-|[<-|[]]]]]; split; vm_compute; reflexivity.
Qed.

Lemma locations_finite :
  forallb (fun loc => Py.finite (loc_lat loc) && Py.finite (loc_lon loc))
          LOCATIONS = true.
Proof. vm_compute. reflexivity. Qed.

(** ** Rounding an exact value to a double *)

Lemma pow2_split (a b : Z) : 0 <= a -> 0 <= b -> 2 ^ (a + b) = 2 ^ a * 2 ^ b.
Proof. intros Ha Hb. apply Z.pow_add_r; assumption. Qed.

(** One step of [shr_1] halves the mantissa. *)
Lemma shr_1_spec (m : Z) (r s : bool) :
  0 <= m ->
  shr_m (shr_1 {| shr_m := m; shr_r := r; shr_s := s |}) = m / 2 /\
  shr_r (shr_1 {| shr_m := m; shr_r := r; shr_s := s |}) = Z.odd m /\
  shr_s (shr_1 {| shr_m := m; shr_r := r; shr_s := s |}) = r || s.
Proof.
  intros Hm. destruct m as [|[p|p|]|]; cbn [shr_1 shr_m shr_r shr_s]; try lia.
  - repeat split.
  - repeat split. rewrite (Pos2Z.inj_xI p).
    apply Z.div_unique with 1; lia.
  - repeat split. rewrite (Pos2Z.inj_xO p).
    apply Z.div_unique with 0; lia.
  - repeat split.
Qed.

Lemma shifted_step (m0 k : Z) (mrs : shr_record) :
  0 <= m0 -> 0 <= k -> shifted m0 k mrs -> shifted m0 (k + 1) (shr_1 mrs).
Proof.
  intros Hm Hk [Hq Hex]. destruct mrs as [m r s]. cbn [shr_m shr_r shr_s] in *.
  pose proof (pow2_pos k Hk) as Hp.
  assert (H0 : 0 <= m) by (subst m; apply Z.div_pos; lia).
  destruct (shr_1_spec m r s H0) as [H1 [H2 H3]].
  split.
  - rewrite H1, Hq, Z.pow_add_r, Z.pow_1_r by lia.
    apply Z.div_div; lia.
  - intros Hmod. rewrite Z.pow_add_r, Z.pow_1_r in Hmod by lia.
    assert (Hd : m0 = 2 ^ k * 2 * (m0 / (2 ^ k * 2))).
    { pose proof (Z.div_mod m0 (2 ^ k * 2) ltac:(lia)). lia. }
    assert (Hk0 : m0 mod 2 ^ k = 0).
    { rewrite Hd. rewrite <- Z.mul_assoc, Z.mul_comm. apply Z.mod_mul. lia. }
    destruct (Hex Hk0) as [Hr Hs].
    rewrite H2, H3, Hr, Hs. split; [|reflexivity].
    rewrite Hq. rewrite Hd.
    replace (2 ^ k * 2 * (m0 / (2 ^ k * 2)))
      with ((2 * (m0 / (2 ^ k * 2))) * 2 ^ k) by lia.
    rewrite Z.div_mul by lia. rewrite Z.odd_mul. reflexivity.
Qed.

Lemma iter_pos_shifted (m0 : Z) (p : positive) :
  0 <= m0 ->
  forall (k : Z) (mrs : shr_record),
    0 <= k -> shifted m0 k mrs -> shifted m0 (k + Zpos p) (iter_pos shr_1 p mrs).
Proof.
  intros Hm. induction p as [p IH|p IH|]; intros k mrs Hk H; cbn [iter_pos].
  - replace (k + Zpos p~1) with (k + 1 + Zpos p + Zpos p) by lia.
    apply IH; [lia|]. apply IH; [lia|]. apply shifted_step; assumption.
  - replace (k + Zpos p~0) with (k + Zpos p + Zpos p) by lia.
    apply IH; [lia|]. apply IH; assumption.
  - apply shifted_step; assumption.
Qed.

(** [shr] from an exact location: the floor of [m0 / 2^n], and the location
    stays exact when nothing is lost. *)
Lemma shr_exact_spec (m0 e n : Z) :
  0 <= m0 -> 0 <= n ->
  snd (shr {| shr_m := m0; shr_r := false; shr_s := false |} e n) = e + n /\
  shr_m (fst (shr {| shr_m := m0; shr_r := false; shr_s := false |} e n))
    = m0 / 2 ^ n /\
  (m0 mod 2 ^ n = 0 ->
   loc_of_shr_record
     (fst (shr {| shr_m := m0; shr_r := false; shr_s := false |} e n))
     = loc_Exact).
Proof.
  intros Hm Hn. destruct n as [|p|p]; [| |lia]; cbn [shr fst snd shr_m].
  - split; [lia|]. split; [rewrite Z.pow_0_r, Z.div_1_r; reflexivity|].
    reflexivity.
  - split; [reflexivity|].
    assert (H0 : shifted m0 0 {| shr_m := m0; shr_r := false; shr_s := false |}).
    { split; cbn [shr_m shr_r shr_s].
      - rewrite Z.pow_0_r, Z.div_1_r. reflexivity.
      - intros _. split; reflexivity. }
    pose proof (iter_pos_shifted m0 p Hm 0 _ ltac:(lia) H0) as [Hq Hex].
    rewrite Z.add_0_l in Hq, Hex.
    split; [exact Hq|]. intros Hmod. destruct (Hex Hmod) as [Hr Hs].
    destruct (iter_pos shr_1 p _) as [m r s]. cbn [shr_r shr_s] in Hr, Hs.
    subst r s. reflexivity.
Qed.

Lemma shr_stays (mrs : shr_record) (e n : Z) :
  n <= 0 -> shr mrs e n = (mrs, e).
Proof. intros Hn. destruct n; [reflexivity|lia|reflexivity]. Qed.

Lemma round_nearest_even_bounds (m : Z) (l : location) :
  m <= round_nearest_even m l <= m + 1 /\
  (l = loc_Exact -> round_nearest_even m l = m).
Proof.
  destruct l as [|[| |]]; cbn [round_nearest_even];
    try destruct (Z.even m); split; try lia; try reflexivity;
    intros H; discriminate H.
Qed.

Lemma fexp_eq (k : Z) : fexp prec emax k = Z.max (k - 53) (-1074).
Proof. reflexivity. Qed.

Lemma digits2_le (p : positive) (k : Z) :
  0 <= k -> Zpos p < 2 ^ k -> Zpos (digits2_pos p) <= k.
Proof.
  intros Hk Hlt. pose proof (digits2_pos_bounds p) as [Hlo _].
  assert (H : 2 ^ (Zpos (digits2_pos p) - 1) < 2 ^ k) by lia.
  apply Z.pow_lt_mono_r_iff in H; lia.
Qed.

Lemma digits2_ge (p : positive) (k : Z) :
  0 <= k -> 2 ^ k <= Zpos p -> k + 1 <= Zpos (digits2_pos p).
Proof.
  intros Hk Hle. pose proof (digits2_pos_bounds p) as [_ Hhi].
  assert (H : 2 ^ k < 2 ^ Zpos (digits2_pos p)) by lia.
  apply Z.pow_lt_mono_r_iff in H; lia.
Qed.

(** The key of [binary_round_aux] on an exact positive value [m * 2^e]
    whose exponent is not above the one of its binade: the value is cut to
    the grid of that binade, rounded to one of its two neighbours there (to
    itself when it is on the grid), and replaced by the infinity from 2^1024
    on. *)
Lemma binary_round_aux_key (m : positive) (e : Z) :
  e <= fexp prec emax (Zpos (digits2_pos m) + e) ->
  exists m2 : Z,
    Zpos m / 2 ^ (fexp prec emax (Zpos (digits2_pos m) + e) - e) <= m2 /\
    m2 <= Zpos m / 2 ^ (fexp prec emax (Zpos (digits2_pos m) + e) - e) + 1 /\
    (Zpos m mod 2 ^ (fexp prec emax (Zpos (digits2_pos m) + e) - e) = 0 ->
     m2 = Zpos m / 2 ^ (fexp prec emax (Zpos (digits2_pos m) + e) - e)) /\
    SFkey (binary_round_aux prec emax false (Zpos m) e loc_Exact)
    = Some (Z.min (m2 * 2 ^ (fexp prec emax (Zpos (digits2_pos m) + e) + 1074))
                  (2 ^ 2098)).
Proof.
  intros Hal.
  pose proof (digits2_pos_bounds m) as [Hdlo Hdhi].
  set (d := Zpos (digits2_pos m)) in *.
  assert (Hd : 0 < d) by (unfold d; lia).
  set (f := fexp prec emax (d + e)) in *.
  assert (Hf : f = Z.max (d + e - 53) (-1074)) by (unfold f; apply fexp_eq).
  set (n := f - e).
  assert (Hn : 0 <= n) by (unfold n; lia).
  unfold binary_round_aux, shr_fexp.
  cbn [Zdigits2 shr_record_of_loc]. fold d. fold f. fold n.
  destruct (shr_exact_spec (Zpos m) e n ltac:(lia) Hn) as [He' [Hm1 Hex]].
  destruct (shr {| shr_m := Z.pos m; shr_r := false; shr_s := false |} e n)
    as [mrs e'].
  cbn [fst snd] in He', Hm1, Hex.
  assert (Hfe : e' = f) by (unfold n in He'; lia). clear He'.
  destruct (round_nearest_even_bounds (shr_m mrs) (loc_of_shr_record mrs))
    as [[Hr1 Hr2] Hr3].
  set (m2 := round_nearest_even (shr_m mrs) (loc_of_shr_record mrs)) in *.
  rewrite Hm1 in Hr1, Hr2, Hr3.
  pose proof (pow2_pos n Hn) as Hpn.
  assert (Hm1lo : 0 <= Zpos m / 2 ^ n) by (apply Z.div_pos; lia).
  assert (Hm1hi : Zpos m / 2 ^ n < 2 ^ 53).
  { apply Z.div_lt_upper_bound; [lia|].
    rewrite <- Z.pow_add_r by lia.
    apply Z.lt_le_trans with (1 := Hdhi).
    apply Z.pow_le_mono_r; lia. }
  assert (Hnorm : -1074 < f -> 2 ^ 52 <= Zpos m / 2 ^ n).
  { intros Hgt. apply Z.div_le_lower_bound; [lia|].
    rewrite <- Z.pow_add_r by lia.
    replace (n + 52) with (d - 1) by lia. exact Hdlo. }
  exists m2. split; [exact Hr1|]. split; [exact Hr2|].
  split; [intros Hmod; apply Hr3, Hex, Hmod|].
  assert (H0 : 0 <= m2 <= 2 ^ 53) by lia.
  assert (Hfl : -1074 <= f) by lia.
  pose proof (pow2_pos (f + 1074) ltac:(lia)) as Hpf.
  subst e'. clearbody m2. clear Hr3 Hex Hm1 mrs.
  destruct (Z.eq_dec m2 (2 ^ 53)) as [Htop|Hntop].
  - (* the mantissa overflowed into the next binade *)
    subst m2. change (2 ^ 53) with 9007199254740992.
    cbn [Zdigits2 digits2_pos Pos.succ].
    replace (fexp prec emax (54 + f) - f) with 1 by (rewrite fexp_eq; lia).
    cbn [shr iter_pos shr_1 shr_m].
    change (emax - prec) with 971.
    destruct (Z.leb_spec (f + 1) 971) as [Hle|Hgt]; cbn [SFkey]; apply f_equal.
    + change 4503599627370496 with (2 ^ 52).
      change 9007199254740992 with (2 ^ 53).
      replace (f + 1 + 1074) with (1 + (f + 1074)) by lia.
      rewrite (pow2_split 1 (f + 1074)) by lia.
      assert (Hb : 2 ^ (f + 1074) <= 2 ^ 2044) by (apply Z.pow_le_mono_r; lia).
      replace (2 ^ 2098) with (2 ^ 53 * 2 ^ 2045) by (rewrite <- Z.pow_add_r by lia; reflexivity).
      replace (2 ^ 2045) with (2 * 2 ^ 2044) by (rewrite <- Z.pow_succ_r by lia; reflexivity).
      change (2 ^ 53) with (2 * 2 ^ 52). change (2 ^ 1) with 2.
      pose proof (pow2_pos 52 ltac:(lia)) as H52.
      generalize dependent (2 ^ 2044). generalize dependent (2 ^ (f + 1074)).
      generalize dependent (2 ^ 52). intros. nia.
    + change 9007199254740992 with (2 ^ 53).
      assert (Hb : 2 ^ 2045 <= 2 ^ (f + 1074)) by (apply Z.pow_le_mono_r; lia).
      replace (2 ^ 2098) with (2 ^ 53 * 2 ^ 2045) by (rewrite <- Z.pow_add_r by lia; reflexivity).
      pose proof (pow2_pos 53 ltac:(lia)) as H53.
      generalize dependent (2 ^ 2045). generalize dependent (2 ^ (f + 1074)).
      generalize dependent (2 ^ 53). intros. nia.
  - assert (Hlt : m2 < 2 ^ 53) by lia.
    destruct m2 as [|p2|p2]; [| |lia].
    + cbn [Zdigits2]. rewrite shr_stays by (rewrite fexp_eq; lia).
      cbn [shr_m SFkey]. apply f_equal. rewrite Z.mul_0_l.
      pose proof (pow2_pos 2098 ltac:(lia)). lia.
    + cbn [Zdigits2].
      pose proof (digits2_le p2 53 ltac:(lia) Hlt) as Hd2.
      rewrite shr_stays by (rewrite fexp_eq; lia).
      cbn [shr_m]. change (emax - prec) with 971.
      replace (2 ^ 2098) with (2 ^ 53 * 2 ^ 2045) by (rewrite <- Z.pow_add_r by lia; reflexivity).
      destruct (Z.leb_spec f 971) as [Hle|Hgt]; cbn [SFkey]; apply f_equal.
      * assert (Hb : 2 ^ (f + 1074) <= 2 ^ 2045) by (apply Z.pow_le_mono_r; lia).
        generalize dependent (2 ^ 2045). generalize dependent (2 ^ (f + 1074)).
        generalize dependent (2 ^ 53). intros. nia.
      * assert (Hb : 2 * 2 ^ 2045 <= 2 ^ (f + 1074)).
        { rewrite <- Z.pow_succ_r by lia. apply Z.pow_le_mono_r; lia. }
        specialize (Hnorm ltac:(lia)).
        change (2 ^ 53) with (2 * 2 ^ 52) in *.
        pose proof (pow2_pos 2045 ltac:(lia)) as H2045.
        pose proof (pow2_pos 52 ltac:(lia)) as H52.
        symmetry. apply Z.min_r.
        assert (Hp2 : 2 ^ 52 <= Zpos p2) by lia.
        apply Z.le_trans with (2 ^ 52 * 2 ^ (f + 1074)).
        { change (2 ^ 2098) with (2 ^ (52 + 2046)).
          rewrite (pow2_split 52 2046) by lia.
          apply Z.mul_le_mono_nonneg_l; [lia|].
          apply Z.pow_le_mono_r; lia. }
        apply Z.mul_le_mono_nonneg_r; lia.
Qed.

(** A value rounded as in [binary_round_aux_key] stays on the same side of
    every double: no double lies strictly between a value and its rounding. *)
Lemma rounded_between (m : positive) (e m2 : Z) (s : bool) (mb : positive) (eb : Z) :
  -2148 <= e ->
  e <= fexp prec emax (Zpos (digits2_pos m) + e) ->
  Zpos m / 2 ^ (fexp prec emax (Zpos (digits2_pos m) + e) - e) <= m2 ->
  m2 <= Zpos m / 2 ^ (fexp prec emax (Zpos (digits2_pos m) + e) - e) + 1 ->
  (Zpos m mod 2 ^ (fexp prec emax (Zpos (digits2_pos m) + e) - e) = 0 ->
   m2 = Zpos m / 2 ^ (fexp prec emax (Zpos (digits2_pos m) + e) - e)) ->
  valid_binary (S754_finite s mb eb) = true ->
  (Zpos m * 2 ^ (e + 2148) <= Zpos mb * 2 ^ (eb + 2148) ->
   Z.min (m2 * 2 ^ (fexp prec emax (Zpos (digits2_pos m) + e) + 1074)) (2 ^ 2098)
   <= Zpos mb * 2 ^ (eb + 1074)) /\
  (Zpos mb * 2 ^ (eb + 2148) <= Zpos m * 2 ^ (e + 2148) ->
   Zpos mb * 2 ^ (eb + 1074)
   <= Z.min (m2 * 2 ^ (fexp prec emax (Zpos (digits2_pos m) + e) + 1074)) (2 ^ 2098)).
Proof.
  intros He Hal Hlo Hhi Hex Hv.
  pose proof (magnitude_bounds _ _ _ Hv) as [_ Hmag].
  apply valid_finite_bounds in Hv. destruct Hv as [Hmb [Heb Hnb]].
  pose proof (digits2_pos_bounds m) as [Hdlo Hdhi].
  set (d := Zpos (digits2_pos m)) in *.
  assert (Hd : 0 < d) by (unfold d; lia).
  set (f := fexp prec emax (d + e)) in *.
  assert (Hf : f = Z.max (d + e - 53) (-1074)) by (unfold f; apply fexp_eq).
  set (n := f - e) in *.
  assert (Hn : 0 <= n) by (unfold n; lia).
  pose proof (pow2_pos n Hn) as HN.
  pose proof (pow2_pos (e + 2148) ltac:(lia)) as HA.
  pose proof (pow2_pos (f + 1074) ltac:(lia)) as HF.
  pose proof (Z.div_mod (Zpos m) (2 ^ n) ltac:(lia)) as Hdm.
  pose proof (Z.mod_pos_bound (Zpos m) (2 ^ n) ltac:(lia)) as Hmod.
  set (M1 := Zpos m / 2 ^ n) in *.
  set (R := Zpos m mod 2 ^ n) in *.
  destruct (Z_le_gt_dec f eb) as [Hge|Hlt].
  - (* the double is on the grid of the rounding *)
    set (t := eb - f).
    pose proof (pow2_pos t ltac:(unfold t; lia)) as HT.
    replace (eb + 2148) with (t + (n + (e + 2148))) by (unfold t, n; lia).
    replace (eb + 1074) with (t + (f + 1074)) by (unfold t; lia).
    rewrite (pow2_split t (n + (e + 2148))) by (unfold t; lia).
    rewrite (pow2_split n (e + 2148)) by lia.
    rewrite (pow2_split t (f + 1074)) by (unfold t; lia).
    replace (eb + 1074) with (t + (f + 1074)) in Hmag by (unfold t; lia).
    rewrite (pow2_split t (f + 1074)) in Hmag by (unfold t; lia).
    clearbody M1 R.
    remember (2 ^ 2098) as top eqn:Etop. remember (2 ^ (f + 1074)) as F eqn:EF.
    remember (2 ^ (e + 2148)) as A eqn:EA. remember (2 ^ t) as T eqn:ET.
    remember (2 ^ n) as N eqn:EN. clear Etop EF EA ET EN.
    split; intros H.
    + assert (H1 : Zpos m <= Zpos mb * T * N).
      { apply Z.mul_le_mono_pos_r with A; [exact HA|]. lia. }
      assert (H2 : m2 <= Zpos mb * T).
      { destruct (Z.eq_dec R 0) as [HR|HR].
        - rewrite (Hex HR). nia.
        - assert (M1 < Zpos mb * T) by nia. lia. }
      apply Z.le_trans with (m2 * F); [apply Z.le_min_l|].
      rewrite Z.mul_assoc. apply Z.mul_le_mono_nonneg_r; lia.
    + assert (H1 : Zpos mb * T * N <= Zpos m).
      { apply Z.mul_le_mono_pos_r with A; [exact HA|]. lia. }
      assert (H2 : Zpos mb * T <= M1) by nia.
      apply Z.min_glb; [|lia].
      rewrite Z.mul_assoc. apply Z.mul_le_mono_nonneg_r; lia.
  - (* the double lies below the binade of the value *)
    assert (Hfd : f = d + e - 53) by lia.
    assert (Hnd : n = d - 53) by (unfold n; lia).
    split; intros H.
    + exfalso.
      assert (H1 : Zpos mb * 2 ^ (eb + 2148) < 2 ^ 53 * 2 ^ (eb + 2148)).
      { apply Z.mul_lt_mono_pos_r; [apply pow2_pos; lia|exact Hmb]. }
      assert (H2 : 2 ^ 53 * 2 ^ (eb + 2148) <= 2 ^ (d - 1) * 2 ^ (e + 2148)).
      { rewrite <- !Z.pow_add_r by lia. apply Z.pow_le_mono_r; lia. }
      assert (H3 : 2 ^ (d - 1) * 2 ^ (e + 2148) <= Zpos m * 2 ^ (e + 2148)).
      { apply Z.mul_le_mono_nonneg_r; lia. }
      lia.
    + assert (H1 : 2 ^ 52 <= M1).
      { apply Z.div_le_lower_bound; [lia|].
        rewrite <- Z.pow_add_r by lia.
        replace (n + 52) with (d - 1) by lia. exact Hdlo. }
      apply Z.min_glb; [|lia].
      apply Z.le_trans with (2 ^ 53 * 2 ^ (eb + 1074)).
      { apply Z.mul_le_mono_nonneg_r; [apply Z.lt_le_incl, pow2_pos; lia|lia]. }
      apply Z.le_trans with (2 ^ 52 * 2 ^ (f + 1074)).
      { rewrite <- !Z.pow_add_r by lia. apply Z.pow_le_mono_r; lia. }
      apply Z.mul_le_mono_nonneg_r; lia.
Qed.

Lemma Some_inj (a b : Z) : Some a = Some b -> b = a.
Proof. intros H. congruence. Qed.

(** [binary_round_aux] on an exact positive value rounds it. *)
Lemma binary_round_aux_rounds (m : positive) (e : Z) :
  -2148 <= e ->
  e <= fexp prec emax (Zpos (digits2_pos m) + e) ->
  exists K : Z,
    SFkey (binary_round_aux prec emax false (Zpos m) e loc_Exact) = Some K /\
    0 <= K <= 2 ^ 2098 /\
    rounds_to (Zpos m * 2 ^ (e + 2148)) K.
Proof.
  intros He Hal.
  destruct (binary_round_aux_key m e Hal) as [m2 [Hlo [Hhi [Hex Hkey]]]].
  pose proof (pow2_pos 2098 ltac:(lia)) as Htop.
  pose proof (pow2_pos (e + 2148) ltac:(lia)) as HA.
  pose proof (pow2_pos 1074 ltac:(lia)) as HP.
  assert (Hf : -1074 <= fexp prec emax (Zpos (digits2_pos m) + e))
    by (rewrite fexp_eq; lia).
  pose proof (pow2_pos (fexp prec emax (Zpos (digits2_pos m) + e) + 1074)
                ltac:(lia)) as HF.
  assert (Hm1 : 0 <= Zpos m / 2 ^ (fexp prec emax (Zpos (digits2_pos m) + e) - e)).
  { apply Z.div_pos; [lia|apply pow2_pos; lia]. }
  exists (Z.min (m2 * 2 ^ (fexp prec emax (Zpos (digits2_pos m) + e) + 1074))
                (2 ^ 2098)).
  split; [exact Hkey|]. split.
  { split; [apply Z.min_glb; [apply Z.mul_nonneg_nonneg|]; lia|apply Z.le_min_r]. }
  assert (HK : 0 <= Z.min (m2 * 2 ^ (fexp prec emax (Zpos (digits2_pos m) + e) + 1074))
                     (2 ^ 2098)).
  { apply Z.min_glb; [apply Z.mul_nonneg_nonneg|]; lia. }
  assert (Hex0 : 0 < Zpos m * 2 ^ (e + 2148)) by (apply Z.mul_pos_pos; lia).
  intros b kb Hv Hb.
  destruct b as [sb|sb| |sb mb eb]; cbn [SFkey] in Hb; [| |discriminate Hb|];
    apply Some_inj in Hb; subst kb.
  - split; [intros H; lia|intros _ _; exact HK].
  - destruct sb.
    + split; [intros H; nia|intros _ _; lia].
    + split; [intros _; apply Z.le_min_r|intros H; lia].
  - pose proof (magnitude_bounds _ _ _ Hv) as [Hpos _].
    destruct sb.
    + assert (Hneg : 0 < Zpos mb * 2 ^ (eb + 1074) * 2 ^ 1074)
        by (apply Z.mul_pos_pos; lia).
      split; [intros Hle; rewrite Z.mul_opp_l in Hle
             |intros _ _; apply Z.le_trans with 0;
              [apply Z.opp_nonpos_nonneg, Z.lt_le_incl, Hpos|exact HK]].
      exfalso. clear - Hle Hex0 Hneg.
      generalize dependent (Zpos mb * 2 ^ (eb + 1074) * 2 ^ 1074).
      generalize dependent (Zpos m * 2 ^ (e + 2148)). intros. lia.
    + destruct (rounded_between m e m2 false mb eb He Hal Hlo Hhi Hex Hv)
        as [Hup Hdn].
      assert (Hsc : Zpos mb * 2 ^ (eb + 1074) * 2 ^ 1074 = Zpos mb * 2 ^ (eb + 2148)).
      { apply valid_finite_bounds in Hv. destruct Hv as [_ [Heb _]].
        rewrite <- Z.mul_assoc, <- Z.pow_add_r by lia. do 2 f_equal. lia. }
      rewrite Hsc. split; [exact Hup|intros _; exact Hdn].
Qed.

Lemma iter_xO_value (m p : positive) :
  Zpos (Pos.iter xO m p) = Zpos m * 2 ^ Zpos p /\
  Zpos (digits2_pos (Pos.iter xO m p)) = Zpos (digits2_pos m) + Zpos p.
Proof.
  apply (Pos.iter_ind positive xO m
           (fun p a => Zpos a = Zpos m * 2 ^ Zpos p /\
                       Zpos (digits2_pos a) = Zpos (digits2_pos m) + Zpos p)).
  - cbn [digits2_pos]. rewrite (Pos2Z.inj_xO m), Pos2Z.inj_succ. lia.
  - intros q a [Ha Hd]. cbn [digits2_pos].
    rewrite (Pos2Z.inj_xO a), !Pos2Z.inj_succ, Z.pow_succ_r by lia. lia.
Qed.

(** [binary_round] on an exact positive value rounds it. *)
Lemma binary_round_rounds (m : positive) (e : Z) :
  -2148 <= e ->
  exists K : Z,
    SFkey (binary_round prec emax false m e) = Some K /\
    0 <= K <= 2 ^ 2098 /\
    rounds_to (Zpos m * 2 ^ (e + 2148)) K.
Proof.
  intros He. unfold binary_round, shl_align.
  set (f := fexp prec emax (Zpos (digits2_pos m) + e)).
  assert (Hf : f = Z.max (Zpos (digits2_pos m) + e - 53) (-1074))
    by (unfold f; apply fexp_eq).
  destruct (f - e) as [|p|p] eqn:Hfe.
  - apply binary_round_aux_rounds; [exact He|fold f; lia].
  - apply binary_round_aux_rounds; [exact He|fold f; lia].
  - destruct (iter_xO_value m p) as [Hval Hdig].
    assert (Hp : e = f + Zpos p) by lia.
    destruct (binary_round_aux_rounds (Pos.iter xO m p) f ltac:(lia)) as [K HK].
    { rewrite Hdig.
      replace (Zpos (digits2_pos m) + Zpos p + f)
        with (Zpos (digits2_pos m) + e) by lia.
      fold f. lia. }
    destruct HK as [HK1 [HK2 HK3]].
    exists K. split; [exact HK1|]. split; [exact HK2|].
    rewrite Hval in HK3.
    replace (Zpos m * 2 ^ Zpos p * 2 ^ (f + 2148))
      with (Zpos m * 2 ^ (e + 2148)) in HK3; [exact HK3|].
    rewrite <- Z.mul_assoc, <- Z.pow_add_r by lia. do 2 f_equal. lia.
Qed.

(** The product of two positive doubles is the rounding of the exact
    product. *)
Lemma SFmul_rounds (mx my : positive) (ex ey : Z) :
  valid_binary (S754_finite false mx ex) = true ->
  valid_binary (S754_finite false my ey) = true ->
  exists K : Z,
    SFkey (SFmul prec emax (S754_finite false mx ex) (S754_finite false my ey))
    = Some K /\
    0 <= K <= 2 ^ 2098 /\
    rounds_to ((Zpos mx * 2 ^ (ex + 1074)) * (Zpos my * 2 ^ (ey + 1074))) K.
Proof.
  intros Vx Vy.
  apply valid_finite_bounds in Vx. destruct Vx as [Hmx [Hex Hnx]].
  apply valid_finite_bounds in Vy. destruct Vy as [Hmy [Hey Hny]].
  cbn [SFmul xorb].
  replace ((Zpos mx * 2 ^ (ex + 1074)) * (Zpos my * 2 ^ (ey + 1074)))
    with (Zpos (mx * my) * 2 ^ (ex + ey + 2148)).
  2:{ rewrite Pos2Z.inj_mul.
      replace (ex + ey + 2148) with ((ex + 1074) + (ey + 1074)) by lia.
      rewrite Z.pow_add_r by lia. ring. }
  apply binary_round_aux_rounds; [lia|].
  rewrite fexp_eq.
  assert (Hd : 53 <= Zpos (digits2_pos (mx * my)) \/ ex + ey <= -1074).
  { destruct Hnx as [Hnx|Hnx], Hny as [Hny|Hny]; [left|left|left|right; lia].
    - apply (digits2_ge (mx * my) 52); [lia|].
      rewrite Pos2Z.inj_mul. nia.
    - apply (digits2_ge (mx * my) 52); [lia|].
      rewrite Pos2Z.inj_mul. nia.
    - apply (digits2_ge (mx * my) 52); [lia|].
      rewrite Pos2Z.inj_mul. nia. }
  lia.
Qed.

(** The sum of two positive doubles is the rounding of the exact sum. *)
Lemma SFadd_rounds (mx my : positive) (ex ey : Z) :
  valid_binary (S754_finite false mx ex) = true ->
  valid_binary (S754_finite false my ey) = true ->
  exists K : Z,
    SFkey (SFadd prec emax (S754_finite false mx ex) (S754_finite false my ey))
    = Some K /\
    0 <= K <= 2 ^ 2098 /\
    rounds_to ((Zpos mx * 2 ^ (ex + 1074) + Zpos my * 2 ^ (ey + 1074)) * 2 ^ 1074) K.
Proof.
  intros Vx Vy.
  apply valid_finite_bounds in Vx. destruct Vx as [Hmx [Hex Hnx]].
  apply valid_finite_bounds in Vy. destruct Vy as [Hmy [Hey Hny]].
  cbn [SFadd cond_Zopp].
  set (ez := Z.min ex ey).
  assert (Hz : ez <= ex /\ ez <= ey /\ -1074 <= ez) by (unfold ez; lia).
  assert (Hal : forall (m : positive) (e : Z), ez <= e ->
            Zpos (fst (shl_align m e ez)) = Zpos m * 2 ^ (e - ez)).
  { intros m e Hle. unfold shl_align.
    destruct (ez - e) as [|p|p] eqn:Hd; cbn [fst].
    - replace (e - ez) with 0 by lia. rewrite Z.pow_0_r. lia.
    - lia.
    - destruct (iter_xO_value m p) as [Hv _]. rewrite Hv.
      do 2 f_equal. lia. }
  change (Zpos (fst (shl_align mx ex ez)) + Zpos (fst (shl_align my ey ez)))
    with (Zpos (fst (shl_align mx ex ez) + fst (shl_align my ey ez))).
  cbn [binary_normalize].
  destruct (binary_round_rounds
              (fst (shl_align mx ex ez) + fst (shl_align my ey ez)) ez
              ltac:(lia)) as [K HK].
  exists K.
  rewrite Pos2Z.inj_add, (Hal mx ex), (Hal my ey) in HK by lia.
  replace ((Zpos mx * 2 ^ (ex - ez) + Zpos my * 2 ^ (ey - ez)) * 2 ^ (ez + 2148))
    with ((Zpos mx * 2 ^ (ex + 1074) + Zpos my * 2 ^ (ey + 1074)) * 2 ^ 1074)
    in HK; [exact HK|].
  rewrite !Z.mul_add_distr_r, <- !Z.mul_assoc, <- !Z.pow_add_r by lia.
  do 3 f_equal; lia.
Qed.

(** ** The primitive operations on non-negative doubles *)

Lemma rounds_to_zero : rounds_to 0 0.
Proof.
  intros b kb _ _. pose proof (pow2_pos 1074 ltac:(lia)) as HP.
  split; intros; nia.
Qed.

Lemma rounds_to_exact (k : Z) : rounds_to (k * 2 ^ 1074) k.
Proof.
  intros b kb _ _. pose proof (pow2_pos 1074 ltac:(lia)) as HP.
  split; intros; nia.
Qed.

(** A key in [0, 2^2098) is the key of a zero or of a positive finite
    double. *)
Lemma nonneg_key_cases (x : spec_float) (k : Z) :
  valid_binary x = true ->
  SFkey x = Some k -> 0 <= k < 2 ^ 2098 ->
  (exists s, x = S754_zero s /\ k = 0) \/
  (exists m e, x = S754_finite false m e /\ k = Zpos m * 2 ^ (e + 1074)).
Proof.
  intros Hv Hk Hr. pose proof (pow2_pos 2098 ltac:(lia)) as Htop.
  destruct x as [s|s| |s m e]; cbn [SFkey] in Hk; [| |discriminate Hk|];
    apply Some_inj in Hk; subst k.
  - left. exists s. split; reflexivity.
  - destruct s; lia.
  - pose proof (magnitude_bounds _ _ _ Hv) as [Hpos _].
    destruct s; [lia|]. right. exists m, e. split; reflexivity.
Qed.

Lemma mul_rounds (x y : float) (kx ky : Z) :
  float_key x = Some kx -> float_key y = Some ky ->
  0 <= kx < 2 ^ 2098 -> 0 <= ky < 2 ^ 2098 ->
  exists K : Z,
    float_key (x * y) = Some K /\ 0 <= K <= 2 ^ 2098 /\ rounds_to (kx * ky) K.
Proof.
  intros Hx Hy Rx Ry. unfold float_key in *. rewrite mul_spec.
  unfold SF64mul.
  pose proof (pow2_pos 2098 ltac:(lia)) as Htop.
  pose proof (Prim2SF_valid x) as Vx. pose proof (Prim2SF_valid y) as Vy.
  destruct (nonneg_key_cases _ _ Vx Hx Rx) as [[sx [Ex Kx]]|[mx [ex [Ex Kx]]]],
           (nonneg_key_cases _ _ Vy Hy Ry) as [[sy [Ey Ky]]|[my [ey [Ey Ky]]]];
    rewrite Ex, Ey in *; subst kx ky.
  - exists 0. cbn [SFmul SFkey]. rewrite Z.mul_0_l.
    split; [reflexivity|]. split; [lia|apply rounds_to_zero].
  - exists 0. cbn [SFmul SFkey]. rewrite Z.mul_0_l.
    split; [reflexivity|]. split; [lia|apply rounds_to_zero].
  - exists 0. cbn [SFmul SFkey]. rewrite Z.mul_0_r.
    split; [reflexivity|]. split; [lia|apply rounds_to_zero].
  - apply SFmul_rounds; assumption.
Qed.

Lemma add_rounds (x y : float) (kx ky : Z) :
  float_key x = Some kx -> float_key y = Some ky ->
  0 <= kx < 2 ^ 2098 -> 0 <= ky < 2 ^ 2098 ->
  exists K : Z,
    float_key (x + y) = Some K /\ 0 <= K <= 2 ^ 2098 /\
    rounds_to ((kx + ky) * 2 ^ 1074) K.
Proof.
  intros Hx Hy Rx Ry. unfold float_key in *. rewrite add_spec.
  unfold SF64add.
  pose proof (pow2_pos 2098 ltac:(lia)) as Htop.
  pose proof (Prim2SF_valid x) as Vx. pose proof (Prim2SF_valid y) as Vy.
  destruct (nonneg_key_cases _ _ Vx Hx Rx) as [[sx [Ex Kx]]|[mx [ex [Ex Kx]]]],
           (nonneg_key_cases _ _ Vy Hy Ry) as [[sy [Ey Ky]]|[my [ey [Ey Ky]]]];
    rewrite Ex, Ey in *.
  - exists 0. subst kx ky. split.
    + cbn [SFadd]. destruct sx, sy; reflexivity.
    + split; [lia|apply rounds_to_zero].
  - exists ky. subst kx. split.
    + cbn [SFadd]. exact Hy.
    + split; [lia|]. rewrite Z.add_0_l. apply rounds_to_exact.
  - exists kx. subst ky. split.
    + cbn [SFadd]. exact Hx.
    + split; [lia|]. rewrite Z.add_0_r. apply rounds_to_exact.
  - subst kx ky. apply SFadd_rounds; assumption.
Qed.

Lemma float_of_int_rounds (n : Z) :
  0 <= n < 2 ^ 63 ->
  exists K : Z,
    float_key (Py.float_of_int n) = Some K /\ 0 <= K <= 2 ^ 2098 /\
    rounds_to (n * 2 ^ 2148) K.
Proof.
  intros Hn. unfold Py.float_of_int, float_key.
  destruct (Z.ltb_spec n 0) as [Hneg|_]; [lia|].
  rewrite of_uint63_spec, Uint63.of_Z_spec.
  change Uint63Axioms.wB with (2 ^ 63). rewrite Z.mod_small by exact Hn.
  pose proof (pow2_pos 2098 ltac:(lia)) as Htop.
  destruct n as [|p|p]; [| |lia]; cbn [binary_normalize].
  - exists 0. split; [reflexivity|]. split; [lia|].
    rewrite Z.mul_0_l. apply rounds_to_zero.
  - destruct (binary_round_rounds p 0 ltac:(lia)) as [K HK].
    exists K. exact HK.
Qed.

(** Reading [rounds_to] against a double. *)
Lemma rounds_to_le (exact K : Z) (b : float) (kb : Z) :
  rounds_to exact K -> float_key b = Some kb ->
  exact <= kb * 2 ^ 1074 -> K <= kb.
Proof.
  intros H Hb Hle. exact (proj1 (H _ _ (Prim2SF_valid b) Hb) Hle).
Qed.

Lemma rounds_to_ge (exact K : Z) (b : float) (kb : Z) :
  rounds_to exact K -> float_key b = Some kb ->
  kb < 2 ^ 2098 -> kb * 2 ^ 1074 <= exact -> kb <= K.
Proof.
  intros H Hb Hfin Hle. exact (proj2 (H _ _ (Prim2SF_valid b) Hb) Hfin Hle).
Qed.

(** ** [random.random()] and [random.uniform] *)

Lemma float_key_two_26 : float_key 67108864 = Some (67108864 * 2 ^ 1074).
Proof. vm_compute. reflexivity. Qed.

Lemma float_key_max_a : float_key 134217727 = Some (134217727 * 2 ^ 1074).
Proof. vm_compute. reflexivity. Qed.

Lemma float_key_max_b : float_key 67108863 = Some (67108863 * 2 ^ 1074).
Proof. vm_compute. reflexivity. Qed.

Lemma float_key_max_high :
  float_key 9007199187632128 = Some (9007199187632128 * 2 ^ 1074).
Proof. vm_compute. reflexivity. Qed.

Lemma float_key_max_sum :
  float_key 9007199254740991 = Some (9007199254740991 * 2 ^ 1074).
Proof. vm_compute. reflexivity. Qed.

Lemma float_key_scale :
  float_key (1.0 / 9007199254740992.0) = Some (2 ^ 1021).
Proof. vm_compute. reflexivity. Qed.

Lemma float_key_below_one :
  float_key 0x1.fffffffffffffp-1 = Some (9007199254740991 * 2 ^ 1021).
Proof. vm_compute. reflexivity. Qed.

Lemma float_key_0 : float_key 0 = Some 0.
Proof. vm_compute. reflexivity. Qed.

Lemma float_key_1 : float_key 1 = Some (2 ^ 1074).
Proof. vm_compute. reflexivity. Qed.

Lemma float_key_15 : float_key 15 = Some (15 * 2 ^ 1074).
Proof. vm_compute. reflexivity. Qed.

Lemma float_key_25 : float_key 25 = Some (25 * 2 ^ 1074).
Proof. vm_compute. reflexivity. Qed.

Lemma pow2_1074_split : 2 ^ 1074 = 9007199254740992 * 2 ^ 1021.
Proof. reflexivity. Qed.

Lemma pow2_2098_split : 2 ^ 2098 = 2 ^ 1024 * 2 ^ 1074.
Proof. reflexivity. Qed.

(** [random()] lies in [0, 1): its key is below the key of 1. *)
Lemma random_key (w1 w2 : Z) :
  exists k : Z, float_key (Random.random w1 w2) = Some k /\ 0 <= k < 2 ^ 1074.
Proof.
  unfold Random.random.
  set (a := Z.shiftr (w1 mod 2 ^ 32) 5). set (b := Z.shiftr (w2 mod 2 ^ 32) 6).
  assert (Ha : 0 <= a <= 134217727).
  { unfold a. rewrite Z.shiftr_div_pow2 by lia.
    pose proof (Z.mod_pos_bound w1 (2 ^ 32) ltac:(lia)) as Hw.
    change (2 ^ 32) with 4294967296 in *. change (2 ^ 5) with 32.
    split; [apply Z.div_pos; lia|].
    apply Z.lt_succ_r. apply Z.div_lt_upper_bound; lia. }
  assert (Hb : 0 <= b <= 67108863).
  { unfold b. rewrite Z.shiftr_div_pow2 by lia.
    pose proof (Z.mod_pos_bound w2 (2 ^ 32) ltac:(lia)) as Hw.
    change (2 ^ 32) with 4294967296 in *. change (2 ^ 6) with 64.
    split; [apply Z.div_pos; lia|].
    apply Z.lt_succ_r. apply Z.div_lt_upper_bound; lia. }
  clearbody a b.
  pose proof (pow2_pos 1074 ltac:(lia)) as HP.
  pose proof (pow2_pos 1021 ltac:(lia)) as HQ.
  pose proof (pow2_pos 1024 ltac:(lia)) as HT.
  assert (H1024 : 9007199254740992 < 2 ^ 1024).
  { change 9007199254740992 with (2 ^ 53). apply Z.pow_lt_mono_r; lia. }
  assert (H2148 : 2 ^ 2148 = 2 ^ 1074 * 2 ^ 1074) by reflexivity.
  (* float(a) *)
  destruct (float_of_int_rounds a) as [ka [Hka [Rka Tka]]].
  { change (2 ^ 63) with 9223372036854775808. lia. }
  pose proof (rounds_to_le _ _ _ _ Tka float_key_max_a) as Uka.
  rewrite H2148 in Uka.
  assert (Ba : ka <= 134217727 * 2 ^ 1074) by (apply Uka; nia).
  clear Uka Tka.
  (* float(b) *)
  destruct (float_of_int_rounds b) as [kb [Hkb [Rkb Tkb]]].
  { change (2 ^ 63) with 9223372036854775808. lia. }
  pose proof (rounds_to_le _ _ _ _ Tkb float_key_max_b) as Ukb.
  rewrite H2148 in Ukb.
  assert (Bb : kb <= 67108863 * 2 ^ 1074) by (apply Ukb; nia).
  clear Ukb Tkb.
  rewrite pow2_2098_split in *.
  (* a * 67108864.0 *)
  destruct (mul_rounds _ _ _ _ Hka float_key_two_26) as [k1 [Hk1 [Rk1 Tk1]]].
  { rewrite pow2_2098_split. nia. }
  { rewrite pow2_2098_split. nia. }
  pose proof (rounds_to_le _ _ _ _ Tk1 float_key_max_high) as Uk1.
  assert (B1 : k1 <= 9007199187632128 * 2 ^ 1074) by (apply Uk1; nia).
  clear Uk1 Tk1.
  (* ... + b *)
  destruct (add_rounds _ _ _ _ Hk1 Hkb) as [ks [Hks [Rks Tks]]].
  { rewrite pow2_2098_split. nia. }
  { rewrite pow2_2098_split. nia. }
  pose proof (rounds_to_le _ _ _ _ Tks float_key_max_sum) as Uks.
  assert (Bs : ks <= 9007199254740991 * 2 ^ 1074) by (apply Uks; nia).
  clear Uks Tks.
  (* ... * 2^-53 *)
  destruct (mul_rounds _ _ _ _ Hks float_key_scale) as [kr [Hkr [Rkr Tkr]]].
  { rewrite pow2_2098_split. nia. }
  { rewrite pow2_2098_split. rewrite pow2_1074_split. nia. }
  pose proof (rounds_to_le _ _ _ _ Tkr float_key_below_one) as Ukr.
  assert (Br : kr <= 9007199254740991 * 2 ^ 1021) by (apply Ukr; nia).
  exists kr. split; [exact Hkr|]. rewrite pow2_1074_split. lia.
Qed.

(** [a + (b - a) * r] stays within [a, b] for [r] in [0, 1), for integer
    bounds the doubles hold exactly. *)
Lemma uniform_between (a c : Z) (fa fc fb r : float) (k : Z) :
  0 <= a -> 0 <= c -> a + c < 2 ^ 1024 ->
  float_key fa = Some (a * 2 ^ 1074) ->
  float_key fc = Some (c * 2 ^ 1074) ->
  float_key fb = Some ((a + c) * 2 ^ 1074) ->
  float_key r = Some k -> 0 <= k < 2 ^ 1074 ->
  (fa <=? fa + fc * r)%float = true /\ (fa + fc * r <=? fb)%float = true.
Proof.
  intros Ha Hc Hac Hfa Hfc Hfb Hr Rk.
  pose proof (pow2_pos 1074 ltac:(lia)) as HP.
  pose proof (pow2_pos 1024 ltac:(lia)) as HT.
  assert (H1 : 1 < 2 ^ 1024) by (apply (Z.pow_lt_mono_r 2 0 1024); lia).
  destruct (mul_rounds _ _ _ _ Hfc Hr) as [ky [Hky [Rky Tky]]].
  { rewrite pow2_2098_split. nia. }
  { rewrite pow2_2098_split. nia. }
  pose proof (rounds_to_le _ _ _ _ Tky Hfc) as Uky.
  assert (By : ky <= c * 2 ^ 1074) by (apply Uky; nia).
  clear Uky Tky.
  destruct (add_rounds _ _ _ _ Hfa Hky) as [kx [Hkx [Rkx Tkx]]].
  { rewrite pow2_2098_split. nia. }
  { rewrite pow2_2098_split. nia. }
  pose proof (rounds_to_le _ _ _ _ Tkx Hfb) as Ukx.
  pose proof (rounds_to_ge _ _ _ _ Tkx Hfa) as Lkx.
  assert (Bhi : kx <= (a + c) * 2 ^ 1074) by (apply Ukx; nia).
  assert (Blo : a * 2 ^ 1074 <= kx).
  { apply Lkx; [rewrite pow2_2098_split|]; nia. }
  rewrite !leb_key, Hkx, Hfa, Hfb.
  split; apply Z.leb_le; assumption.
Qed.

Lemma uniform_5_15 (r : float) (k : Z) :
  float_key r = Some k -> 0 <= k < 2 ^ 1074 -> uniform_in_range 5 15 r.
Proof.
  intros Hr Rk. unfold uniform_in_range, Random.uniform.
  change (Py.float_of_int 5) with 5%float.
  change (Py.float_of_int (15 - 5)) with 10%float.
  change (Py.float_of_int 15) with 15%float.
  assert (Hb : 5 + 10 < 2 ^ 1024).
  { apply Z.lt_trans with (2 ^ 4); [reflexivity|apply Z.pow_lt_mono_r; lia]. }
  exact (uniform_between 5 10 5 10 15 r k ltac:(lia) ltac:(lia) Hb
           float_key_5 float_key_10 float_key_15 Hr Rk).
Qed.

Lemma uniform_85_110 (r : float) (k : Z) :
  float_key r = Some k -> 0 <= k < 2 ^ 1074 -> uniform_in_range 85 110 r.
Proof.
  intros Hr Rk. unfold uniform_in_range, Random.uniform.
  change (Py.float_of_int 85) with 85%float.
  change (Py.float_of_int (110 - 85)) with 25%float.
  change (Py.float_of_int 110) with 110%float.
  assert (Hb : 85 + 25 < 2 ^ 1024).
  { apply Z.lt_trans with (2 ^ 7); [reflexivity|apply Z.pow_lt_mono_r; lia]. }
  exact (uniform_between 85 25 85 25 110 r k ltac:(lia) ltac:(lia) Hb
           float_key_85 float_key_25 float_key_110 Hr Rk).
Qed.

(** The contract of [random.uniform], derived for every value of
    [random()]. *)
Lemma uniform_contract_random (d : Draws) (w1 w2 : Z) :
  uniform_contract (with_draw_speed d (Random.random w1 w2)).
Proof.
  destruct (random_key w1 w2) as [k [Hk Rk]].
  unfold uniform_contract. cbn [with_draw_speed draw_speed_anomaly draw_speed_band draw_speed].
  destruct (draw_speed_anomaly d <? 0.05)%float; [|exact I].
  destruct (draw_speed_band d <? 0.5)%float.
  - exact (uniform_5_15 _ k Hk Rk).
  - exact (uniform_85_110 _ k Hk Rk).
Qed.

(** C4: whatever branch the draws select, the speed of a generated reading
    lies between 5 and 110. On the base path the value is clamped. On an
    anomaly band the speed is [random.uniform(a, b)], that is
    [a + (b - a) * random()]: [random()] lies in [0, 1) whatever the two words
    of the generator are, and in binary64 the product and the sum then stay
    within [a, b]; rounding to two decimals keeps the bounds. *)
Theorem generated_speed_clamped
        (iso : Z -> string) (hr : Z -> Z) (d : Draws) (w1 w2 : Z) (now : Z)
        (ev : Event) :
  generate_realistic_traffic_data
    iso hr (with_draw_speed d (Random.random w1 w2)) now = Ok ev ->
  (5 <=? AverageSpeedKMH ev)%float = true /\
  (AverageSpeedKMH ev <=? 110)%float = true.
Proof.
  intros Hgen.
  destruct (generate_ok iso hr (with_draw_speed d (Random.random w1 w2)) now)
    as [loc [vc [pct [vt [incident [weather [_ [_ [_ [_ [_ Heq]]]]]]]]]]].
  rewrite Heq in Hgen. injection Hgen as <-. cbn [AverageSpeedKMH].
  apply speed_of_rounded_range. apply uniform_contract_random.
Qed.

(** A run through the high-speed anomaly band: [random()] is 0.5 on the
    words 2^31 and 0. *)
Lemma generated_speed_clamped_witness :
  (5 <=? AverageSpeedKMH anomaly_event)%float = true /\
  (AverageSpeedKMH anomaly_event <=? 110)%float = true.
Proof.
  apply (generated_speed_clamped sample_isoformat sample_hour anomaly_draws
                                  2147483648 0 1704110400000000 anomaly_event).
  vm_compute. reflexivity.
Defined.

(** C9: every generated reading has a vehicle count of at least 5 and at
    most 1.5 times the capacity of its location, and a congestion percentage
    above 0 and at most 150. *)
Theorem generated_count_bounds
        (iso : Z -> string) (hr : Z -> Z) (d : Draws) (now : Z) :
  exists ev loc,
    generate_realistic_traffic_data iso hr d now = Ok ev /\
    In loc LOCATIONS /\
    LocationID ev = loc_id loc /\ LocationName ev = loc_name loc /\
    5 <= VehicleCount ev /\
    2 * VehicleCount ev <= 3 * loc_cap loc /\
    (0 <? CongestionPercentage ev)%float = true /\
    (CongestionPercentage ev <=? 150.0)%float = true.
Proof.
  destruct (generate_ok iso hr d now)
    as [loc [vc [pct [vt [incident [weather
         [Hloc [Hvc1 [Hvc2 [Hp1 [Hp2 Heq]]]]]]]]]]].
  eexists. exists loc. split; [exact Heq|]. cbn.
  repeat (split; [first [assumption | reflexivity]|]). assumption.
Qed.

Lemma vehicle_range_nonempty (loc : Location) (rf : float) :
  In loc LOCATIONS -> In rf RUSH_FACTORS ->
  exists min_vehicles max_vehicles,
    vehicle_range (loc_cap loc) rf = Ok (min_vehicles, max_vehicles) /\
    min_vehicles <= max_vehicles.
Proof.
  intros Hloc Hrf.
  pose proof catalog_in_bounds as Hall.
  rewrite forallb_forall in Hall. specialize (Hall loc Hloc).
  unfold location_in_bounds in Hall. rewrite forallb_forall in Hall.
  specialize (Hall rf Hrf). unfold range_in_bounds in Hall.
  destruct (vehicle_range _ _) as [[lo hi]|]; [|discriminate].
  apply andb_true_iff in Hall. destruct Hall as [Hle _].
  exists lo, hi. split; [reflexivity|]. apply Z.leb_le. exact Hle.
Qed.

(** C5: for every location of the catalog and every rush factor the range
    of the vehicle draw is not empty; the generator returns a reading on every
    draw, with a count, a congestion, a rush factor and coordinates that are
    finite and within their ranges; and whatever [random()] returns inside
    [random.uniform], the speed of the reading is finite and between 5 and
    110. *)
Theorem generate_total :
  Forall (fun loc =>
            Forall (fun rf =>
                      exists min_vehicles max_vehicles,
                        vehicle_range (loc_cap loc) rf =
                        Ok (min_vehicles, max_vehicles) /\
                        min_vehicles <= max_vehicles)
                   RUSH_FACTORS)
         LOCATIONS /\
  (forall hour : Z, In (calculate_rush_hour_factor hour) RUSH_FACTORS) /\
  (forall (iso : Z -> string) (hr : Z -> Z) (d : Draws) (now : Z),
      exists ev,
        generate_realistic_traffic_data iso hr d now = Ok ev /\
        0 <= VehicleCount ev /\
        Py.finite (CongestionPercentage ev) = true /\
        (0 <? CongestionPercentage ev)%float = true /\
        In (RushFactor ev) RUSH_FACTORS /\
        Py.finite (RushFactor ev) = true /\
        Py.finite (Latitude ev) = true /\
        Py.finite (Longitude ev) = true) /\
  (forall (iso : Z -> string) (hr : Z -> Z) (d : Draws) (w1 w2 : Z) (now : Z),
      exists ev,
        generate_realistic_traffic_data
          iso hr (with_draw_speed d (Random.random w1 w2)) now = Ok ev /\
        Py.finite (AverageSpeedKMH ev) = true /\
        (5 <=? AverageSpeedKMH ev)%float = true /\
        (AverageSpeedKMH ev <=? 110)%float = true).
Proof.
  split; [|split; [exact rush_factor_cases|split]].
  - apply Forall_forall. intros loc Hloc.
    apply Forall_forall. intros rf Hrf.
    apply vehicle_range_nonempty; assumption.
  - intros iso hr d now.
    destruct (generate_ok iso hr d now)
      as [loc [vc [pct [vt [incident [weather
           [Hloc [Hvc1 [Hvc2 [Hp1 Hp2e]]]]]]]]]].
    destruct Hp2e as [Hp2 Heq].
    eexists. split; [exact Heq|]. cbn.
    pose proof (round_rush_factor _ (rush_factor_cases (hr now))) as [Hr Hf].
    pose proof locations_finite as Hfin.
    rewrite forallb_forall in Hfin. specialize (Hfin loc Hloc).
    apply andb_true_iff in Hfin. destruct Hfin as [Hlat Hlon].
    split; [lia|].
    split; [apply (finite_between 0 pct 150);
            [reflexivity|reflexivity|apply ltb_leb; exact Hp1|exact Hp2]|].
    split; [exact Hp1|].
    split; [rewrite Hr; apply rush_factor_cases|].
    split; [rewrite Hr; exact Hf|].
    split; [exact Hlat|exact Hlon].
  - intros iso hr d w1 w2 now.
    destruct (generate_ok iso hr (with_draw_speed d (Random.random w1 w2)) now)
      as [loc [vc [pct [vt [incident [weather [_ [_ [_ [_ [_ Heq]]]]]]]]]]].
    eexists. split; [exact Heq|]. cbn [AverageSpeedKMH].
    destruct (speed_of_rounded_range
                (with_draw_speed d (Random.random w1 w2))
                (calculate_rush_hour_factor (hr now))
                (uniform_contract_random d w1 w2)) as [H5 H110].
    split; [|split; assumption].
    apply (finite_between 5 _ 110); [reflexivity|reflexivity| |]; assumption.
Qed.

(** ** Top congested locations *)

Lemma string_compare_refl (s : string) : String.compare s s = Eq.
Proof.
  induction s as [|a s IH]; [reflexivity|].
  cbn. unfold Ascii.compare. rewrite N.compare_refl. exact IH.
Qed.

Lemma string_lt_trans (s1 s2 s3 : string) :
  string_lt s1 s2 -> string_lt s2 s3 -> string_lt s1 s3.
Proof.
  unfold string_lt. revert s2 s3.
  induction s1 as [|a s1 IH]; intros [|b s2] [|c s3]; cbn;
    try discriminate; try reflexivity.
  unfold Ascii.compare.
  destruct (N.compare_spec (N_of_ascii a) (N_of_ascii b)) as [Hab|Hab|Hab];
    destruct (N.compare_spec (N_of_ascii b) (N_of_ascii c)) as [Hbc|Hbc|Hbc];
    try discriminate; intros H1 H2;
    destruct (N.compare_spec (N_of_ascii a) (N_of_ascii c)) as [Hac|Hac|Hac];
    try reflexivity; try lia.
  apply IH with (1 := H1) (2 := H2).
Qed.

Lemma insert_key_In (k k0 : string) (keys : list string) :
  In k (insert_key k0 keys) <-> k = k0 \/ In k keys.
Proof.
  induction keys as [|k' rest IH]; cbn [insert_key].
  - cbn. intuition congruence.
  - destruct (String.compare k0 k') eqn:Hc.
    + apply String.compare_eq_iff in Hc. subst k'. cbn. intuition congruence.
    + cbn. intuition congruence.
    + cbn [In]. rewrite IH. intuition congruence.
Qed.

Lemma insert_key_sorted (k : string) (keys : list string) :
  StronglySorted string_lt keys ->
  StronglySorted string_lt (insert_key k keys).
Proof.
  induction keys as [|k' rest IH]; intros Hs; cbn [insert_key].
  - repeat constructor.
  - apply StronglySorted_inv in Hs. destruct Hs as [Hrest Hall].
    destruct (String.compare k k') eqn:Hc.
    + constructor; assumption.
    + constructor; [constructor; assumption|].
      constructor; [exact Hc|].
      apply Forall_impl with (2 := Hall).
      intros r Hr. apply string_lt_trans with (1 := Hc) (2 := Hr).
    + constructor; [apply IH; exact Hrest|].
      apply Forall_forall. intros r Hr. apply insert_key_In in Hr.
      destruct Hr as [->|Hr].
      * unfold string_lt. rewrite String.compare_antisym, Hc. reflexivity.
      * rewrite Forall_forall in Hall. apply Hall. exact Hr.
Qed.

Lemma group_keys_spec (df : DataFrame) :
  StronglySorted string_lt (group_keys df) /\
  (forall k, In k (group_keys df) <->
             exists e, In e df /\ LocationName e = k).
Proof.
  unfold group_keys.
  assert (H : forall acc,
             StronglySorted string_lt acc ->
             StronglySorted string_lt
               (fold_left (fun keys e => insert_key (LocationName e) keys)
                          df acc) /\
             (forall k,
                 In k (fold_left (fun keys e => insert_key (LocationName e) keys)
                                 df acc) <->
                 In k acc \/ exists e, In e df /\ LocationName e = k)).
  { induction df as [|e df IH]; intros acc Hacc; cbn [fold_left].
    - split; [exact Hacc|]. intros k. split; [tauto|].
      intros [H|[e [[] _]]]. exact H.
    - destruct (IH _ (insert_key_sorted (LocationName e) acc Hacc))
        as [Hs Hin].
      split; [exact Hs|]. intros k. rewrite Hin, insert_key_In. cbn [In].
      split.
      + intros [[->|H]|[e' [He' Hk]]]; eauto.
      + intros [H|[e' [[->|He'] Hk]]]; eauto. }
  destruct (H [] (SSorted_nil _)) as [Hs Hin].
  split; [exact Hs|]. intros k. rewrite Hin. cbn [In]. tauto.
Qed.

Lemma sorted_keys_NoDup (keys : list string) :
  StronglySorted string_lt keys -> NoDup keys.
Proof.
  induction 1 as [|k keys Hs IH Hall]; constructor; [|exact IH].
  intros Hin. rewrite Forall_forall in Hall. specialize (Hall k Hin).
  unfold string_lt in Hall. rewrite string_compare_refl in Hall.
  discriminate.
Qed.

Lemma ForallOrdPairs_Permutation {A : Type} (R : A -> A -> Prop)
      (l l' : list A) :
  (forall a b, R a b -> R b a) ->
  Permutation l l' -> ForallOrdPairs R l -> ForallOrdPairs R l'.
Proof.
  intros Hsym Hperm.
  induction Hperm as [|x l l' Hp IH|x y l|l l' l'' _ IH1 _ IH2]; intros H.
  - exact H.
  - inversion H as [|? ? Hx Hl]; subst. constructor.
    + apply (Permutation_Forall Hp). exact Hx.
    + apply IH. exact Hl.
  - inversion H as [|? ? Hy Hxl]; subst.
    inversion Hxl as [|? ? Hx Hl]; subst.
    inversion Hy as [|? ? Hyx Hyl]; subst.
    constructor; [constructor; [apply Hsym; exact Hyx|exact Hx]|].
    constructor; assumption.
  - apply IH2, IH1, H.
Qed.

Lemma StronglySorted_firstn {A : Type} (R : A -> A -> Prop)
      (n : nat) (l : list A) :
  StronglySorted R l -> StronglySorted R (firstn n l).
Proof.
  revert l. induction n as [|n IH]; intros l Hs; [constructor|].
  destruct l as [|a l]; [constructor|].
  apply StronglySorted_inv in Hs. destruct Hs as [Hl Ha].
  cbn [firstn]. constructor; [apply IH; exact Hl|].
  apply Forall_forall. intros x Hx. rewrite Forall_forall in Ha.
  apply Ha. rewrite <- (firstn_skipn n l). apply in_or_app. left. exact Hx.
Qed.

(** Without ties, descending values are strictly descending. *)
Lemma descends_strict (a b : string * float) :
  descends a b ->
  (snd a <? snd b)%float = true \/ (snd b <? snd a)%float = true ->
  (snd b <? snd a)%float = true.
Proof.
  unfold descends, is_nan.
  rewrite (eqb_key (snd b) (snd b)), (leb_key (snd b) (snd a)),
    (ltb_key (snd a) (snd b)), (ltb_key (snd b) (snd a)).
  destruct (float_key (snd a)) as [x|], (float_key (snd b)) as [y|];
    cbn [negb]; rewrite ?Z.eqb_refl, ?Z.leb_le, ?Z.ltb_lt;
    intros [H|H] [H'|H']; try discriminate; lia.
Qed.

Lemma sorted_no_ties_spec_order (rows : list (string * float)) :
  StronglySorted descends rows ->
  ForallOrdPairs
    (fun a b => (snd a <? snd b)%float = true \/ (snd b <? snd a)%float = true)
    rows ->
  StronglySorted spec_order rows.
Proof.
  induction 1 as [|a rows Hs IH Ha]; intros Hties; [constructor|].
  inversion Hties as [|? ? Hta Htl]; subst.
  constructor; [apply IH; exact Htl|].
  rewrite Forall_forall in *. intros b Hb.
  left. apply descends_strict; [apply Ha|apply Hta]; exact Hb.
Qed.

Lemma group_means_keys (Series_mean : list float -> float) (df : DataFrame) :
  map fst (group_means Series_mean df) = group_keys df.
Proof.
  unfold group_means. rewrite map_map. cbn [fst]. apply map_id.
Qed.

Lemma NoDup_firstn {A : Type} (n : nat) (l : list A) :
  NoDup l -> NoDup (firstn n l).
Proof.
  intros H. rewrite <- (firstn_skipn n l) in H.
  apply NoDup_app_remove_r in H. exact H.
Qed.

Lemma StronglySorted_firstn_skipn {A : Type} (R : A -> A -> Prop)
      (n : nat) (l : list A) :
  StronglySorted R l ->
  forall a b, In a (firstn n l) -> In b (skipn n l) -> R a b.
Proof.
  intros Hs. revert n. induction Hs as [|x l Hs IH Hx]; intros n a b Ha Hb.
  - rewrite firstn_nil in Ha. destruct Ha.
  - destruct n as [|n]; [destruct Ha|].
    cbn [firstn skipn In] in Ha, Hb. destruct Ha as [<-|Ha].
    + rewrite Forall_forall in Hx. apply Hx.
      rewrite <- (firstn_skipn n l). apply in_or_app. right. exact Hb.
    + apply (IH n); assumption.
Qed.

(** C6, as the code has it: the table groups the readings by location name
    (one row per name), gives each group the mean of its congestion values,
    orders all the rows by descending mean and keeps the first 10 of that
    order, so that no row left out ranks above a row shown; the order of
    rows with equal means is not fixed by the code, and when no two means are
    equal the table is the one the ascending-name tie-break describes. *)
Theorem toploc_sorted_by_mean
        (Series_mean : list float -> float)
        (filtered : DataFrame) (shown : list (string * float)) :
  toploc_head Series_mean filtered shown ->
  (List.length shown <= 10)%nat /\
  StronglySorted descends shown /\
  NoDup (map fst shown) /\
  (forall name m,
      In (name, m) shown ->
      (exists e, In e filtered /\ LocationName e = name) /\
      m = Series_mean (group_congestion filtered name)) /\
  (exists toploc,
      Permutation (group_means Series_mean filtered) toploc /\
      StronglySorted descends toploc /\
      shown = firstn 10 toploc /\
      (forall a b, In a shown -> In b (skipn 10 toploc) -> descends a b)) /\
  (no_ties (group_means Series_mean filtered) ->
   topCongestedLocations_spec Series_mean filtered 10 shown).
Proof.
  intros [toploc [[Hperm Hsorted] ->]].
  destruct (group_keys_spec filtered) as [Hkeys Hin].
  split; [apply firstn_le_length|].
  split; [apply StronglySorted_firstn; exact Hsorted|].
  split.
  { rewrite <- firstn_map. apply NoDup_firstn.
    apply Permutation_NoDup with (l := map fst (group_means Series_mean filtered)).
    - apply Permutation_map. exact Hperm.
    - rewrite group_means_keys. apply sorted_keys_NoDup. exact Hkeys. }
  split.
  { intros name m Hshown.
    assert (Htop : In (name, m) toploc).
    { rewrite <- (firstn_skipn 10 toploc). apply in_or_app. left. exact Hshown. }
    apply (Permutation_in _ (Permutation_sym Hperm)) in Htop.
    unfold group_means in Htop. apply in_map_iff in Htop.
    destruct Htop as [k [Hk Hkin]]. injection Hk as <- <-.
    split; [apply Hin; exact Hkin|reflexivity]. }
  split.
  { exists toploc. split; [exact Hperm|]. split; [exact Hsorted|].
    split; [reflexivity|].
    apply StronglySorted_firstn_skipn. exact Hsorted. }
  intros Hties. exists toploc. split; [exact Hperm|].
  split; [|reflexivity].
  apply sorted_no_ties_spec_order; [exact Hsorted|].
  apply ForallOrdPairs_Permutation with (3 := Hties); [|exact Hperm].
  intros a b [H|H]; [right|left]; exact H.
Qed.

(** Two locations with means 80 and 60: the table lists them in that order,
    as the tie-break rule describes. *)
Lemma toploc_sorted_by_mean_witness :
  (List.length [("Maadi Corniche", 80%float); ("Tahrir Square", 60%float)]
   <= 10)%nat /\
  topCongestedLocations_spec sample_mean rank_readings 10
    [("Maadi Corniche", 80%float); ("Tahrir Square", 60%float)].
Proof.
  assert (Hshown : toploc_head sample_mean rank_readings
            [("Maadi Corniche", 80%float); ("Tahrir Square", 60%float)]).
  { exists [("Maadi Corniche", 80%float); ("Tahrir Square", 60%float)].
    split; [|reflexivity]. split.
    - vm_compute. apply Permutation_refl.
    - apply SSorted_cons;
        [apply SSorted_cons; [apply SSorted_nil|apply Forall_nil]|].
      apply Forall_cons; [right; reflexivity|apply Forall_nil]. }
  destruct (toploc_sorted_by_mean sample_mean rank_readings _ Hshown)
    as [Hlen [_ [_ [_ [_ Hspec]]]]].
  split; [exact Hlen|]. apply Hspec.
  vm_compute.
  apply FOP_cons; [|apply FOP_cons; [apply Forall_nil|apply FOP_nil]].
  apply Forall_cons; [right; reflexivity|apply Forall_nil].
Defined.

(** With two locations of equal mean, the code admits the table that lists
    them in descending name order, which the ascending-name tie-break
    excludes. *)
Lemma toploc_tie_order_not_fixed :
  exists shown,
    toploc_head sample_mean tie_readings shown /\
    ~ topCongestedLocations_spec sample_mean tie_readings 10 shown.
Proof.
  exists [("Tahrir Square", 50%float); ("Maadi Corniche", 50%float)].
  split.
  - exists [("Tahrir Square", 50%float); ("Maadi Corniche", 50%float)].
    split; [|reflexivity]. split.
    + vm_compute. apply perm_swap.
    + apply SSorted_cons;
        [apply SSorted_cons; [apply SSorted_nil|apply Forall_nil]|].
      apply Forall_cons; [right; reflexivity|apply Forall_nil].
  - intros [sorted [Hperm [Hsorted Heq]]].
    assert (Hlen : List.length sorted = 2%nat).
    { rewrite <- (Permutation_length Hperm). reflexivity. }
    rewrite firstn_all2 in Heq by lia. subst sorted.
    apply StronglySorted_inv in Hsorted. destruct Hsorted as [_ Hall].
    inversion Hall as [|? ? Hord _]; subst.
    destruct Hord as [Hlt|[_ Hname]]; vm_compute in *; discriminate.
Qed.

(** * Further properties *)

(** ** Rush hours *)

Ltac float_neq :=
  let H := fresh in
  intros H; apply (f_equal Prim2SF) in H; vm_compute in H; discriminate H.

Lemma rush_factor_by_hour (hour : Z) :
  (calculate_rush_hour_factor hour = 1.5%float <-> 7 <= hour <= 10) /\
  (calculate_rush_hour_factor hour = 1.4%float <-> 18 <= hour <= 21) /\
  (calculate_rush_hour_factor hour = 0.4%float <-> hour <= 6 \/ 22 <= hour) /\
  (calculate_rush_hour_factor hour = 1.0%float <-> 11 <= hour <= 17) /\
  ((1.0 <? calculate_rush_hour_factor hour)%float = true <->
   7 <= hour <= 10 \/ 18 <= hour <= 21).
Proof.
  unfold calculate_rush_hour_factor.
  destruct (Z.leb_spec 7 hour), (Z.leb_spec hour 10), (Z.leb_spec 18 hour),
    (Z.leb_spec hour 21), (Z.leb_spec hour 6), (Z.leb_spec 22 hour);
    cbn [andb orb]; try lia;
    repeat split; intros; try lia; try reflexivity;
    try match goal with
        | E : @eq float _ _ |- _ => exfalso; revert E; float_neq
        | E : @eq bool _ _ |- _ => vm_compute in E; discriminate E
        end.
Qed.

(** X1: the rush factor by hour: 1.5 from 7 to 10, 1.4 from 18 to 21, 0.4
    up to 6 and from 22, 1.0 from 11 to 17; it exceeds 1.0 exactly in the two
    rush windows. *)
Theorem rush_hour_windows (hour : Z) :
  (calculate_rush_hour_factor hour = 1.5%float <-> 7 <= hour <= 10) /\
  (calculate_rush_hour_factor hour = 1.4%float <-> 18 <= hour <= 21) /\
  (calculate_rush_hour_factor hour = 0.4%float <-> hour <= 6 \/ 22 <= hour) /\
  (calculate_rush_hour_factor hour = 1.0%float <-> 11 <= hour <= 17) /\
  ((1.0 <? calculate_rush_hour_factor hour)%float = true <->
   7 <= hour <= 10 \/ 18 <= hour <= 21).
Proof. exact (rush_factor_by_hour hour). Qed.

(** ** Fields of a generated reading *)

Lemma location_within_capacity_all :
  forallb location_within_capacity LOCATIONS = true.
Proof. vm_compute. reflexivity. Qed.

Lemma vehicle_range_bounds (cap : Z) (rf : float) (lo hi : Z) :
  vehicle_range cap rf = Ok (lo, hi) -> 5 <= lo /\ hi <= cap.
Proof.
  unfold vehicle_range.
  destruct (py_int _) as [a|]; [|discriminate]. cbn [bind].
  destruct (py_int _) as [b|]; [|discriminate]. cbn [bind].
  intros H. injection H as <- <-. lia.
Qed.

(** Every stage of a run, with what it returned. *)
Lemma generate_fields (iso : Z -> string) (hr : Z -> Z) (d : Draws) (now : Z) :
  exists loc lo hi drawn vc pct vt incident weather,
    In loc LOCATIONS /\
    vehicle_range (loc_cap loc) (calculate_rush_hour_factor (hr now)) =
      Ok (lo, hi) /\
    lo <= drawn <= hi /\
    spike (loc_cap loc) drawn (draw_spike d <? 0.05)%float = Ok vc /\
    congestion_of (loc_cap loc) vc = Ok pct /\
    In vt VEHICLE_TYPES /\
    In weather WEATHER_CONDITIONS /\
    In incident TRAFFIC_INCIDENTS /\
    ((draw_incident d <? 0.1)%float = false -> incident = "None") /\
    generate_realistic_traffic_data iso hr d now =
    Ok {| Timestamp := iso now;
          ts := now;
          LocationID := loc_id loc;
          LocationName := loc_name loc;
          Latitude := loc_lat loc;
          Longitude := loc_lon loc;
          VehicleCount := vc;
          AverageSpeedKMH :=
            Py.to_float
              (Py.round (speed_of d (calculate_rush_hour_factor (hr now))) 2);
          DominantVehicleType := vt;
          WeatherCondition := weather;
          TrafficIncident := incident;
          CongestionPercentage := pct;
          IsRushHour := (1.0 <? calculate_rush_hour_factor (hr now))%float;
          RushFactor :=
            Py.round_float (calculate_rush_hour_factor (hr now)) 2 |}.
Proof.
  rewrite generate_stages.
  destruct (choice_nonempty LOCATIONS (draw_location d) ltac:(discriminate))
    as [loc [-> Hloc]].
  cbn [bind].
  pose proof catalog_in_bounds as Hall.
  rewrite forallb_forall in Hall. specialize (Hall loc Hloc).
  unfold location_in_bounds in Hall. rewrite forallb_forall in Hall.
  specialize (Hall _ (rush_factor_cases (hr now))).
  unfold range_in_bounds in Hall.
  destruct (vehicle_range _ _) as [[lo hi]|] eqn:Hrange; [|discriminate].
  apply andb_true_iff in Hall. destruct Hall as [Hle Hall].
  apply Z.leb_le in Hle. rewrite forallb_forall in Hall.
  cbn [bind fst snd].
  destruct (randint_in_range lo hi (draw_vehicles d) Hle) as [drawn [-> Hd]].
  cbn [bind].
  specialize (Hall drawn (In_Zrange lo hi drawn Hd)).
  apply andb_true_iff in Hall. destruct Hall as [Ht Hf].
  assert (Hc : count_in_bounds (loc_cap loc) drawn
                               (draw_spike d <? 0.05)%float = true)
    by (destruct (draw_spike d <? 0.05)%float; assumption).
  unfold count_in_bounds in Hc.
  destruct (spike _ _ _) as [vc|] eqn:Hspike; [|discriminate].
  cbn [bind].
  destruct (congestion_of _ _) as [pct|] eqn:Hpct;
    [|rewrite andb_false_r in Hc; discriminate].
  destruct (choice_nonempty VEHICLE_TYPES (draw_vehicle_type d)
              ltac:(discriminate)) as [vt [-> Hvt]].
  destruct (choice_nonempty WEATHER_CONDITIONS (draw_weather d)
              ltac:(discriminate)) as [weather [-> Hw]].
  assert (Hinc : exists incident,
             (if (draw_incident d <? 0.1)%float
              then Random.choice TRAFFIC_INCIDENTS (draw_incident_choice d)
              else Ok "None") = Ok incident /\
             In incident TRAFFIC_INCIDENTS /\
             ((draw_incident d <? 0.1)%float = false -> incident = "None")).
  { destruct (draw_incident d <? 0.1)%float.
    - destruct (choice_nonempty TRAFFIC_INCIDENTS (draw_incident_choice d)
                  ltac:(discriminate)) as [i [-> Hi]].
      exists i. split; [reflexivity|]. split; [exact Hi|discriminate].
    - exists "None". split; [reflexivity|]. split; [left|]; reflexivity. }
  destruct Hinc as [incident [-> [Hinc Hnone]]].
  cbn [bind].
  exists loc, lo, hi, drawn, vc, pct, vt, incident, weather.
  repeat (split; [assumption|]). reflexivity.
Qed.

(** X2: a generated reading carries the instant it was asked for, its
    rendering, and the rush factor of the local hour unchanged by the
    rounding to two decimals; it is flagged as rush hour exactly when the
    local hour is from 7 to 10 or from 18 to 21. *)
Theorem generated_rush_fields
        (iso : Z -> string) (hr : Z -> Z) (d : Draws) (now : Z) :
  exists ev,
    generate_realistic_traffic_data iso hr d now = Ok ev /\
    ts ev = now /\
    Timestamp ev = iso now /\
    RushFactor ev = calculate_rush_hour_factor (hr now) /\
    (IsRushHour ev = true <-> 7 <= hr now <= 10 \/ 18 <= hr now <= 21).
Proof.
  destruct (generate_fields iso hr d now)
    as [loc [lo [hi [drawn [vc [pct [vt [incident [weather H]]]]]]]]].
  destruct H as [_ [_ [_ [_ [_ [_ [_ [_ [_ Heq]]]]]]]]].
  eexists. split; [exact Heq|]. cbn.
  split; [reflexivity|]. split; [reflexivity|].
  split; [apply round_rush_factor, rush_factor_cases|].
  apply rush_factor_by_hour.
Qed.

(** X3: the identity fields of a generated reading are those of one
    location of the catalog, and its vehicle type, weather and incident are
    members of their lists; the incident is "None" unless the incident draw is
    below 0.1. *)
Theorem generated_reading_fields
        (iso : Z -> string) (hr : Z -> Z) (d : Draws) (now : Z) :
  exists ev loc,
    generate_realistic_traffic_data iso hr d now = Ok ev /\
    In loc LOCATIONS /\
    LocationID ev = loc_id loc /\
    LocationName ev = loc_name loc /\
    Latitude ev = loc_lat loc /\
    Longitude ev = loc_lon loc /\
    In (DominantVehicleType ev) VEHICLE_TYPES /\
    In (WeatherCondition ev) WEATHER_CONDITIONS /\
    In (TrafficIncident ev) TRAFFIC_INCIDENTS /\
    ((draw_incident d <? 0.1)%float = false -> TrafficIncident ev = "None").
Proof.
  destruct (generate_fields iso hr d now)
    as [loc [lo [hi [drawn [vc [pct [vt [incident [weather H]]]]]]]]].
  destruct H as [Hloc [_ [_ [_ [_ [Hvt [Hw [Hi [Hnone Heq]]]]]]]]].
  eexists. exists loc. split; [exact Heq|]. cbn.
  repeat (split; [first [assumption | reflexivity]|]). assumption.
Qed.

(** X4: the congestion percentage of a generated reading is
    round(VehicleCount / cap * 100, 2) for the capacity of its location and
    its final vehicle count (the one after the spike); the division never
    fails. *)
Theorem generated_congestion_derived
        (iso : Z -> string) (hr : Z -> Z) (d : Draws) (now : Z) :
  exists ev loc,
    generate_realistic_traffic_data iso hr d now = Ok ev /\
    In loc LOCATIONS /\
    LocationID ev = loc_id loc /\
    0 < loc_cap loc /\
    CongestionPercentage ev =
    Py.round_float
      ((Py.float_of_int (VehicleCount ev) / Py.float_of_int (loc_cap loc))
       * Py.float_of_int 100)%float 2.
Proof.
  destruct (generate_fields iso hr d now)
    as [loc [lo [hi [drawn [vc [pct [vt [incident [weather H]]]]]]]]].
  destruct H as [Hloc [Hr [Hd [_ [Hpct [_ [_ [_ [_ Heq]]]]]]]]].
  eexists. exists loc. split; [exact Heq|]. cbn.
  split; [exact Hloc|]. split; [reflexivity|].
  apply vehicle_range_bounds in Hr.
  assert (Hcap : 0 < loc_cap loc) by lia.
  split; [exact Hcap|].
  unfold congestion_of, py_truediv in Hpct.
  destruct (Z.eqb_spec (loc_cap loc) 0); [lia|].
  cbn [bind] in Hpct. injection Hpct as <-. reflexivity.
Qed.

Lemma float_key_100 : float_key 100 = Some (100 * 2 ^ 1074).
Proof. vm_compute. reflexivity. Qed.

Lemma float_key_120 : float_key 120 = Some (120 * 2 ^ 1074).
Proof. vm_compute. reflexivity. Qed.

Lemma at_most_100_not_over_120 (c : float) :
  (c <=? 100)%float = true -> (120 <? c)%float = false.
Proof.
  rewrite (leb_key c 100), (ltb_key 120 c), float_key_100, float_key_120.
  pose proof (pow2_pos 1074 ltac:(lia)).
  destruct (float_key c) as [k|]; [|discriminate].
  rewrite Z.leb_le, Z.ltb_ge. lia.
Qed.

Lemma over_capacity_label (e : Event) :
  In "Over capacity" (detect_anomaly e) ->
  (120 <? CongestionPercentage e)%float = true.
Proof.
  rewrite detect_anomaly_by_rule.
  destruct (AverageSpeedKMH e <? 10)%float,
           (100 <? AverageSpeedKMH e)%float,
           (120 <? CongestionPercentage e)%float,
           (85 <? CongestionPercentage e)%float,
           (String.eqb (TrafficIncident e) "None");
    label_cases.
Qed.

(** X5: when the spike is not drawn, the vehicle count of the generated
    reading is within the capacity of its location, its congestion is at most
    100, and the detector does not report Over capacity. *)
Theorem no_spike_within_capacity
        (iso : Z -> string) (hr : Z -> Z) (d : Draws) (now : Z) :
  (draw_spike d <? 0.05)%float = false ->
  exists ev loc,
    generate_realistic_traffic_data iso hr d now = Ok ev /\
    In loc LOCATIONS /\
    LocationID ev = loc_id loc /\
    VehicleCount ev <= loc_cap loc /\
    (CongestionPercentage ev <=? 100)%float = true /\
    ~ In "Over capacity" (detect_anomaly ev).
Proof.
  intros Hno.
  destruct (generate_fields iso hr d now)
    as [loc [lo [hi [drawn [vc [pct [vt [incident [weather H]]]]]]]]].
  destruct H as [Hloc [Hr [Hd [Hs [Hpct [_ [_ [_ [_ Heq]]]]]]]]].
  rewrite Hno in Hs. cbn [spike] in Hs. injection Hs as <-.
  apply vehicle_range_bounds in Hr.
  pose proof location_within_capacity_all as Hall.
  rewrite forallb_forall in Hall. specialize (Hall loc Hloc).
  unfold location_within_capacity in Hall. rewrite forallb_forall in Hall.
  specialize (Hall drawn (In_Zrange 5 (loc_cap loc) drawn ltac:(lia))).
  unfold within_capacity_ok in Hall. rewrite Hpct in Hall.
  eexists. exists loc. split; [exact Heq|]. cbn [LocationID VehicleCount
    CongestionPercentage].
  split; [exact Hloc|]. split; [reflexivity|]. split; [lia|].
  split; [exact Hall|].
  intros Hin. apply over_capacity_label in Hin. cbn in Hin.
  rewrite (at_most_100_not_over_120 pct Hall) in Hin. discriminate.
Qed.

(** A run that draws no spike. *)
Lemma no_spike_within_capacity_witness :
  exists ev loc,
    generate_realistic_traffic_data sample_isoformat sample_hour sample_draws
                                    1704110400000000 = Ok ev /\
    In loc LOCATIONS /\
    LocationID ev = loc_id loc /\
    VehicleCount ev <= loc_cap loc /\
    (CongestionPercentage ev <=? 100)%float = true /\
    ~ In "Over capacity" (detect_anomaly ev).
Proof.
  apply (no_spike_within_capacity sample_isoformat sample_hour sample_draws).
  vm_compute. reflexivity.
Defined.

(** ** More on the detector *)

Lemma low_speed_not_high (x : float) :
  (x <? 10)%float = true -> (100 <? x)%float = false.
Proof.
  rewrite (ltb_key x 10), (ltb_key 100 x), float_key_10, float_key_100.
  pose proof (pow2_pos 1074 ltac:(lia)).
  destruct (float_key x) as [k|]; [|discriminate].
  rewrite Z.ltb_lt, Z.ltb_ge. lia.
Qed.

Lemma not_over_85_not_over_120 (c : float) :
  (85 <? c)%float = false -> (120 <? c)%float = false.
Proof.
  rewrite (ltb_key 85 c), (ltb_key 120 c), float_key_85, float_key_120.
  pose proof (pow2_pos 1074 ltac:(lia)).
  destruct (float_key c) as [k|]; [|reflexivity].
  rewrite !Z.ltb_ge. lia.
Qed.

(** X6: the detector never reports a speed as both low and high, so it
    returns at most three labels (one for the speed, one for the congestion,
    one for the incident), and never the same label twice. *)
Theorem detect_anomaly_at_most_three (e : Event) :
  ~ (In "Low speed" (detect_anomaly e) /\ In "High speed" (detect_anomaly e)) /\
  (List.length (detect_anomaly e) <= 3)%nat /\
  NoDup (detect_anomaly e).
Proof.
  rewrite detect_anomaly_by_rule.
  destruct (AverageSpeedKMH e <? 10)%float eqn:Hlow.
  - rewrite (low_speed_not_high _ Hlow).
    destruct (120 <? CongestionPercentage e)%float,
             (85 <? CongestionPercentage e)%float,
             (String.eqb (TrafficIncident e) "None");
      cbn [rule app negb List.length String.append];
      (split; [solve [label_cases]|split; [lia|]]);
      repeat constructor; cbn [In]; intuition discriminate.
  - destruct (100 <? AverageSpeedKMH e)%float,
             (120 <? CongestionPercentage e)%float,
             (85 <? CongestionPercentage e)%float,
             (String.eqb (TrafficIncident e) "None");
      cbn [rule app negb List.length String.append];
      (split; [solve [label_cases]|split; [lia|]]);
      repeat constructor; cbn [In]; intuition discriminate.
Qed.

(** X7: the detector returns no label exactly when the speed is neither
    below 10 nor above 100, the congestion is not above 85 and the incident is
    "None". *)
Theorem detect_anomaly_quiet (e : Event) :
  detect_anomaly e = [] <->
  (AverageSpeedKMH e <? 10)%float = false /\
  (100 <? AverageSpeedKMH e)%float = false /\
  (85 <? CongestionPercentage e)%float = false /\
  TrafficIncident e = "None".
Proof.
  rewrite detect_anomaly_by_rule. split.
  - destruct (AverageSpeedKMH e <? 10)%float,
             (100 <? AverageSpeedKMH e)%float,
             (120 <? CongestionPercentage e)%float,
             (85 <? CongestionPercentage e)%float;
      destruct (String.eqb_spec (TrafficIncident e) "None");
      cbn [rule app negb]; try discriminate; intros _; tauto.
  - intros [-> [-> [Hc ->]]].
    rewrite (not_over_85_not_over_120 _ Hc), Hc. reflexivity.
Qed.

(** ** More on the store *)

(** X8: an append keeps the new reading as the last row and drops rows only
    from the head: the store becomes the old rows without their first
    [len + 1 - MAX_EVENTS_KEEP] ones (none below the capacity, one at the
    capacity), followed by the new reading. *)
Theorem append_event_drops_oldest (e : Event) (df : DataFrame) :
  append_event e df =
    skipn (S (List.length df) - MAX_EVENTS_KEEP) df ++ [e] /\
  df ++ [e] =
    firstn (S (List.length df) - MAX_EVENTS_KEEP) df ++ append_event e df.
Proof.
  assert (H : append_event e df =
              skipn (S (List.length df) - MAX_EVENTS_KEEP) df ++ [e]).
  { rewrite append_event_rows, length_app. cbn [List.length].
    replace (List.length df + 1)%nat with (S (List.length df)) by lia.
    rewrite skipn_app.
    replace (S (List.length df) - MAX_EVENTS_KEEP - List.length df)%nat
      with 0%nat by (unfold MAX_EVENTS_KEEP; lia).
    reflexivity. }
  split; [exact H|].
  rewrite H, app_assoc, firstn_skipn. reflexivity.
Qed.

(** ** Script runs *)

(** X9: Stop wins over Start and over a running session: a run with Stop
    pressed generates nothing; Event Hub mode generates nothing either; Reset
    with Start in simulator mode leaves the new reading as the only row of the
    store, and at most its alert in the log. *)
Theorem script_run_controls :
  (forall (m : string) (start reset : bool) (ev : Event) (s : Session),
      script_run (mkSidebar m start true reset) ev s =
      mkSession (if reset then [] else session_df s) false
                (if reset then [] else session_alerts s)) /\
  (forall (start stop reset : bool) (ev : Event) (s : Session),
      session_df (script_run (mkSidebar EVENT_HUB start stop reset) ev s) =
        (if reset then [] else session_df s) /\
      session_alerts (script_run (mkSidebar EVENT_HUB start stop reset) ev s) =
        (if reset then [] else session_alerts s)) /\
  (forall (ev : Event) (s : Session),
      session_df (script_run (mkSidebar LOCAL_SIMULATOR true false true) ev s)
        = [ev] /\
      session_running
        (script_run (mkSidebar LOCAL_SIMULATOR true false true) ev s) = true /\
      (List.length
         (session_alerts
            (script_run (mkSidebar LOCAL_SIMULATOR true false true) ev s))
       <= 1)%nat).
Proof.
  split; [|split].
  - intros m start reset ev s. unfold script_run, control_actions.
    cbn [reset_data run_sim stop_sim mode session_running].
    rewrite andb_false_r. destruct reset, start, s; reflexivity.
  - intros start stop reset ev s. unfold script_run, control_actions.
    cbn [reset_data run_sim stop_sim mode]. cbn [EVENT_HUB String.eqb].
    change (String.eqb EVENT_HUB "Local Simulator (built-in)") with false.
    cbn [andb]. destruct reset, start, stop; split; reflexivity.
  - intros ev s. unfold script_run, control_actions.
    cbn [reset_data run_sim stop_sim mode session_running session_df
         session_alerts].
    change (String.eqb LOCAL_SIMULATOR "Local Simulator (built-in)") with true.
    cbn [andb]. rewrite tick_alerts. cbn [tick session_df session_running].
    split; [reflexivity|]. split; [reflexivity|].
    cbn [session_alerts app].
    destruct (detect_anomaly ev); cbn [List.length]; lia.
Qed.

(** Subsequences. *)
Lemma Subsequence_nil_l {A : Type} (l : list A) : Subsequence [] l.
Proof. induction l; constructor; assumption. Qed.

Lemma Subsequence_refl {A : Type} (l : list A) : Subsequence l l.
Proof. induction l; constructor; assumption. Qed.

Lemma Subsequence_trans {A : Type} (l1 l2 l3 : list A) :
  Subsequence l1 l2 -> Subsequence l2 l3 -> Subsequence l1 l3.
Proof.
  intros H12 H23. revert l1 H12.
  induction H23 as [|x l2 l3 H23 IH|x l2 l3 H23 IH]; intros l1 H12.
  - exact H12.
  - inversion H12 as [|y k1 k2 Hk|y k1 k2 Hk]; subst.
    + apply sub_keep, IH, Hk.
    + apply sub_drop, IH, Hk.
  - apply sub_drop, IH, H12.
Qed.

Lemma Subsequence_app {A : Type} (l1 l2 k1 k2 : list A) :
  Subsequence l1 l2 -> Subsequence k1 k2 -> Subsequence (l1 ++ k1) (l2 ++ k2).
Proof.
  intros Hl Hk. induction Hl; cbn [app]; try constructor; assumption.
Qed.

Lemma Subsequence_skipn {A : Type} (n : nat) (l : list A) :
  Subsequence (skipn n l) l.
Proof.
  revert l. induction n as [|n IH]; intros l; [apply Subsequence_refl|].
  destruct l as [|x l]; [constructor|]. cbn [skipn]. apply sub_drop, IH.
Qed.

Lemma Subsequence_grow {A : Type} (l1 l2 : list A) (x : A) :
  Subsequence l1 l2 -> Subsequence l1 (l2 ++ [x]).
Proof.
  intros H. rewrite <- (app_nil_r l1).
  apply Subsequence_app; [exact H|apply Subsequence_nil_l].
Qed.

Lemma script_run_rows (ui : Sidebar) (ev : Event) (s : Session)
      (prior : list Event) :
  Subsequence (session_df s) prior ->
  Subsequence (map alert_raw (session_alerts s)) prior ->
  Subsequence (session_df (script_run ui ev s)) (prior ++ [ev]) /\
  Subsequence (map alert_raw (session_alerts (script_run ui ev s)))
              (prior ++ [ev]).
Proof.
  intros Hdf Hal. unfold script_run.
  assert (Hc : Subsequence (session_df (control_actions ui s)) prior /\
               Subsequence (map alert_raw
                              (session_alerts (control_actions ui s))) prior).
  { unfold control_actions.
    destruct (reset_data ui), (run_sim ui), (stop_sim ui); cbn;
      split; first [assumption | apply Subsequence_nil_l]. }
  destruct Hc as [Hcd Hca].
  destruct (_ && _).
  - split.
    + cbn [tick session_df]. rewrite append_event_rows.
      apply Subsequence_trans with (l2 := session_df (control_actions ui s) ++ [ev]).
      * apply Subsequence_skipn.
      * apply Subsequence_app; [exact Hcd|apply Subsequence_refl].
    + rewrite tick_alerts, map_app.
      destruct (detect_anomaly ev).
      * cbn [map]. rewrite app_nil_r. apply Subsequence_grow. exact Hca.
      * cbn [map alert_raw].
        apply Subsequence_app; [exact Hca|apply Subsequence_refl].
  - split; apply Subsequence_grow; assumption.
Qed.

(** X11: in every session the script can reach, the rows of the store are
    readings the generator returned, in the order it returned them, and so
    are the readings attached to the alerts: nothing is invented, duplicated
    or reordered. *)
Theorem session_rows_from_generator (runs : list (Sidebar * Event)) :
  Subsequence (session_df (run_all runs initial_session)) (map snd runs) /\
  Subsequence (map alert_raw (session_alerts (run_all runs initial_session)))
              (map snd runs).
Proof.
  assert (H : forall (s : Session) (prior : list Event),
             Subsequence (session_df s) prior ->
             Subsequence (map alert_raw (session_alerts s)) prior ->
             Subsequence (session_df (run_all runs s))
                         (prior ++ map snd runs) /\
             Subsequence (map alert_raw (session_alerts (run_all runs s)))
                         (prior ++ map snd runs)).
  { induction runs as [|[ui ev] runs IH]; intros s prior Hdf Hal.
    - cbn. rewrite app_nil_r. split; assumption.
    - cbn [run_all fold_left map fst snd].
      destruct (script_run_rows ui ev s prior Hdf Hal) as [H1 H2].
      specialize (IH (script_run ui ev s) (prior ++ [ev]) H1 H2).
      rewrite <- app_assoc in IH. exact IH. }
  apply (H initial_session []); constructor.
Qed.

Lemma script_run_alerts_grow (ui : Sidebar) (ev : Event) (s : Session) :
  reset_data ui = false ->
  exists added,
    session_alerts (script_run ui ev s) = session_alerts s ++ added /\
    (List.length added <= 1)%nat.
Proof.
  intros Hr. unfold script_run.
  assert (Hc : session_alerts (control_actions ui s) = session_alerts s).
  { unfold control_actions. rewrite Hr.
    destruct (run_sim ui), (stop_sim ui); reflexivity. }
  destruct (_ && _).
  - rewrite tick_alerts, Hc. eexists. split; [reflexivity|].
    destruct (detect_anomaly ev); cbn [List.length]; lia.
  - exists []. rewrite Hc, app_nil_r. split; [reflexivity|cbn; lia].
Qed.

(** X10: as long as Reset is not pressed, the alert log only grows: after any
    number of runs the earlier log is a prefix of the later one, with at most
    one new record per run. *)
Theorem alert_log_only_grows (runs : list (Sidebar * Event)) (s : Session) :
  Forall (fun r => reset_data (fst r) = false) runs ->
  exists added,
    session_alerts (run_all runs s) = session_alerts s ++ added /\
    (List.length added <= List.length runs)%nat.
Proof.
  revert s. induction runs as [|[ui ev] runs IH]; intros s Hall.
  - exists []. cbn. rewrite app_nil_r. split; [reflexivity|lia].
  - inversion Hall as [|? ? Hr Hrest]; subst. cbn [fst] in Hr.
    cbn [run_all fold_left fst snd].
    destruct (script_run_alerts_grow ui ev s Hr) as [a1 [H1 L1]].
    destruct (IH (script_run ui ev s) Hrest) as [a2 [H2 L2]].
    exists (a1 ++ a2). unfold run_all in H2. rewrite H2, H1, app_assoc.
    split; [reflexivity|]. rewrite length_app. cbn [List.length]. lia.
Qed.

(** Two runs, the first with an anomalous reading. *)
Lemma alert_log_only_grows_witness :
  exists added,
    session_alerts
      (run_all [(start_pressed, anomaly_event); (start_pressed, sample_event 0)]
               initial_session) = session_alerts initial_session ++ added /\
    (List.length added <= 2)%nat.
Proof.
  apply (alert_log_only_grows
           [(start_pressed, anomaly_event); (start_pressed, sample_event 0)]
           initial_session).
  repeat constructor.
Defined.

Lemma alerting_tick_step (ui : Sidebar) (ev : Event) (s : Session) :
  String.eqb (mode ui) "Local Simulator (built-in)"
  && session_running (control_actions ui s) = true ->
  reset_data ui = false ->
  detect_anomaly ev <> [] ->
  List.length (session_alerts (script_run ui ev s))
    = S (List.length (session_alerts s)) /\
  List.length (session_df (script_run ui ev s))
    = Nat.min MAX_EVENTS_KEEP (S (List.length (session_df s))).
Proof.
  intros Ht Hr Hd. unfold script_run. rewrite Ht.
  assert (Hc : session_alerts (control_actions ui s) = session_alerts s /\
               session_df (control_actions ui s) = session_df s).
  { unfold control_actions. rewrite Hr.
    destruct (run_sim ui), (stop_sim ui); split; reflexivity. }
  destruct Hc as [Hca Hcd]. split.
  - rewrite tick_alerts, length_app, Hca.
    destruct (detect_anomaly ev); [congruence|]. cbn [List.length]. lia.
  - cbn [tick session_df]. rewrite Hcd. apply length_append_event.
Qed.

Lemma alerting_ticks_lengths (runs : list (Sidebar * Event)) (s : Session) :
  alerting_ticks runs s = true ->
  List.length (session_alerts (run_all runs s))
    = (List.length (session_alerts s) + List.length runs)%nat /\
  (runs <> [] ->
   List.length (session_df (run_all runs s))
     = Nat.min MAX_EVENTS_KEEP (List.length (session_df s) + List.length runs)).
Proof.
  revert s. induction runs as [|[ui ev] runs IH]; intros s Hall.
  - cbn. split; [lia|congruence].
  - cbn [alerting_ticks fst snd] in Hall.
    rewrite !andb_true_iff in Hall.
    destruct Hall as [[[Ht Hr] Hd] Hrest].
    apply negb_true_iff in Hr.
    assert (Hne : detect_anomaly ev <> [])
      by (destruct (detect_anomaly ev); [discriminate Hd|discriminate]).
    destruct (alerting_tick_step ui ev s ltac:(apply andb_true_iff; exact Ht) Hr Hne) as [Ha Hs].
    destruct (IH _ Hrest) as [IHa IHs].
    cbn [run_all fold_left fst snd List.length].
    unfold run_all in IHa, IHs. rewrite IHa, Ha.
    split; [lia|]. intros _. destruct runs as [|r runs].
    + cbn [fold_left List.length]. rewrite Hs.
      generalize MAX_EVENTS_KEEP. intros. lia.
    + rewrite IHs by discriminate. rewrite Hs. cbn [List.length].
      generalize MAX_EVENTS_KEEP. intros. lia.
Qed.

(** X12: the alert log has no cap: when every run is a tick (simulator mode,
    running, Reset not pressed) whose reading raises an alert, n runs from the
    initial session leave n records in the log, while the store holds the
    smaller of n and MAX_EVENTS_KEEP rows. *)
Theorem alert_log_unbounded (runs : list (Sidebar * Event)) :
  alerting_ticks runs initial_session = true ->
  List.length (session_alerts (run_all runs initial_session))
    = List.length runs /\
  List.length (session_df (run_all runs initial_session))
    = Nat.min MAX_EVENTS_KEEP (List.length runs).
Proof.
  intros Hall.
  destruct (alerting_ticks_lengths runs initial_session Hall) as [Ha Hs].
  split; [exact Ha|].
  destruct runs as [|r runs]; [reflexivity|]. apply Hs. discriminate.
Qed.

(** 5001 ticks with readings that differ: the log outgrows the store. *)
Lemma alert_log_unbounded_witness :
  List.length (session_alerts (run_all over_capacity_runs initial_session))
    = 5001%nat /\
  List.length (session_df (run_all over_capacity_runs initial_session))
    = MAX_EVENTS_KEEP.
Proof.
  apply (alert_log_unbounded over_capacity_runs).
  vm_compute. reflexivity.
Defined.

(** ** Windows of the Analytics tab *)

Lemma ts_min_spec (first : Event) (rest : DataFrame) :
  Forall (fun e => ts_min first rest <= ts e) (first :: rest) /\
  exists e, In e (first :: rest) /\ ts e = ts_min first rest.
Proof.
  unfold ts_min.
  assert (H : forall (rows : DataFrame) (a : Z),
             fold_left (fun m e => Z.min m (ts e)) rows a <= a /\
             Forall (fun e => fold_left (fun m e => Z.min m (ts e)) rows a
                              <= ts e) rows /\
             (fold_left (fun m e => Z.min m (ts e)) rows a = a \/
              exists e, In e rows /\
                        ts e = fold_left (fun m e => Z.min m (ts e)) rows a)).
  { induction rows as [|r rows IH]; intros a; cbn [fold_left].
    - split; [lia|]. split; [constructor|left; reflexivity].
    - destruct (IH (Z.min a (ts r))) as [Hle [Hall Hatt]].
      split; [lia|]. split; [constructor; [lia|exact Hall]|].
      destruct Hatt as [Heq|[e [He Hts]]].
      + destruct (Z.min_spec a (ts r)) as [[_ Hm]|[_ Hm]]; rewrite Hm in Heq.
        * left. rewrite Hm. exact Heq.
        * right. exists r. split; [left; reflexivity|].
          rewrite Hm. symmetry. exact Heq.
      + right. exists e. split; [right; exact He|exact Hts]. }
  destruct (H rest (ts first)) as [Hle [Hall Hatt]].
  split; [constructor; assumption|].
  destruct Hatt as [Heq|[e [He Hts]]].
  - exists first. split; [left; reflexivity|]. symmetry. exact Heq.
  - exists e. split; [right; exact He|exact Hts].
Qed.

Lemma rows_since_all (cutoff : Z) (df : DataFrame) :
  Forall (fun e => cutoff <= ts e) df -> rows_since cutoff df = df.
Proof.
  unfold rows_since. induction 1 as [|e df He _ IH]; [reflexivity|].
  cbn [filter]. destruct (Z.leb_spec cutoff (ts e)); [|lia].
  f_equal. exact IH.
Qed.

Lemma rows_since_nested (T1 T2 : Z) (df : DataFrame) :
  T1 <= T2 -> Subsequence (rows_since T2 df) (rows_since T1 df).
Proof.
  intros Hle. rewrite <- (rows_since_twice T1 T2 df Hle).
  apply Subsequence_filter.
Qed.

(** X13: the four windows of the Analytics tab are nested: the readings of
    the last 5 minutes are among those of the last hour, these among those of
    the last 24 hours, and the window "All", whose start is the earliest
    timestamp of the store, selects every row. *)
Theorem analytics_windows_nested
        (now : Z) (first : Event) (rest : DataFrame) :
  Subsequence
    (rows_since (window_cutoff Last5Minutes now first rest) (first :: rest))
    (rows_since (window_cutoff Last1Hour now first rest) (first :: rest)) /\
  Subsequence
    (rows_since (window_cutoff Last1Hour now first rest) (first :: rest))
    (rows_since (window_cutoff Last24Hours now first rest) (first :: rest)) /\
  rows_since (window_cutoff AllEvents now first rest) (first :: rest) =
    first :: rest /\
  exists e, In e (first :: rest) /\
            ts e = window_cutoff AllEvents now first rest.
Proof.
  cbn [window_cutoff]. unfold minutes, hours.
  split; [apply rows_since_nested; lia|].
  split; [apply rows_since_nested; lia|].
  destruct (ts_min_spec first rest) as [Hall Hatt].
  split; [apply rows_since_all; exact Hall|exact Hatt].
Qed.

(** ** The Overview after a tick *)

Lemma iloc_neg1_last (kept : DataFrame) (e : Event) :
  iloc_neg1 (kept ++ [e]) = Ok e.
Proof.
  unfold iloc_neg1. rewrite length_app. cbn [List.length].
  replace (List.length kept + 1 - 1)%nat with (List.length kept) by lia.
  rewrite nth_error_app2 by lia. rewrite Nat.sub_diag. reflexivity.
Qed.

(** X14: right after a tick the Overview is never the placeholder: it shows
    the number of rows (between 1 and MAX_EVENTS_KEEP), the number of rows of
    the last five minutes (at most the former, and at least 1 when the new
    reading is that recent), and, when no row is that recent, the rounded
    speed and congestion of the reading just generated. *)
Theorem overview_after_tick
        (Series_mean : list float -> float)
        (round_scalar : float -> Z -> float)
        (ev : Event) (s : Session) (now : Z) :
  exists (recent : DataFrame) (avg_speed avg_congestion : float),
    recent = rows_since (now - minutes 5) (session_df (tick ev s)) /\
    show_overview Series_mean round_scalar (session_df (tick ev s)) now =
      Ok (OverviewMetrics (List.length (session_df (tick ev s)))
                          (List.length recent) avg_speed avg_congestion) /\
    (1 <= List.length (session_df (tick ev s)) <= MAX_EVENTS_KEEP)%nat /\
    (List.length recent <= List.length (session_df (tick ev s)))%nat /\
    (now - minutes 5 <= ts ev -> (1 <= List.length recent)%nat) /\
    (recent = [] ->
     avg_speed = round_scalar (AverageSpeedKMH ev) 2 /\
     avg_congestion = round_scalar (CongestionPercentage ev) 2).
Proof.
  cbn [tick session_df].
  assert (Hshape : exists kept, append_event ev (session_df s) = kept ++ [ev]).
  { rewrite append_event_rows, length_app. cbn [List.length].
    rewrite skipn_app.
    replace (List.length (session_df s) + 1 - MAX_EVENTS_KEEP
             - List.length (session_df s))%nat with 0%nat
      by (unfold MAX_EVENTS_KEEP; lia).
    eexists. reflexivity. }
  destruct Hshape as [kept Hkept].
  pose proof (length_append_event ev (session_df s)) as Hlen.
  rewrite Hkept in *.
  exists (rows_since (now - minutes 5) (kept ++ [ev])).
  unfold show_overview.
  assert (Hne : df_empty (kept ++ [ev]) = false) by (destruct kept; reflexivity).
  rewrite Hne, iloc_neg1_last. cbn [bind].
  eexists. eexists. split; [reflexivity|]. split; [reflexivity|].
  split; [unfold MAX_EVENTS_KEEP in *; lia|].
  split; [apply filter_length_le|].
  split.
  - intros Hrecent. unfold rows_since. rewrite filter_app, length_app.
    cbn [filter]. destruct (Z.leb_spec (now - minutes 5) (ts ev)); [|lia].
    cbn [List.length]. lia.
  - intros ->. cbn [df_empty negb]. split; reflexivity.
Qed.

(** ** The table of locations with the catalog's names *)

(** X15: when every reading names a location of the catalog (as generated
    readings do), the table of top locations has at most 7 rows and head(10)
    drops none: every location present in the readings is listed. *)
Theorem toploc_lists_every_location
        (Series_mean : list float -> float)
        (filtered : DataFrame) (shown : list (string * float)) :
  toploc_head Series_mean filtered shown ->
  Forall (fun e => In (LocationName e) (map loc_name LOCATIONS)) filtered ->
  Permutation (group_means Series_mean filtered) shown /\
  (List.length shown <= 7)%nat /\
  (forall e, In e filtered -> In (LocationName e) (map fst shown)).
Proof.
  intros [toploc [[Hperm Hsorted] ->]] Hnames.
  destruct (group_keys_spec filtered) as [Hkeys Hin].
  assert (Hlen : (List.length toploc <= 7)%nat).
  { rewrite <- (Permutation_length Hperm).
    rewrite <- (length_map fst), group_means_keys.
    change 7%nat with (List.length (map loc_name LOCATIONS)).
    apply NoDup_incl_length; [apply sorted_keys_NoDup; exact Hkeys|].
    intros k Hk. apply Hin in Hk. destruct Hk as [e [He <-]].
    rewrite Forall_forall in Hnames. apply Hnames. exact He. }
  rewrite firstn_all2 by lia.
  split; [exact Hperm|]. split; [exact Hlen|].
  intros e He.
  apply (Permutation_in _ (Permutation_map fst Hperm)).
  rewrite group_means_keys. apply Hin. exists e. split; [exact He|reflexivity].
Qed.

(** The sample readings of two catalog locations. *)
Lemma toploc_lists_every_location_witness :
  Permutation (group_means sample_mean rank_readings)
              [("Maadi Corniche", 80%float); ("Tahrir Square", 60%float)] /\
  (List.length [("Maadi Corniche", 80%float); ("Tahrir Square", 60%float)]
   <= 7)%nat /\
  (forall e, In e rank_readings ->
             In (LocationName e)
                (map fst [("Maadi Corniche", 80%float);
                          ("Tahrir Square", 60%float)])).
Proof.
  apply (toploc_lists_every_location sample_mean rank_readings).
  - exists [("Maadi Corniche", 80%float); ("Tahrir Square", 60%float)].
    split; [|reflexivity]. split.
    + vm_compute. apply Permutation_refl.
    + apply SSorted_cons;
        [apply SSorted_cons; [apply SSorted_nil|apply Forall_nil]|].
      apply Forall_cons; [right; reflexivity|apply Forall_nil].
  - repeat (apply Forall_cons; [cbn; tauto|]). apply Forall_nil.
Defined.

(** ** Tabs *)

(** X16: the tabs appear in the fixed order Overview, Map, Analytics,
    Alerts, one per ticked box; the container of a tab is found exactly when
    its box is ticked (the lookup the script guards with that box never
    raises), and it is the container of that tab. *)
Theorem tab_lookup (c : TabChoice) :
  Subsequence (tabs c) ["Overview"; "Map"; "Analytics"; "Alerts"] /\
  List.length (tabs c) =
    ((if tab_overview c then 1 else 0) + (if tab_map c then 1 else 0) +
     (if tab_analytics c then 1 else 0) + (if tab_alerts c then 1 else 0))%nat /\
  tab_for "Overview" c =
    (if tab_overview c then Ok "Overview" else Raise ValueError) /\
  tab_for "Map" c = (if tab_map c then Ok "Map" else Raise ValueError) /\
  tab_for "Analytics" c =
    (if tab_analytics c then Ok "Analytics" else Raise ValueError) /\
  tab_for "Alerts" c =
    (if tab_alerts c then Ok "Alerts" else Raise ValueError).
Proof.
  destruct c as [[|] [|] [|] [|]];
    (split; [cbn; repeat constructor|]); repeat split.
Qed.

(** ** The Alerts tab *)

Lemma first_phrase_no_comma (s : string) :
  has_comma s = false -> first_phrase s = s.
Proof.
  induction s as [|ch s IH]; [reflexivity|]. cbn [has_comma first_phrase].
  destruct (Ascii.eqb ch ","); [discriminate|]. cbn [orb].
  intros H. rewrite (IH H). reflexivity.
Qed.

Lemma first_phrase_before_comma (s rest : string) :
  has_comma s = false -> first_phrase (s ++ String "," rest) = s.
Proof.
  induction s as [|ch s IH]; [reflexivity|].
  cbn [has_comma first_phrase String.append].
  destruct (Ascii.eqb ch ","); [discriminate|]. cbn [orb].
  intros H. rewrite (IH H). reflexivity.
Qed.

Lemma has_comma_app (s t : string) :
  has_comma (s ++ t) = has_comma s || has_comma t.
Proof.
  induction s as [|ch s IH]; [reflexivity|].
  cbn [String.append has_comma]. rewrite IH, orb_assoc. reflexivity.
Qed.

Lemma detect_anomaly_labels_no_comma (e : Event) :
  has_comma (TrafficIncident e) = false ->
  Forall (fun label => has_comma label = false) (detect_anomaly e).
Proof.
  intros Hi. rewrite detect_anomaly_by_rule. unfold rule.
  assert (Hl : has_comma ("Incident: " ++ TrafficIncident e) = false)
    by (rewrite has_comma_app, Hi; reflexivity).
  destruct (AverageSpeedKMH e <? 10)%float,
           (100 <? AverageSpeedKMH e)%float,
           (120 <? CongestionPercentage e)%float,
           (85 <? CongestionPercentage e)%float,
           (negb (String.eqb (TrafficIncident e) "None"));
    cbn [app]; repeat constructor; exact Hl.
Qed.

Lemma first_phrase_of_joined_labels (ev : Event) :
  has_comma (TrafficIncident ev) = false ->
  first_phrase (Py.join ", " (detect_anomaly ev)) = hd "" (detect_anomaly ev).
Proof.
  intros Hi. pose proof (detect_anomaly_labels_no_comma ev Hi) as Hall.
  destruct (detect_anomaly ev) as [|l rest]; [reflexivity|].
  inversion Hall as [|? ? Hl _]; subst. cbn [hd].
  destruct rest as [|l' rest]; cbn [Py.join].
  - apply first_phrase_no_comma. exact Hl.
  - apply first_phrase_before_comma. exact Hl.
Qed.

(** X17: for a reading whose incident text has no comma (every incident of
    the list), the type the Alerts tab extracts from the stored alert text,
    the text before its first comma, is the first label the detector
    returned. *)
Theorem alert_type_is_first_label (ev : Event) :
  has_comma (TrafficIncident ev) = false ->
  first_phrase (Py.join ", " (detect_anomaly ev)) = hd "" (detect_anomaly ev).
Proof. exact (first_phrase_of_joined_labels ev). Qed.

(** The reading of the anomaly run, with its incident from the list. *)
Lemma alert_type_is_first_label_witness :
  first_phrase (Py.join ", " (detect_anomaly anomaly_event)) =
  hd "" (detect_anomaly anomaly_event).
Proof.
  apply (alert_type_is_first_label anomaly_event). reflexivity.
Defined.

(** ** Value counts *)

Lemma list_sum_Permutation (l l' : list nat) :
  Permutation l l' -> list_sum l = list_sum l'.
Proof.
  unfold list_sum. induction 1; cbn [fold_right]; lia.
Qed.

Lemma count_sum_over_keys (xs keys : list string) :
  NoDup keys -> incl xs keys ->
  list_sum (map (count_occ string_dec xs) keys) = List.length xs.
Proof.
  intros Hnd. induction xs as [|x xs IH]; intros Hincl.
  - cbn [count_occ List.length]. clear Hnd Hincl.
    induction keys as [|k keys IHk]; [reflexivity|].
    cbn [map list_sum fold_right Nat.add]. exact IHk.
  - assert (Hx : In x keys) by (apply Hincl; left; reflexivity).
    assert (Hxs : incl xs keys) by (intros y Hy; apply Hincl; right; exact Hy).
    specialize (IH Hxs). cbn [List.length]. rewrite <- IH.
    clear IH Hincl Hxs.
    induction keys as [|k keys IHk]; [destruct Hx|].
    inversion Hnd as [|? ? Hk Hnd']; subst.
    unfold list_sum in *. cbn [map fold_right].
    destruct (string_dec x k) as [->|Hne].
    + rewrite (count_occ_cons_eq string_dec xs (eq_refl k)).
      assert (Hrest : map (count_occ string_dec (k :: xs)) keys =
                      map (count_occ string_dec xs) keys).
      { apply map_ext_in. intros y Hy.
        apply count_occ_cons_neq. intros ->. contradiction. }
      rewrite Hrest. lia.
    + rewrite (count_occ_cons_neq string_dec xs Hne).
      destruct Hx as [Hx|Hx]; [congruence|].
      rewrite (IHk Hnd' Hx). lia.
Qed.

(** What a value count lists. *)
Lemma value_counts_facts (xs : list string) (out : list (string * nat)) :
  value_counts xs out ->
  list_sum (map snd out) = List.length xs /\
  NoDup (map fst out) /\
  (forall x, In x xs <-> In x (map fst out)) /\
  (forall k n, In (k, n) out ->
               n = count_occ string_dec xs k /\ (1 <= n)%nat /\ In k xs).
Proof.
  intros [Hperm Hsorted].
  set (rows := map (fun k => (k, count_occ string_dec xs k))
                   (nodup string_dec xs)) in *.
  assert (Hfst : map fst rows = nodup string_dec xs).
  { unfold rows. rewrite map_map. cbn [fst]. apply map_id. }
  assert (Hsnd : map snd rows =
                 map (count_occ string_dec xs) (nodup string_dec xs)).
  { unfold rows. rewrite map_map. reflexivity. }
  split.
  { rewrite <- (list_sum_Permutation _ _ (Permutation_map snd Hperm)), Hsnd.
    apply count_sum_over_keys; [apply NoDup_nodup|].
    intros x Hx. apply nodup_In. exact Hx. }
  split.
  { apply (Permutation_NoDup (Permutation_map fst Hperm)).
    rewrite Hfst. apply NoDup_nodup. }
  split.
  { intros x. rewrite <- (nodup_In string_dec), <- Hfst. split; intros H.
    - apply (Permutation_in _ (Permutation_map fst Hperm)). exact H.
    - apply (Permutation_in _ (Permutation_sym (Permutation_map fst Hperm))).
      exact H. }
  intros k n Hin.
  apply (Permutation_in _ (Permutation_sym Hperm)) in Hin.
  unfold rows in Hin. apply in_map_iff in Hin.
  destruct Hin as [k' [Heq Hk]]. injection Heq as <- <-.
  apply nodup_In in Hk.
  split; [reflexivity|]. split; [|exact Hk].
  apply (count_occ_In string_dec) in Hk. lia.
Qed.

(** X18: the vehicle-type distribution lists each vehicle type of the
    filtered readings once, with the number of readings of that type (at
    least 1), the counts descending; the counts add up to the number of
    filtered readings. *)
Theorem vdist_total (filtered : DataFrame) (out : list (string * nat)) :
  vdist filtered out ->
  list_sum (map snd out) = List.length filtered /\
  NoDup (map fst out) /\
  StronglySorted (fun a b => (snd b <= snd a)%nat) out /\
  (forall e, In e filtered -> In (DominantVehicleType e) (map fst out)) /\
  (forall k n,
      In (k, n) out ->
      (1 <= n)%nat /\
      n = List.length
            (filter (fun e => String.eqb (DominantVehicleType e) k) filtered)).
Proof.
  intros Hvc. pose proof Hvc as [_ Hsorted].
  destruct (value_counts_facts _ _ Hvc) as [Hsum [Hnd [Hin Hrows]]].
  rewrite length_map in Hsum.
  split; [exact Hsum|]. split; [exact Hnd|]. split; [exact Hsorted|].
  split.
  - intros e He. apply Hin. apply in_map. exact He.
  - intros k n Hkn. destruct (Hrows k n Hkn) as [-> [Hn _]].
    split; [exact Hn|].
    clear. induction filtered as [|e df IH]; [reflexivity|].
    cbn [map filter]. destruct (String.eqb_spec (DominantVehicleType e) k).
    + rewrite count_occ_cons_eq by assumption. cbn [List.length].
      f_equal. exact IH.
    + rewrite count_occ_cons_neq by assumption. exact IH.
Qed.

(** Three readings of one vehicle type. *)
Lemma vdist_total_witness :
  list_sum (map snd [("Car", 3%nat)]) = List.length (sample_events 3) /\
  NoDup (map fst [("Car", 3%nat)]).
Proof.
  assert (H : vdist (sample_events 3) [("Car", 3%nat)]).
  { split.
    - vm_compute. apply Permutation_refl.
    - apply SSorted_cons; [apply SSorted_nil|apply Forall_nil]. }
  destruct (vdist_total _ _ H) as [Hsum [Hnd _]].
  split; [exact Hsum|exact Hnd].
Defined.

(** X19: in the bar chart of the Alerts tab, built from alerts recorded by
    the script for readings whose incident text has no comma, the counts add
    up to the number of alerts, and every type listed is the first label the
    detector returned for one of the alerts (never an empty text). *)
Theorem alert_type_counts_total
        (alerts : list Alert) (out : list (string * nat)) :
  alert_type_counts alerts out ->
  Forall alert_well_formed alerts ->
  Forall (fun a => has_comma (TrafficIncident (alert_raw a)) = false) alerts ->
  list_sum (map snd out) = List.length alerts /\
  (forall k n,
      In (k, n) out ->
      (1 <= n)%nat /\ k <> "" /\
      exists a, In a alerts /\
                In k (detect_anomaly (alert_raw a)) /\
                k = hd "" (detect_anomaly (alert_raw a))).
Proof.
  intros Hvc Hwf Hnc.
  destruct (value_counts_facts _ _ Hvc) as [Hsum [_ [_ Hrows]]].
  rewrite length_map in Hsum. split; [exact Hsum|].
  intros k n Hkn. destruct (Hrows k n Hkn) as [_ [Hn Hk]].
  split; [exact Hn|].
  apply in_map_iff in Hk. destruct Hk as [a [Hka Ha]].
  rewrite Forall_forall in Hwf, Hnc.
  destruct (Hwf a Ha) as [Hne [Hev _]]. specialize (Hnc a Ha).
  rewrite Hev, (first_phrase_of_joined_labels _ Hnc) in Hka.
  pose proof (detect_anomaly_labels_nonempty (alert_raw a)) as Hlab.
  destruct (detect_anomaly (alert_raw a)) as [|l rest] eqn:Hd; [congruence|].
  cbn [hd] in Hka. subst k.
  inversion Hlab as [|? ? Hl _]; subst.
  split; [exact Hl|].
  exists a. split; [exact Ha|]. rewrite Hd. split; [left|]; reflexivity.
Qed.

(** The log after one tick with the reading of the anomaly run. *)
Lemma alert_type_counts_total_witness :
  list_sum (map snd [("Incident: Major Accident", 1%nat)]) =
    List.length [anomaly_alert] /\
  (forall k n,
      In (k, n) [("Incident: Major Accident", 1%nat)] ->
      (1 <= n)%nat /\ k <> "" /\
      exists a, In a [anomaly_alert] /\
                In k (detect_anomaly (alert_raw a)) /\
                k = hd "" (detect_anomaly (alert_raw a))).
Proof.
  apply (alert_type_counts_total [anomaly_alert]).
  - split.
    + vm_compute. apply Permutation_refl.
    + apply SSorted_cons; [apply SSorted_nil|apply Forall_nil].
  - apply Forall_cons; [|apply Forall_nil].
    unfold alert_well_formed. repeat split; try reflexivity;
      vm_compute; discriminate.
  - apply Forall_cons; [reflexivity|apply Forall_nil].
Defined.

(** ** The Map tab *)

Lemma sorted_keys_spec (xs : list string) :
  StronglySorted string_lt (sorted_keys xs) /\
  (forall k, In k (sorted_keys xs) <-> In k xs).
Proof.
  unfold sorted_keys.
  assert (H : forall acc,
             StronglySorted string_lt acc ->
             StronglySorted string_lt
               (fold_left (fun keys x => insert_key x keys) xs acc) /\
             (forall k,
                 In k (fold_left (fun keys x => insert_key x keys) xs acc) <->
                 In k acc \/ In k xs)).
  { induction xs as [|x xs IH]; intros acc Hacc; cbn [fold_left].
    - split; [exact Hacc|]. intros k. cbn [In]. tauto.
    - destruct (IH _ (insert_key_sorted x acc Hacc)) as [Hs Hin].
      split; [exact Hs|]. intros k. rewrite Hin, insert_key_In. cbn [In].
      intuition congruence. }
  destruct (H [] (SSorted_nil _)) as [Hs Hin].
  split; [exact Hs|]. intros k. rewrite Hin. cbn [In]. tauto.
Qed.

Lemma last_valid_snoc (xs : list float) (x : float) :
  last_valid (xs ++ [x]) = if is_nan x then last_valid xs else x.
Proof. unfold last_valid. rewrite fold_left_app. reflexivity. Qed.

Lemma StronglySorted_filter {A : Type} (R : A -> A -> Prop) (p : A -> bool)
      (l : list A) :
  StronglySorted R l -> StronglySorted R (filter p l).
Proof.
  induction 1 as [|a l Hs IH Ha]; cbn [filter]; [constructor|].
  destruct (p a); [|exact IH]. constructor; [exact IH|].
  rewrite Forall_forall in *. intros x Hx. apply filter_In in Hx.
  apply Ha. tauto.
Qed.

Lemma StronglySorted_last {A : Type} (R : A -> A -> Prop)
      (pre : list A) (r : A) :
  StronglySorted R (pre ++ [r]) -> Forall (fun a => R a r) pre.
Proof.
  induction pre as [|a pre IH]; cbn [app]; intros H; [constructor|].
  apply StronglySorted_inv in H. destruct H as [Hs Ha].
  constructor; [|apply IH; exact Hs].
  rewrite Forall_forall in Ha. apply Ha. apply in_or_app. right. left.
  reflexivity.
Qed.

(** The row [GroupBy.last()] builds for a group: the fields of the last row,
    and that row itself when it holds no NaN. *)
Lemma group_last_spec (rows : DataFrame) (marker : Event) :
  group_last rows = Some marker ->
  exists pre r,
    rows = pre ++ [r] /\
    ts marker = ts r /\ LocationID marker = LocationID r /\
    LocationName marker = LocationName r /\
    VehicleCount marker = VehicleCount r /\
    (no_nan r -> marker = r).
Proof.
  unfold group_last. destruct (rev rows) as [|r t] eqn:Hrev; [discriminate|].
  intros H. injection H as <-.
  assert (Hrows : rows = rev t ++ [r]).
  { rewrite <- (rev_involutive rows), Hrev. reflexivity. }
  exists (rev t), r. split; [exact Hrows|]. cbn.
  repeat (split; [reflexivity|]).
  intros [H1 [H2 [H3 [H4 H5]]]]. rewrite Hrows, !map_app. cbn [map].
  rewrite !last_valid_snoc, H1, H2, H3, H4, H5.
  destruct r; reflexivity.
Qed.

Lemma markers_spec (df sorted : DataFrame) (keys : list string)
      (out : DataFrame) :
  Permutation df sorted ->
  StronglySorted (fun a b => ts a <= ts b) sorted ->
  Forall2 (fun id marker =>
             group_last
               (filter (fun e => String.eqb (LocationID e) id) sorted)
             = Some marker) keys out ->
  map LocationID out = keys /\
  Forall (fun marker =>
            (exists r, In r df /\
                       LocationID r = LocationID marker /\
                       ts r = ts marker /\
                       LocationName r = LocationName marker /\
                       VehicleCount r = VehicleCount marker) /\
            (forall r, In r df -> LocationID r = LocationID marker ->
                       ts r <= ts marker) /\
            (Forall no_nan df -> In marker df))
         out.
Proof.
  intros Hperm Hsorted Hall.
  induction Hall as [|id marker keys out Hg _ IH];
    [split; [reflexivity|constructor]|].
  destruct IH as [IHk IHf].
  destruct (group_last_spec _ _ Hg)
    as [pre [r [Hrows [Hts [Hid [Hname [Hvc Hsame]]]]]]].
  assert (Hr : In r (filter (fun e => String.eqb (LocationID e) id) sorted)).
  { rewrite Hrows. apply in_or_app. right. left. reflexivity. }
  apply filter_In in Hr. destruct Hr as [Hrs Hrid].
  apply String.eqb_eq in Hrid.
  assert (Hrdf : In r df)
    by (apply (Permutation_in _ (Permutation_sym Hperm)); exact Hrs).
  split; [cbn [map]; rewrite IHk; f_equal; congruence|].
  constructor; [|exact IHf].
  split; [exists r; repeat split; solve [assumption | congruence]|].
  split.
  - intros r' Hr' Hid'.
    assert (Hin' : In r' (filter (fun e => String.eqb (LocationID e) id)
                                 sorted)).
    { apply filter_In. split; [apply (Permutation_in _ Hperm); exact Hr'|].
      apply String.eqb_eq. congruence. }
    pose proof (StronglySorted_filter _
                  (fun e => String.eqb (LocationID e) id) _ Hsorted) as Hfs.
    rewrite Hrows in Hin', Hfs.
    apply StronglySorted_last in Hfs. rewrite Forall_forall in Hfs.
    apply in_app_or in Hin'. destruct Hin' as [Hp|[<-|[]]].
    + rewrite Hts. apply Hfs. exact Hp.
    + lia.
  - intros Hnn. rewrite Forall_forall in Hnn.
    rewrite (Hsame (Hnn r Hrdf)). exact Hrdf.
Qed.

(** X20: the markers of the Map tab: one per location of the store, the
    locations ascending by id; a marker carries the greatest timestamp among
    the readings of its location, with the name and vehicle count of a
    reading that has it, and is that reading itself when the readings hold no
    NaN. Which of several readings with the same greatest timestamp is taken
    is not fixed by the code. *)
Theorem latest_per_location (df out : DataFrame) :
  latest_per_loc df out ->
  map LocationID out = sorted_keys (map LocationID df) /\
  NoDup (map LocationID out) /\
  (forall e, In e df -> In (LocationID e) (map LocationID out)) /\
  Forall (fun marker =>
            (exists r, In r df /\
                       LocationID r = LocationID marker /\
                       ts r = ts marker /\
                       LocationName r = LocationName marker /\
                       VehicleCount r = VehicleCount marker) /\
            (forall r, In r df -> LocationID r = LocationID marker ->
                       ts r <= ts marker) /\
            (Forall no_nan df -> In marker df))
         out.
Proof.
  intros [sorted [[Hperm Hsorted] Hall]].
  destruct (sorted_keys_spec (map LocationID df)) as [Hkeys Hin].
  destruct (markers_spec df sorted _ out Hperm Hsorted Hall) as [Hk Hf].
  split; [exact Hk|]. split; [rewrite Hk; apply sorted_keys_NoDup; exact Hkeys|].
  split; [|exact Hf].
  intros e He. rewrite Hk. apply Hin. apply in_map. exact He.
Qed.

(** Three readings of two locations. *)
Lemma latest_per_location_witness :
  map LocationID [reading_at "Maadi Corniche" 80; sample_event 7] =
    sorted_keys (map LocationID map_readings) /\
  NoDup (map LocationID [reading_at "Maadi Corniche" 80; sample_event 7]).
Proof.
  assert (H : latest_per_loc map_readings
                [reading_at "Maadi Corniche" 80; sample_event 7]).
  { exists [sample_event 3; sample_event 7; reading_at "Maadi Corniche" 80].
    split; [split|].
    - apply perm_skip. apply perm_swap.
    - repeat (apply SSorted_cons;
              [|repeat (apply Forall_cons; [cbn; lia|]); apply Forall_nil]).
      apply SSorted_nil.
    - vm_compute. repeat (apply Forall2_cons; [reflexivity|]).
      apply Forall2_nil. }
  destruct (latest_per_location _ _ H) as [Hk [Hnd _]].
  split; [exact Hk|exact Hnd].
Defined.

(** ** Empty windows *)

(** X21: a window holds no reading exactly when every reading is older than
    its start, and then the tables of the Analytics tab are empty: no
    location row and no vehicle-type row. *)
Theorem empty_window_tables (Series_mean : list float -> float) :
  (forall (cutoff : Z) (df : DataFrame),
      rows_since cutoff df = [] <-> Forall (fun e => ts e < cutoff) df) /\
  (forall shown, toploc_head Series_mean [] shown <-> shown = []) /\
  (forall out, vdist [] out <-> out = []).
Proof.
  split; [|split].
  - intros cutoff df. unfold rows_since. induction df as [|e df IH].
    + split; [constructor|reflexivity].
    + cbn [filter]. destruct (Z.leb_spec cutoff (ts e)).
      * split; [discriminate|]. intros Hall. inversion Hall; subst. lia.
      * rewrite IH. split; intros Hall.
        -- constructor; assumption.
        -- inversion Hall; subst. assumption.
  - intros shown. split.
    + intros [toploc [[Hperm _] ->]]. cbn in Hperm.
      apply Permutation_nil in Hperm. subst toploc. reflexivity.
    + intros ->. exists []. split; [|reflexivity].
      split; [apply perm_nil|constructor].
  - intros out. split.
    + intros [Hperm _]. cbn in Hperm. apply Permutation_nil in Hperm.
      exact Hperm.
    + intros ->. split; [apply perm_nil|constructor].
Qed.

(** ** From the generator to the alert chart *)

(** X22: the labels the detector returns for a generated reading are among
    nine fixed labels (four for speed and congestion, five for the incidents
    other than "None"), none with a comma, so the type the Alerts tab reads
    back from the alert text of a generated reading is its first label. *)
Theorem generated_alert_labels
        (iso : Z -> string) (hr : Z -> Z) (d : Draws) (now : Z) :
  exists ev,
    generate_realistic_traffic_data iso hr d now = Ok ev /\
    incl (detect_anomaly ev) ALERT_LABELS /\
    first_phrase (Py.join ", " (detect_anomaly ev)) =
      hd "" (detect_anomaly ev).
Proof.
  destruct (generate_fields iso hr d now)
    as [loc [lo [hi [drawn [vc [pct [vt [incident [weather H]]]]]]]]].
  destruct H as [_ [_ [_ [_ [_ [_ [_ [Hi [_ Heq]]]]]]]]].
  eexists. split; [exact Heq|].
  split.
  - rewrite detect_anomaly_by_rule. cbn [AverageSpeedKMH CongestionPercentage
      TrafficIncident]. unfold rule.
    destruct (_ <? 10)%float, (100 <? _)%float, (120 <? pct)%float,
      (85 <? pct)%float;
      cbn [In TRAFFIC_INCIDENTS] in Hi;
      destruct Hi as [<-|[<-|[<-|[<-|[<-|[<-|[]]]]]]];
      cbn [String.eqb Ascii.eqb Bool.eqb negb app String.append];
      intros l Hl; cbn [In] in Hl; unfold ALERT_LABELS; cbn [In];
      intuition.
  - apply first_phrase_of_joined_labels. cbn [TrafficIncident].
    cbn [In TRAFFIC_INCIDENTS] in Hi.
    destruct Hi as [<-|[<-|[<-|[<-|[<-|[<-|[]]]]]]]; reflexivity.
Qed.

(** ** Night hours *)

Lemma night_locations_ok : forallb night_location_ok LOCATIONS = true.
Proof. vm_compute. reflexivity. Qed.

Lemma at_most_120_not_over (c : float) :
  (c <=? 120)%float = true -> (120 <? c)%float = false.
Proof.
  rewrite (leb_key c 120), (ltb_key 120 c), float_key_120.
  destruct (float_key c) as [k|]; [|discriminate].
  rewrite Z.leb_le, Z.ltb_ge. lia.
Qed.

Lemma at_most_85_not_over (c : float) :
  (c <=? 85)%float = true -> (85 <? c)%float = false.
Proof.
  rewrite (leb_key c 85), (ltb_key 85 c), float_key_85.
  destruct (float_key c) as [k|]; [|discriminate].
  rewrite Z.leb_le, Z.ltb_ge. lia.
Qed.

Lemma high_congestion_label (e : Event) :
  In "High congestion" (detect_anomaly e) ->
  (85 <? CongestionPercentage e)%float = true.
Proof.
  rewrite detect_anomaly_by_rule.
  destruct (AverageSpeedKMH e <? 10)%float,
           (100 <? AverageSpeedKMH e)%float,
           (120 <? CongestionPercentage e)%float,
           (85 <? CongestionPercentage e)%float,
           (String.eqb (TrafficIncident e) "None");
    label_cases.
Qed.

(** X23: at night (local hour up to 6 or from 22) a generated reading is
    never reported Over capacity, and without the spike it raises no
    congestion alert at all. *)
Theorem night_readings_not_over_capacity
        (iso : Z -> string) (hr : Z -> Z) (d : Draws) (now : Z) :
  hr now <= 6 \/ 22 <= hr now ->
  exists ev,
    generate_realistic_traffic_data iso hr d now = Ok ev /\
    ~ In "Over capacity" (detect_anomaly ev) /\
    ((draw_spike d <? 0.05)%float = false ->
     ~ In "High congestion" (detect_anomaly ev)).
Proof.
  intros Hnight.
  destruct (generate_fields iso hr d now)
    as [loc [lo [hi [drawn [vc [pct [vt [incident [weather H]]]]]]]]].
  destruct H as [Hloc [Hr [Hd [Hs [Hpct [_ [_ [_ [_ Heq]]]]]]]]].
  assert (Hrf : calculate_rush_hour_factor (hr now) = 0.4%float)
    by (apply rush_factor_by_hour; exact Hnight).
  rewrite Hrf in Hr.
  pose proof night_locations_ok as Hall.
  rewrite forallb_forall in Hall. specialize (Hall loc Hloc).
  unfold night_location_ok in Hall. rewrite Hr, forallb_forall in Hall.
  specialize (Hall drawn (In_Zrange lo hi drawn Hd)).
  apply andb_true_iff in Hall. destruct Hall as [Ht Hf].
  assert (Hc : night_count_ok (loc_cap loc) drawn
                              (draw_spike d <? 0.05)%float = true)
    by (destruct (draw_spike d <? 0.05)%float; assumption).
  unfold night_count_ok in Hc. rewrite Hs, Hpct in Hc.
  apply andb_true_iff in Hc. destruct Hc as [H120 H85].
  eexists. split; [exact Heq|]. split.
  - intros Hin. apply over_capacity_label in Hin.
    cbn [CongestionPercentage] in Hin.
    rewrite (at_most_120_not_over _ H120) in Hin. discriminate.
  - intros Hno Hin. rewrite Hno in H85. cbn [orb] in H85.
    apply high_congestion_label in Hin. cbn [CongestionPercentage] in Hin.
    rewrite (at_most_85_not_over _ H85) in Hin. discriminate.
Qed.

(** A run at three in the morning. *)
Lemma night_readings_not_over_capacity_witness :
  exists ev,
    generate_realistic_traffic_data sample_isoformat (fun _ => 3) anomaly_draws
                                    1704110400000000 = Ok ev /\
    ~ In "Over capacity" (detect_anomaly ev) /\
    ((draw_spike anomaly_draws <? 0.05)%float = false ->
     ~ In "High congestion" (detect_anomaly ev)).
Proof.
  apply (night_readings_not_over_capacity sample_isoformat (fun _ => 3)
                                          anomaly_draws 1704110400000000).
  left. lia.
Defined.

(** ** The store while the simulator runs *)

Lemma running_store (es : list Event) (s : Session) :
  session_df (run_all (map (fun e => (start_pressed, e)) es) s) =
  append_all es (session_df s).
Proof.
  revert s. induction es as [|e es IH]; intros s; [reflexivity|].
  cbn [map run_all fold_left fst snd append_all].
  fold (run_all (map (fun e => (start_pressed, e)) es)
                (script_run start_pressed e s)).
  rewrite IH. reflexivity.
Qed.

(** X24: while Start stays pressed in simulator mode, the store after the
    runs is the result of appending the generated readings one by one: the
    last MAX_EVENTS_KEEP of them (all of them up to that number), in the order
    they were generated. *)
Theorem store_while_running (es : list Event) :
  session_df (run_all (map (fun e => (start_pressed, e)) es) initial_session)
    = append_all es [] /\
  session_df (run_all (map (fun e => (start_pressed, e)) es) initial_session)
    = skipn (List.length es - MAX_EVENTS_KEEP) es.
Proof.
  rewrite running_store. cbn [initial_session session_df].
  split; [reflexivity|].
  destruct es as [|e es]; [reflexivity|].
  rewrite append_all_rows. reflexivity.
Qed.
